(** * cv_builder: the LaTeX escaper and the build pipeline

    A shallow embedding of [render_cv.py] and [chief_render_cv.py]:
    the escaping filter [latex_escape], the asset helpers
    [_resolve_asset_path] and [_copy_asset_to_workdir], the two build
    functions [render_and_compile] and [render_and_compile_chief], and
    [cleanup_workdir]; and of the form applications [app.py],
    [chief_app.py] and [chief_super_app.py]: the helpers [move_item],
    [slugify_profile], [profile_paths], [list_profiles] and
    [save_profile_from_state], and the code that the button
    [Generate PDF] runs.

    Conventions.
    - A Python [str] is a [string]; non-ASCII text is held as its UTF-8
      bytes, one [ascii] per byte.  The ten keys of [replacements] are
      ASCII characters and every byte of a multi-byte UTF-8 sequence is
      at least 128, so looking up each code point and looking up each
      byte give the same text.
    - [bytes] is a [list byte].
    - Effects (file system, dict objects, subprocesses, temporary names,
      standard output) are threaded through a state-and-exception monad
      over [world].
    - The file system has no symbolic links and records, of the
      permissions, the permission to write.  An entry is kept at its
      location, the list of names from the root.  The asset resolver,
      whose paths come from the caller, looks a path up as the kernel
      does, component by component ([Path_exists], [Path_resolve]);
      the other functions take the entry at the location that the path
      names once its [..] components are removed ([key]), which is the
      same entry for the paths that the program makes itself. *)

From Stdlib Require Import String Ascii List ZArith Lia.
From Stdlib.Strings Require Import Byte.
From stdpp Require Import gmap strings list fin_maps sorting.

Open Scope string_scope.
Open Scope list_scope.

(** ** Text helpers *)

(** The one-character string, as produced by iterating over a [str]. *)
Definition chr (c : ascii) : string := String c "".

(** Line feed. *)
Definition nl : string := chr "010".

(** [sep.join(parts)]. *)
Definition join (sep : string) (parts : list string) : string :=
  String.concat sep parts.

(** ** Python values *)

Section Values.

(** Objects other than [None] and [str]: numbers, lists of records, ...
    The embedding only needs what the code asks of them: [str(o)],
    truthiness, and [os.fspath(o)] (defined for path-like objects). *)
Variable pyobj : Type.
Variable obj_str : pyobj -> string.

Inductive value : Type :=
  | VNone
  | VStr (s : string)
  | VObj (o : pyobj).

(** [str(value)] for a value that is not [None]; [str(None)] is the
    text [None]. *)
Definition py_str (v : value) : string :=
  match v with
  | VNone => "None"
  | VStr s => s
  | VObj o => obj_str o
  end.

(** ** The escaper *)

(** The [replacements] dict literal of [latex_escape]. *)
Definition replacements : gmap ascii string :=
  list_to_map
    [ ("\"%char, "\textbackslash{}");
      ("&"%char, "\&");
      ("%"%char, "\%");
      ("$"%char, "\$");
      ("#"%char, "\#");
      ("_"%char, "\_");
      ("{"%char, "\{");
      ("}"%char, "\}");
      ("~"%char, "\textasciitilde{}");
      ("^"%char, "\textasciicircum{}") ].

(** [replacements.get(ch, ch)]. *)
Definition replacements_get (ch : ascii) : string :=
  default (chr ch) (replacements !! ch).

(** [latex_escape(value)]:
    [if value is None: return ""], then
    ["".join(replacements.get(ch, ch) for ch in str(value))]. *)
Definition latex_escape (v : value) : string :=
  match v with
  | VNone => ""
  | _ =>
      let s := py_str v in
      join "" (map replacements_get (list_ascii_of_string s))
  end.

End Values.

Arguments VNone {pyobj}.
Arguments VStr {pyobj} s.
Arguments VObj {pyobj} o.

(** ** The escaper as the specification words it

    The specification describes the escaper as a sequence of
    substitutions in a fixed priority, the backslash first, in which
    text produced by a substitution is not looked at again.  A piece of
    text is therefore either a character still to be looked at, or text
    that a substitution has emitted. *)

Inductive piece : Type :=
  | Raw (c : ascii)
  | Emitted (s : string).

Definition substitution_order : list (ascii * string) :=
  [ ("\"%char, "\textbackslash{}");
    ("&"%char, "\&");
    ("%"%char, "\%");
    ("$"%char, "\$");
    ("#"%char, "\#");
    ("_"%char, "\_");
    ("{"%char, "\{");
    ("}"%char, "\}");
    ("~"%char, "\textasciitilde{}");
    ("^"%char, "\textasciicircum{}") ].

(** One substitution: every untouched occurrence of [c] becomes [rep]. *)
Definition substitute (cr : ascii * string) (p : piece) : piece :=
  match p with
  | Raw c' => if decide (c' = cr.1) then Emitted cr.2 else Raw c'
  | Emitted s => Emitted s
  end.

Definition piece_text (p : piece) : string :=
  match p with
  | Raw c => chr c
  | Emitted s => s
  end.

(** All substitutions, one after the other in the stated priority. *)
Definition spec_escape_passes (s : string) : string :=
  join ""
    (map piece_text
       (fold_left (fun ps cr => map (substitute cr) ps)
          substitution_order
          (map Raw (list_ascii_of_string s)))).

(** For comparison, the same substitutions made on the whole text one
    after the other, as chained calls of [str.replace] would make them:
    here the braces that the first substitution emits are looked at
    again by the substitutions of the braces. *)
Fixpoint replace_char (c : ascii) (rep s : string) : string :=
  match s with
  | "" => ""
  | String x r =>
      (if decide (x = c) then rep else chr x) +:+ replace_char c rep r
  end.

Definition chained_replace_passes (s : string) : string :=
  fold_left (fun t cr => replace_char cr.1 cr.2 t) substitution_order s.

(** The special characters and the escape sequences of the escaper. *)
Definition specials : list ascii :=
  [ "\"; "&"; "%"; "$"; "#"; "_"; "{"; "}"; "~"; "^" ]%char.

Definition escape_sequences : list string :=
  [ "\textbackslash{}"; "\&"; "\%"; "\$"; "\#"; "\_"; "\{"; "\}";
    "\textasciitilde{}"; "\textasciicircum{}" ].

(** Text in which every special character belongs to an escape
    sequence: it splits, left to right, into characters that are not
    special and whole escape sequences. *)
Inductive well_escaped : string -> Prop :=
  | we_nil : well_escaped ""
  | we_plain c s :
      c ∉ specials -> well_escaped s -> well_escaped (String c s)
  | we_seq e s :
      e ∈ escape_sequences -> well_escaped s -> well_escaped (e +:+ s).

(** The escape sequence [e] occurs in [s] at offset [j]. *)
Definition occurs_at (e s : string) (j : nat) : Prop :=
  substring j (String.length e) s = e.

(** Position [i] of [s] lies inside an occurrence of an escape
    sequence. *)
Definition inside_escape_sequence (s : string) (i : nat) : Prop :=
  exists j e,
    e ∈ escape_sequences /\ j <= i < j + String.length e /\ occurs_at e s j.

(** ** Paths

    [pathlib.Path] on POSIX: a root flag and the list of components.
    Parsing a [str] drops empty components and [.] components and keeps
    [..] components. *)

Record Path : Type := mkPath { is_absolute : bool; names : list string }.

Global Instance Path_eq_dec : EqDecision Path.
Proof. solve_decision. Defined.

(** The components of [s] between slashes, empty ones included. *)
Fixpoint split_slash (s : string) : list string :=
  match s with
  | "" => [""]
  | String c r =>
      if decide (c = "/"%char) then "" :: split_slash r
      else match split_slash r with
           | h :: t => String c h :: t
           | [] => [chr c]
           end
  end.

(** [Path(s)]. *)
Definition Path_of (s : string) : Path :=
  {| is_absolute := String.prefix "/" s;
     names := filter (fun n => n <> "" /\ n <> ".") (split_slash s) |}.

(** [a / b]: an absolute right operand replaces the left one. *)
Definition joinpath (a b : Path) : Path :=
  if is_absolute b then b
  else {| is_absolute := is_absolute a; names := names a ++ names b |}.

Infix "</>" := joinpath (at level 40, left associativity).

(** [p.name]: the last component, or the empty string. *)
Definition name (p : Path) : string := default "" (last (names p)).

(** [str(p)]. *)
Definition path_str (p : Path) : string :=
  match is_absolute p, names p with
  | false, [] => "."
  | false, ns => join "/" ns
  | true, ns => "/" +:+ join "/" ns
  end.

(** Removal of [..] components.  The model has no symbolic links, so
    the kernel and [Path.resolve()] agree on the directory a path
    names. *)
Definition collapse_step (acc : list string) (n : string) : list string :=
  if decide (n = "..") then removelast acc else acc ++ [n].

Definition collapse (ns : list string) : list string :=
  fold_left collapse_step ns [].

(** The absolute, normalised location of [p] when the current directory
    is [cwd]; the file system is keyed by such locations. *)
Definition key (cwd : list string) (p : Path) : list string :=
  collapse ((if is_absolute p then [] else cwd) ++ names p).

(** A file name: one component, neither [.] nor [..]. *)
Definition valid_name (n : string) : Prop :=
  n <> "" /\ n <> "." /\ n <> ".." /\ "/"%char ∉ list_ascii_of_string n.

(** The components that parsing a [str] yields. *)
Definition parsed_names (ns : list string) : Prop :=
  Forall
    (fun n => n <> "" /\ n <> "." /\ "/"%char ∉ list_ascii_of_string n) ns.

(** A text that names its entry component by component, as [str(p)]
    and the folder returned by [mkdtemp] do: it has a component, no
    component is [..], and it has no [.] component and no doubled or
    trailing slash, which [Path] would drop. *)
Definition plain_path (s : string) : Prop :=
  names (Path_of s) <> []
  /\ (".." ∉ names (Path_of s))
  /\ path_str (Path_of s) = s.

Global Instance plain_path_dec s : Decision (plain_path s).
Proof. unfold plain_path. apply _. Defined.

(** ** The file system *)

Abbreviation bytes := (list byte).

Global Instance byte_eq_dec : EqDecision byte := Byte.byte_eq_dec.

Inductive node : Type :=
  | File (content : bytes)
  | Dir (writable : bool).

Global Instance node_eq_dec : EqDecision node.
Proof. solve_decision. Defined.

Abbreviation fsmap := (gmap (list string) node).

(** *** Path lookup by the kernel

    What [os.stat] does with the text of a path.  The kernel starts at
    the root, or at the current directory for a relative path, and
    takes one component at a time: the place it stands at has to be a
    directory, [..] leads to the parent of that place, any other name
    to the entry of that name below it.  A name of more than [NAME_MAX]
    bytes below a directory, and a text of [PATH_MAX] bytes or more,
    are refused.  There are no symbolic links, and every directory may
    be searched: the file system of the model records the permission to
    write only. *)

Definition NAME_MAX : nat := 255.
Definition PATH_MAX : nat := 4096.

(** The answer of the kernel: the entry it arrives at, [ENOENT] or
    [ENOTDIR], or [ENAMETOOLONG]. *)
Inductive lookup : Type :=
  | Found (k : list string) (n : node)
  | NoEntry
  | NameTooLong.

Fixpoint walk (f : fsmap) (cur : list string) (ns : list string) : lookup :=
  match ns with
  | [] =>
      match f !! cur with
      | Some n => Found cur n
      | None => NoEntry
      end
  | n :: rest =>
      match f !! cur with
      | Some (Dir _) =>
          if decide (n = "..") then walk f (removelast cur) rest
          else if decide (NAME_MAX < String.length n) then NameTooLong
          else walk f (cur ++ [n]) rest
      | _ => NoEntry
      end
  end.

(** [os.stat(str(p))] when the current directory is [cwd]. *)
Definition stat (f : fsmap) (cwd : list string) (p : Path) : lookup :=
  if decide (PATH_MAX <= String.length (path_str p)) then NameTooLong
  else walk f (if is_absolute p then [] else collapse cwd) (names p).

(** The NUL character, which no text handed to the kernel may hold:
    [os.stat] and [os.lstat] raise [ValueError] for it. *)
Definition has_nul (s : string) : bool :=
  bool_decide ("000"%char ∈ list_ascii_of_string s).

(** [a] is at least as deep in the tree as [b]. *)
Definition deeper_or_level (a b : list string) : Prop :=
  length b <= length a.

Global Instance deeper_or_level_dec : RelDecision deeper_or_level.
Proof. intros a b. unfold deeper_or_level. apply _. Defined.

(** ** Exceptions *)

Inductive exn_class : Type :=
  | RuntimeError
  | TypeError
  | ValueError
  | FileExistsError
  | FileNotFoundError
  | PermissionError
  | IsADirectoryError
  | NotADirectoryError
  | SameFileError
  | OSError
  | TemplateError.

Global Instance exn_class_eq_dec : EqDecision exn_class.
Proof. solve_decision. Defined.

(** An exception: its class and [str(ex)]; [ExnFrom] is an exception
    raised [from] another one, its [__cause__]. *)
Inductive exn : Type :=
  | Exn (cls : exn_class) (msg : string)
  | ExnFrom (cls : exn_class) (msg : string) (cause : exn).

Global Instance exn_eq_dec : EqDecision exn.
Proof. solve_decision. Defined.

Definition exn_cls (e : exn) : exn_class :=
  match e with Exn c _ | ExnFrom c _ _ => c end.

Definition exn_str (e : exn) : string :=
  match e with Exn _ m | ExnFrom _ m _ => m end.

(** The text of an [OSError] raised for a path. *)
Definition os_error (cls : exn_class) (errno strerror : string)
    (k : list string) : exn :=
  Exn cls ("[Errno " +:+ errno +:+ "] " +:+ strerror +:+ ": '/"
           +:+ join "/" k +:+ "'").

(** How [p.exists()] ends: [Path.exists] answers [False] when [os.stat]
    raises [ValueError], [ENOENT] or [ENOTDIR], and lets any other
    [OSError] through. *)
Definition exists_outcome (f : fsmap) (cwd : list string) (p : Path)
    : exn + bool :=
  if has_nul (path_str p) then inr false
  else
    match stat f cwd p with
    | Found _ _ => inr true
    | NoEntry => inr false
    | NameTooLong =>
        inl (Exn OSError
               ("[Errno 36] File name too long: '" +:+ path_str p +:+ "'"))
    end.

(** ** Subprocesses *)

(** [subprocess.CompletedProcess], with the file system the process
    left behind. *)
Record completed : Type := mkCompleted {
  returncode : Z;
  proc_stdout : string;
  fs_after : fsmap
}.

(** One call of [subprocess.run], as recorded in the world. *)
Record invocation : Type := mkInvocation {
  inv_cmd : list string;
  inv_cwd : string;
  inv_fs_before : fsmap;
  inv_result : exn + completed
}.

(** ** The Jinja environment *)

Record Environment (value : Type) : Type := mkEnvironment {
  searchpath : string;
  trim_blocks : bool;
  lstrip_blocks : bool;
  block_start_string : string;
  block_end_string : string;
  comment_start_string : string;
  comment_end_string : string;
  filters : gmap string (value -> string)
}.

Arguments mkEnvironment {value}.
Arguments searchpath {value}.
Arguments filters {value}.
Arguments trim_blocks {value}.
Arguments lstrip_blocks {value}.
Arguments block_start_string {value}.
Arguments block_end_string {value}.
Arguments comment_start_string {value}.
Arguments comment_end_string {value}.

(** [env.filters[k] = f]. *)
Definition set_filter {value} (k : string) (f : value -> string)
    (env : Environment value) : Environment value :=
  {| searchpath := searchpath env;
     trim_blocks := trim_blocks env;
     lstrip_blocks := lstrip_blocks env;
     block_start_string := block_start_string env;
     block_end_string := block_end_string env;
     comment_start_string := comment_start_string env;
     comment_end_string := comment_end_string env;
     filters := <[k := f]> (filters env) |}.

(** ** The result of a build *)

Record RenderResult : Type := mkRenderResult {
  pdf_bytes : bytes;
  tex_str : string;
  workdir : string
}.

(** ** The world and the monad of effects *)

Abbreviation loc := positive.

Section World.

Variable pyobj : Type.

Abbreviation pydict := (gmap string (value pyobj)).

Record world : Type := mkWorld {
  fs : fsmap;                      (* the file system *)
  cwd : list string;               (* the current directory *)
  heap : gmap loc pydict;          (* the dict objects *)
  rng : nat;                       (* random names drawn so far *)
  procs : list invocation;         (* the subprocesses run so far *)
  stdout : list string             (* the lines printed so far *)
}.

Definition set_fs (f : fsmap) (w : world) : world :=
  {| fs := f; cwd := cwd w; heap := heap w; rng := rng w;
     procs := procs w; stdout := stdout w |}.

Definition set_heap (h : gmap loc pydict) (w : world) : world :=
  {| fs := fs w; cwd := cwd w; heap := h; rng := rng w;
     procs := procs w; stdout := stdout w |}.

Definition set_rng (n : nat) (w : world) : world :=
  {| fs := fs w; cwd := cwd w; heap := heap w; rng := n;
     procs := procs w; stdout := stdout w |}.

Definition set_procs (ps : list invocation) (w : world) : world :=
  {| fs := fs w; cwd := cwd w; heap := heap w; rng := rng w;
     procs := ps; stdout := stdout w |}.

Definition set_stdout (o : list string) (w : world) : world :=
  {| fs := fs w; cwd := cwd w; heap := heap w; rng := rng w;
     procs := procs w; stdout := o |}.

(** How a call ends: with a value, or with an exception. *)
Inductive outcome (A : Type) : Type :=
  | Ok (a : A)
  | Raise (e : exn).

Arguments Ok {A} a.
Arguments Raise {A} e.

(** A computation: changes made before an exception is raised stay. *)
Definition M (A : Type) : Type := world -> outcome A * world.

Definition ret {A} (a : A) : M A := fun w => (Ok a, w).

Definition raise {A} (e : exn) : M A := fun w => (Raise e, w).

Definition bind {A B} (m : M A) (k : A -> M B) : M B :=
  fun w =>
    match m w with
    | (Ok a, w') => k a w'
    | (Raise e, w') => (Raise e, w')
    end.

(** [try: m  except Exception as ex: h ex]. *)
Definition try_except {A} (m : M A) (h : exn -> M A) : M A :=
  fun w =>
    match m w with
    | (Ok a, w') => (Ok a, w')
    | (Raise e, w') => h e w'
    end.

(** Reading and writing the world. *)
Definition get_world : M world := fun w => (Ok w, w).
Definition modify (f : world -> world) : M unit := fun w => (Ok tt, f w).

(** An [exn + A] answer of the environment, as a computation. *)
Definition lift {A} (r : exn + A) : M A :=
  match r with
  | inl e => raise e
  | inr a => ret a
  end.

End World.

Arguments Ok {A} a.
Arguments Raise {A} e.
Arguments ret {pyobj A} a.
Arguments raise {pyobj A} e.
Arguments bind {pyobj A B} m k.
Arguments try_except {pyobj A} m h.
Arguments get_world {pyobj}.
Arguments modify {pyobj} f.
Arguments lift {pyobj A} r.
Arguments fs {pyobj} w.
Arguments cwd {pyobj} w.
Arguments heap {pyobj} w.
Arguments rng {pyobj} w.
Arguments procs {pyobj} w.
Arguments stdout {pyobj} w.
Arguments set_fs {pyobj} f w.
Arguments set_heap {pyobj} h w.
Arguments set_rng {pyobj} n w.
Arguments set_procs {pyobj} ps w.
Arguments set_stdout {pyobj} o w.
Arguments mkWorld {pyobj}.

(** [M] is a monad in the sense of stdpp, which gives the notations
    [x ← m; k] and [m;; k]. *)
Global Instance M_ret {pyobj} : MRet (M pyobj) := fun A a => ret a.
Global Instance M_bind {pyobj} : MBind (M pyobj) := fun A B k m => bind m k.

(** ** The environment of the program and the library calls it makes *)

Section Program.

Context {pyobj : Type}.

(** What the code asks of objects that are neither [None] nor [str]. *)
Variable obj_str : pyobj -> string.
Variable obj_truthy : pyobj -> bool.
Variable obj_fspath : pyobj -> option string.

(** [tempfile.gettempdir()], an absolute directory, and the names that
    the random name generator of [tempfile] yields, draw after draw. *)
Variable tmpdir : string.
Variable rand_name : nat -> string.

(** The operating system running a command in a directory: it fails to
    start the process, or the process ends with an exit status, the
    text of its standard output and standard error, and a file system. *)
Variable exec : list string -> list string -> fsmap -> exn + completed.

(** Jinja: loading a template by name, and rendering it with a
    mapping.  Both read the file system and may raise. *)
Context {template : Type}.
Variable get_template :
  Environment (value pyobj) -> string -> list string -> fsmap ->
  exn + template.
Variable render :
  template -> list string -> fsmap -> gmap string (value pyobj) ->
  exn + string.

Local Abbreviation M := (M pyobj).
Local Abbreviation value := (value pyobj).

(** *** pathlib and os *)

(** [p.exists()] for a path that the program makes itself, from a fixed
    name or from the folder that [mkdtemp] returned: the entry at its
    location.  [Path_exists] is the general case. *)
Definition path_exists (p : Path) : M bool :=
  w ← get_world;
  mret (bool_decide (is_Some (fs w !! key (cwd w) p))).

(** [p.resolve()] for the directories of a build, whose text holds no
    NUL character.  [Path_resolve] is the general case. *)
Definition resolve (p : Path) : M Path :=
  w ← get_world;
  mret (mkPath true (key (cwd w) p)).

(** [p.exists()] for any path: what the kernel answers. *)
Definition Path_exists (p : Path) : M bool :=
  w ← get_world;
  lift (exists_outcome (fs w) (cwd w) p).

(** [p.resolve()] for any path.  It is not strict: [os.path.realpath]
    calls [os.lstat] on every prefix of the path and goes on when that
    raises [OSError], so that only the [ValueError] of a NUL character
    comes out; without symbolic links the result is the path made
    absolute, its [..] components removed. *)
Definition Path_resolve (p : Path) : M Path :=
  if has_nul (path_str p) then raise (Exn ValueError "embedded null byte")
  else resolve p.

(** [Path.cwd()]. *)
Definition Path_cwd : M Path :=
  w ← get_world;
  mret (mkPath true (cwd w)).

(** [os.path.isdir(s)]: the entry at the location of [s].  The kernel
    finds the same entry when [s] names it component by component
    ([plain_path]), as the folder of a build does. *)
Definition os_path_isdir (s : string) : M bool :=
  w ← get_world;
  mret (match fs w !! key (cwd w) (Path_of s) with
        | Some (Dir _) => true
        | _ => false
        end).

(** Whether a new entry may be made at [k]: its parent has to be a
    directory that can be written. *)
Definition can_create (f : fsmap) (k : list string) : exn + unit :=
  match f !! removelast k with
  | Some (Dir true) => inr tt
  | Some (Dir false) => inl (os_error PermissionError "13" "Permission denied" k)
  | Some (File _) => inl (os_error NotADirectoryError "20" "Not a directory" k)
  | None => inl (os_error FileNotFoundError "2" "No such file or directory" k)
  end.

(** [os.mkdir(p, 0o700)]. *)
Definition os_mkdir (p : Path) : M unit :=
  w ← get_world;
  let k := key (cwd w) p in
  match fs w !! k with
  | Some _ => raise (os_error FileExistsError "17" "File exists" k)
  | None =>
      lift (can_create (fs w) k);;
      modify (set_fs (<[k := Dir true]> (fs w)))
  end.

(** [p.write_bytes(b)]: the file is made, or an existing file is
    replaced. *)
Definition write_bytes (p : Path) (b : bytes) : M unit :=
  w ← get_world;
  let k := key (cwd w) p in
  match fs w !! k with
  | Some (Dir _) => raise (os_error IsADirectoryError "21" "Is a directory" k)
  | Some (File _) => modify (set_fs (<[k := File b]> (fs w)))
  | None =>
      lift (can_create (fs w) k);;
      modify (set_fs (<[k := File b]> (fs w)))
  end.

(** [p.write_text(s, encoding="utf-8")]. *)
Definition write_text (p : Path) (s : string) : M unit :=
  write_bytes p (list_byte_of_string s).

(** [p.read_bytes()]. *)
Definition read_bytes (p : Path) : M bytes :=
  w ← get_world;
  let k := key (cwd w) p in
  match fs w !! k with
  | Some (File b) => mret b
  | Some (Dir _) => raise (os_error IsADirectoryError "21" "Is a directory" k)
  | None => raise (os_error FileNotFoundError "2" "No such file or directory" k)
  end.

(** *** tempfile *)

Definition TMP_MAX : nat := Z.to_nat 10000.

Definition next_name : M string :=
  w ← get_world;
  modify (set_rng (S (rng w)));;
  mret (rand_name (rng w)).

(** The loop of [tempfile.mkdtemp]: draw a name, try to make the
    directory, draw again when it exists already. *)
Fixpoint mkdtemp_loop (seq : nat) (prefix : string) : M string :=
  match seq with
  | 0 =>
      raise (Exn FileExistsError
               "[Errno 17] No usable temporary directory name found")
  | S seq' =>
      nm ← next_name;
      let file := tmpdir +:+ "/" +:+ prefix +:+ nm in
      try_except (os_mkdir (Path_of file);; mret file)
        (fun ex =>
           if decide (exn_cls ex = FileExistsError)
           then mkdtemp_loop seq' prefix
           else raise ex)
  end.

(** [tempfile.mkdtemp(prefix=prefix)]. *)
Definition mkdtemp (prefix : string) : M string :=
  mkdtemp_loop TMP_MAX prefix.

(** *** subprocess *)

(** [subprocess.run(cmd, cwd=cwd, stdout=PIPE, stderr=STDOUT,
    text=True, check=False)]. *)
Definition subprocess_run (cmd : list string) (cwd_ : string) : M completed :=
  w ← get_world;
  let r := exec cmd (key (cwd w) (Path_of cwd_)) (fs w) in
  modify (set_procs (procs w ++ [mkInvocation cmd cwd_ (fs w) r]));;
  proc ← lift r;
  modify (set_fs (fs_after proc));;
  mret proc.

(** *** shutil *)

(** [shutil.copyfile(src, dst)]. *)
Definition copyfile (src dst : Path) : M unit :=
  w ← get_world;
  let ks := key (cwd w) src in
  let kd := key (cwd w) dst in
  if decide (ks = kd /\ is_Some (fs w !! ks))
  then raise (Exn SameFileError
                ("'" +:+ path_str src +:+ "' and '" +:+ path_str dst
                 +:+ "' are the same file"))
  else
    b ← read_bytes src;
    write_bytes dst b.

(** The entries below [root], the deepest first. *)
Definition entries_under (f : fsmap) (root : list string)
    : list (list string) :=
  merge_sort deeper_or_level
    (filter (fun k => root `prefix_of` k /\ k <> root) (elements (dom f))).

(** [os.unlink] of a file, [os.rmdir] of a directory. *)
Definition os_remove (f : fsmap) (k : list string) : exn + fsmap :=
  match f !! k with
  | None => inl (os_error FileNotFoundError "2" "No such file or directory" k)
  | Some n =>
      if match n with
         | Dir _ => bool_decide (entries_under f k <> [])
         | File _ => false
         end
      then inl (os_error OSError "39" "Directory not empty" k)
      else
        match k, f !! removelast k with
        | _ :: _, Some (Dir true) => inr (delete k f)
        | [], _ => inl (os_error OSError "16" "Device or resource busy" k)
        | _, _ => inl (os_error PermissionError "13" "Permission denied" k)
        end
  end.

Definition remove_entry (k : list string) : M unit :=
  w ← get_world;
  f' ← lift (os_remove (fs w) k);
  modify (set_fs f').

(** The error handler of [rmtree]: with [ignore_errors] the error is
    dropped and the deletion goes on, otherwise it is raised. *)
Definition onerror (ignore_errors : bool) (m : M unit) : M unit :=
  try_except m (fun ex => if ignore_errors then mret tt else raise ex).

Fixpoint rmtree_entries (ignore_errors : bool) (ks : list (list string))
    : M unit :=
  match ks with
  | [] => mret tt
  | k :: ks' =>
      onerror ignore_errors (remove_entry k);;
      rmtree_entries ignore_errors ks'
  end.

(** [shutil.rmtree(path, ignore_errors=ignore_errors)]: the tree at the
    location of [path], which is the tree that the kernel removes when
    [path] names it component by component ([plain_path]). *)
Definition rmtree (path : string) (ignore_errors : bool) : M unit :=
  w ← get_world;
  let k := key (cwd w) (Path_of path) in
  match fs w !! k with
  | None =>
      onerror ignore_errors
        (raise (os_error FileNotFoundError "2" "No such file or directory" k))
  | Some (File _) =>
      onerror ignore_errors
        (raise (os_error NotADirectoryError "20" "Not a directory" k))
  | Some (Dir _) =>
      rmtree_entries ignore_errors (entries_under (fs w) k ++ [k])
  end.

(** *** dict objects and printing

    A reference to a dict names a live object of the heap; the total
    lookup [!!!] reads any other location as the empty dict. *)

(** [d.get(k)]. *)
Definition dict_get (d : loc) (k : string) : M value :=
  w ← get_world;
  mret (default VNone ((heap w !!! d) !! k)).

(** [dict(d)]: a new object with the same items. *)
Definition dict_copy (d : loc) : M loc :=
  w ← get_world;
  let l := fresh (dom (heap w)) in
  modify (set_heap (<[l := heap w !!! d]> (heap w)));;
  mret l.

(** [d[k] = v]. *)
Definition dict_setitem (d : loc) (k : string) (v : value) : M unit :=
  w ← get_world;
  modify (set_heap (<[d := <[k := v]> (heap w !!! d)]> (heap w))).

(** The items of [d], as [**d] passes them. *)
Definition dict_items (d : loc) : M (gmap string value) :=
  w ← get_world;
  mret (heap w !!! d).

Definition print (s : string) : M unit :=
  w ← get_world;
  modify (set_stdout (stdout w ++ [s])).

(** *** jinja2 *)

Definition env_get_template (env : Environment value) (nm : string)
    : M template :=
  w ← get_world;
  lift (get_template env nm (cwd w) (fs w)).

Definition template_render (t : template) (kwargs : gmap string value)
    : M string :=
  w ← get_world;
  lift (render t (cwd w) (fs w) kwargs).

(** ** The program *)

(** The exception [_run] raises for a process that ended with a
    status other than zero. *)
Definition command_failed (cmd : list string) (proc : completed) : exn :=
  Exn RuntimeError
    ("Command failed:" +:+ nl
     +:+ join " " cmd +:+ nl +:+ nl
     +:+ "---- Build output ----" +:+ nl
     +:+ proc_stdout proc).

(** [_run(cmd, cwd)]. *)
Definition _run (cmd : list string) (cwd_ : string) : M unit :=
  proc ← subprocess_run cmd cwd_;
  if decide (returncode proc <> 0%Z)
  then raise (command_failed cmd proc)
  else mret tt.

(** The command line of the compiler. *)
Definition latexmk_cmd : list string :=
  [ "latexmk"; "-lualatex"; "-interaction=nonstopmode"; "-halt-on-error";
    "main.tex" ].

(** The message of the build failure: the text of the exception caught,
    then the build folder. *)
Definition build_failure (ex : exn) (folder : string) : exn :=
  ExnFrom RuntimeError
    (exn_str ex +:+ nl +:+ nl +:+ "Temp build folder: " +:+ folder) ex.

Definition pdf_missing : exn :=
  Exn RuntimeError
    "Build succeeded but main.pdf was not created (unexpected).".

(** [render_and_compile(data, template_path)] of [render_cv.py]. *)
Definition render_and_compile (data : loc) (template_path : string)
    : M RenderResult :=
  let env :=
    mkEnvironment template_path true true "{%" "%}" "{#" "#}" ∅ in
  let env := set_filter "latex" (latex_escape pyobj obj_str) env in
  print "Registered Jinja filter: latex";;
  template ← env_get_template env "main.tex.j2";
  kwargs ← dict_items data;
  tex_str ← template_render template kwargs;
  workdir ← mkdtemp "cv_build_";
  let wd := Path_of workdir in
  write_text (wd </> Path_of "main.tex") tex_str;;
  try_except (_run latexmk_cmd workdir)
    (fun ex => raise (build_failure ex workdir));;
  let pdf_path := wd </> Path_of "main.pdf" in
  e ← path_exists pdf_path;
  if negb e then raise pdf_missing
  else
    pdf_bytes ← read_bytes pdf_path;
    mret (mkRenderResult pdf_bytes tex_str workdir).

(** [_copy_asset_to_workdir(asset_path, workdir)]. *)
Definition _copy_asset_to_workdir (asset_path workdir : Path) : M string :=
  let dest := workdir </> Path_of (name asset_path) in
  copyfile asset_path dest;;
  mret (name dest).

(** Truthiness, as [if maybe_path:] tests it. *)
Definition truthy (v : value) : bool :=
  match v with
  | VNone => false
  | VStr s => negb (s =? "")
  | VObj o => obj_truthy o
  end.

(** [Path(v)]: defined for a [str] and for a path-like object. *)
Definition Path_of_value (v : value) : M Path :=
  match v with
  | VStr s => mret (Path_of s)
  | VObj o =>
      match obj_fspath o with
      | Some s => mret (Path_of s)
      | None =>
          raise (Exn TypeError
                   "expected str, bytes or os.PathLike object")
      end
  | VNone =>
      raise (Exn TypeError
               "expected str, bytes or os.PathLike object, not NoneType")
  end.

(** [_resolve_asset_path(maybe_path, template_dir, project_root,
    default_name)]. *)
Definition _resolve_asset_path (maybe_path : value)
    (template_dir project_root : Path) (default_name : string)
    : M (option Path) :=
  let fallback : M (option Path) :=
    p3 ← Path_resolve (template_dir </> Path_of default_name);
    e3 ← Path_exists p3;
    if (e3 : bool) then mret (Some p3)
    else
      p4 ← Path_resolve (project_root </> Path_of default_name);
      e4 ← Path_exists p4;
      if (e4 : bool) then mret (Some p4)
      else mret None in
  if truthy maybe_path then
    p ← Path_of_value maybe_path;
    e ← (if is_absolute p then Path_exists p else mret false);
    if (e : bool) then mret (Some p)
    else
      p1 ← Path_resolve (project_root </> p);
      e1 ← Path_exists p1;
      if (e1 : bool) then mret (Some p1)
      else
        p2 ← Path_resolve (template_dir </> p);
        e2 ← Path_exists p2;
        if (e2 : bool) then mret (Some p2)
        else fallback
  else fallback.

(** The delimiters of the Chief template. *)
Definition chief_block_start : string := "((" +:+ "*".
Definition chief_block_end : string := "*" +:+ "))".
Definition chief_comment_start : string := "((#".
Definition chief_comment_end : string := "#))".

(** [render_and_compile_chief(data, template_path, template_name)] of
    [chief_render_cv.py]. *)
Definition render_and_compile_chief (data : loc)
    (template_path template_name : string) : M RenderResult :=
  template_dir ← resolve (Path_of template_path);
  here ← Path_cwd;
  project_root ← resolve here;
  let env :=
    mkEnvironment (path_str template_dir) true true
      chief_block_start chief_block_end
      chief_comment_start chief_comment_end ∅ in
  let env := set_filter "latex" (latex_escape pyobj obj_str) env in
  template ← env_get_template env template_name;
  tmp ← mkdtemp "cv_build_";
  let workdir := Path_of tmp in
  banner_path ← dict_get data "photo_banner_path";
  banner_src ←
    _resolve_asset_path banner_path template_dir project_root
      "photo_banner.png";
  highlight_path ← dict_get data "highlight_path";
  highlight_src ←
    _resolve_asset_path highlight_path template_dir project_root
      "highlight.png";
  data ← dict_copy data;
  match banner_src return M unit with
  | Some src =>
      b ← _copy_asset_to_workdir src workdir;
      dict_setitem data "photo_banner_path" (VStr b)
  | None => mret tt
  end;;
  match highlight_src return M unit with
  | Some src =>
      b ← _copy_asset_to_workdir src workdir;
      dict_setitem data "highlight_path" (VStr b)
  | None => mret tt
  end;;
  kwargs ← dict_items data;
  tex_str ← template_render template kwargs;
  write_text (workdir </> Path_of "main.tex") tex_str;;
  try_except (_run latexmk_cmd (path_str workdir))
    (fun ex => raise (build_failure ex (path_str workdir)));;
  let pdf_path := workdir </> Path_of "main.pdf" in
  e ← path_exists pdf_path;
  if negb e then raise pdf_missing
  else
    pdf_bytes ← read_bytes pdf_path;
    mret (mkRenderResult pdf_bytes tex_str (path_str workdir)).

(** [cleanup_workdir(workdir)]; the callers pass [None] or a [str]. *)
Definition cleanup_workdir (workdir : option string) : M unit :=
  match workdir with
  | Some s =>
      if negb (s =? "") then
        d ← os_path_isdir s;
        if (d : bool) then rmtree s true else mret tt
      else mret tt
  | None => mret tt
  end.

(** *** The steps shared by the two build functions

    From the writing of [main.tex] on, [render_and_compile] (lines 93
    to 115) and [render_and_compile_chief] (lines 161 to 182) run the
    same steps; [wd] is the build folder as a [Path] and [folder] the
    text the code uses for it. *)
Definition build_steps (wd : Path) (folder tex_str : string)
    : M RenderResult :=
  write_text (wd </> Path_of "main.tex") tex_str;;
  try_except (_run latexmk_cmd folder)
    (fun ex => raise (build_failure ex folder));;
  let pdf_path := wd </> Path_of "main.pdf" in
  e ← path_exists pdf_path;
  if negb e then raise pdf_missing
  else
    pdf_bytes ← read_bytes pdf_path;
    mret (mkRenderResult pdf_bytes tex_str folder).

(** How a build ends once the compiler has been called in the folder at
    [kw], with a file system [f'] left at the end. *)
Definition build_ending (kw : list string) (folder tex : string)
    (fs1 : fsmap) (res : exn + completed) (r : outcome RenderResult)
    (f' : fsmap) : Prop :=
  match res with
  | inl e => r = Raise (build_failure e folder) /\ f' = fs1
  | inr proc =>
      f' = fs_after proc
      /\ if decide (returncode proc <> 0%Z)
         then r = Raise (build_failure (command_failed latexmk_cmd proc)
                           folder)
         else
           match fs_after proc !! (kw ++ ["main.pdf"]) with
           | None => r = Raise pdf_missing
           | Some (Dir _) =>
               r = Raise (os_error IsADirectoryError "21" "Is a directory"
                            (kw ++ ["main.pdf"]))
           | Some (File b) => r = Ok (mkRenderResult b tex folder)
           end
  end.

(** What a run of a build function from [w] to [w'] looks like: it
    stops before the compiler is called, or it calls the compiler once,
    in a folder it has made, on the text it has rendered and written. *)
Definition build_trace (w : world pyobj) (r : outcome RenderResult)
    (w' : world pyobj) : Prop :=
  cwd w' = cwd w
  /\ (forall l, is_Some (heap w !! l) -> heap w' !! l = heap w !! l)
  /\ ((procs w' = procs w /\ exists e, r = Raise e)
      \/ (exists folder tex fs1 res,
            let kw := key (cwd w) (Path_of folder) in
            procs w' = procs w ++ [mkInvocation latexmk_cmd folder fs1 res]
            /\ (exists t c f kwargs, render t c f kwargs = inr tex)
            /\ fs w !! kw = None
            /\ fs1 !! kw = Some (Dir true)
            /\ fs1 !! (kw ++ ["main.tex"])
               = Some (File (list_byte_of_string tex))
            /\ build_ending kw folder tex fs1 res r (fs w'))).

(** *** What the specification asks of a build function [run] *)

(** A compiler that exits with a status other than zero: the build
    raises a [RuntimeError] whose text holds the whole output of the
    compiler and, after it, the build folder; the folder was made by
    this call and held [main.tex] when the compiler started; and the
    file system the call leaves is the one the compiler left. *)
Definition reports_compiler_failure (run : M RenderResult) : Prop :=
  forall (w w' : world pyobj) (r : outcome RenderResult)
         (invs : list invocation) (inv : invocation) (proc : completed),
    run w = (r, w') ->
    procs w' = procs w ++ invs ->
    inv ∈ invs ->
    inv_result inv = inr proc ->
    returncode proc <> 0%Z ->
    let folder := inv_cwd inv in
    let kw := key (cwd w) (Path_of folder) in
    (exists e,
        r = Raise e
        /\ exn_cls e = RuntimeError
        /\ exists before between,
             exn_str e
             = before +:+ proc_stdout proc +:+ between +:+ folder)
    /\ fs w !! kw = None
    /\ inv_fs_before inv !! kw = Some (Dir true)
    /\ is_Some (inv_fs_before inv
                 !! key (cwd w) (Path_of folder </> Path_of "main.tex"))
    /\ fs w' = fs_after proc.

(** A compiler that exits with status zero and leaves no [main.pdf] in
    the build folder: the build raises the error [pdf_missing], and the
    compiler has been called that one time only. *)
Definition reports_missing_pdf (run : M RenderResult) : Prop :=
  forall (w w' : world pyobj) (r : outcome RenderResult)
         (invs : list invocation) (inv : invocation) (proc : completed),
    run w = (r, w') ->
    procs w' = procs w ++ invs ->
    inv ∈ invs ->
    inv_result inv = inr proc ->
    returncode proc = 0%Z ->
    fs_after proc
      !! key (cwd w) (Path_of (inv_cwd inv) </> Path_of "main.pdf") = None ->
    r = Raise pdf_missing /\ invs = [inv] /\ fs w' = fs_after proc.

(** A build that returns: its folder did not exist when the call
    started and is a directory when the compiler starts; [main.tex] in
    it holds the text returned, which the template rendered; the
    compiler ran once, in that folder, and exited with status zero; the
    bytes returned are those of [main.pdf] in the folder. *)
Definition successful_build_contract (run : M RenderResult) : Prop :=
  forall (w w' : world pyobj) (res : RenderResult),
    run w = (Ok res, w') ->
    let wd := Path_of (workdir res) in
    exists inv proc,
      procs w' = procs w ++ [inv]
      /\ inv_cmd inv = latexmk_cmd
      /\ inv_cwd inv = workdir res
      /\ inv_result inv = inr proc
      /\ returncode proc = 0%Z
      /\ fs w !! key (cwd w) wd = None
      /\ inv_fs_before inv !! key (cwd w) wd = Some (Dir true)
      /\ inv_fs_before inv !! key (cwd w) (wd </> Path_of "main.tex")
         = Some (File (list_byte_of_string (tex_str res)))
      /\ (exists t c f kwargs, render t c f kwargs = inr (tex_str res))
      /\ fs w' !! key (cwd w') (wd </> Path_of "main.pdf")
         = Some (File (pdf_bytes res))
      /\ fs w' = fs_after proc.

(** The dict object [data] of the caller holds the same items after the
    call as before, however the call ends. *)
Definition keeps_callers_dict (data : loc) (run : M RenderResult) : Prop :=
  forall (w w' : world pyobj) (r : outcome RenderResult)
         (d : gmap string value),
    run w = (r, w') ->
    heap w !! data = Some d ->
    heap w' !! data = Some d.

(** *** The asset resolver as the specification words it *)

(** The argument [maybe_path] of the resolver for a caller that passes
    a [str] or nothing. *)
Definition explicit_path (maybe_path : option string) : value :=
  match maybe_path with
  | Some s => VStr s
  | None => VNone
  end.

(** The candidates in their fixed order: the explicit path itself when
    it is absolute, the explicit path below the project root, the
    explicit path below the template directory, the default name in the
    template directory, the default name in the project root.  An
    explicit path is given when the caller passes a [str] that is not
    empty: [None] and the empty text both mean that none is given.  A
    candidate made from a directory is the resolved path. *)
Definition asset_candidates (here : list string)
    (maybe_path : option string) (template_dir project_root : Path)
    (default_name : string) : list Path :=
  match maybe_path with
  | Some s =>
      if decide (s = "") then []
      else
        let p := Path_of s in
        (if is_absolute p then [p] else [])
        ++ [ mkPath true (key here (project_root </> p));
             mkPath true (key here (template_dir </> p)) ]
  | None => []
  end
  ++ [ mkPath true (key here (template_dir </> Path_of default_name));
       mkPath true (key here (project_root </> Path_of default_name)) ].

(** The candidate exists on the file system. *)
Definition on_disk (w : world pyobj) (p : Path) : Prop :=
  is_Some (fs w !! key (cwd w) p).

(** [p.exists()] answers [True]: the kernel finds the candidate. *)
Definition found (w : world pyobj) (p : Path) : Prop :=
  exists_outcome (fs w) (cwd w) p = inr true.

Global Instance found_dec w p : Decision (found w p).
Proof. unfold found. apply _. Defined.

(** A path that the kernel does not refuse for its length. *)
Definition short_enough (p : Path) : Prop :=
  String.length (path_str p) < PATH_MAX
  /\ Forall (fun n => String.length n <= NAME_MAX) (names p).

(** A step that only reads the world. *)
Definition readonly {A} (m : M A) : Prop := forall w, (m w).2 = w.

End Program.

(** ** A concrete installation

    A small world in which the model runs: an application directory
    with three template directories, a temporary directory, and a
    compiler that fails on the text [\bad], writes nothing for the text
    [\quiet], and otherwise writes a PDF. *)

Module Demo.

Definition no_object : Type := Empty_set.

Definition obj_str (o : no_object) : string := match o with end.
Definition obj_truthy (o : no_object) : bool := match o with end.
Definition obj_fspath (o : no_object) : option string := match o with end.

Definition tmpdir : string := "/tmp".

Definition rand_name (n : nat) : string :=
  String (ascii_of_nat (97 + n)) "k3x9q_".

Definition utf8 (s : string) : bytes := list_byte_of_string s.

Definition exec (cmd : list string) (k : list string) (f : fsmap)
    : exn + completed :=
  match f !! (k ++ ["main.tex"]) with
  | Some (File b) =>
      if decide (b = utf8 "\bad")
      then inr (mkCompleted 12 "! Undefined control sequence." f)
      else if decide (b = utf8 "\quiet")
      then inr (mkCompleted 0 "" f)
      else inr (mkCompleted 0 "Output written on main.pdf."
                  (<[k ++ ["main.pdf"] := File (utf8 "%PDF-1.5 " ++ b)]> f))
  | _ => inr (mkCompleted 11 "Latexmk: could not find main.tex" f)
  end.

(** A template is its text with the environment it was loaded in;
    rendering appends the field [first_name] passed through the filter
    [latex]. *)
Definition template : Type := Environment (value no_object) * string.

Definition get_template (env : Environment (value no_object))
    (nm : string) (here : list string) (f : fsmap) : exn + template :=
  match f !! key here (Path_of (searchpath env) </> Path_of nm) with
  | Some (File b) => inr (env, string_of_list_byte b)
  | _ => inl (Exn TemplateError nm)
  end.

Definition render (t : template) (here : list string) (f : fsmap)
    (kwargs : gmap string (value no_object)) : exn + string :=
  match filters t.1 !! "latex" with
  | Some f => inr (t.2 +:+ f (default VNone (kwargs !! "first_name")))
  | None => inl (Exn TemplateError "No filter named 'latex'.")
  end.

Definition disk : fsmap :=
  list_to_map
    [ ([], Dir true);
      (["tmp"], Dir true);
      (["app"], Dir true);
      (["app"; "templates"], Dir true);
      (["app"; "templates"; "main.tex.j2"], File (utf8 "Name: "));
      (["app"; "templates"; "main_chief.tex.j2"], File (utf8 "Chief: "));
      (["app"; "templates"; "photo_banner.png"], File (utf8 "PNG"));
      (["app"; "bad"], Dir true);
      (["app"; "bad"; "main.tex.j2"], File (utf8 "\bad"));
      (["app"; "quiet"], Dir true);
      (["app"; "quiet"; "main.tex.j2"], File (utf8 "\quiet"));
      (["app"; "locked"], Dir false);
      (["app"; "locked"; "main.tex"], File (utf8 "old")) ].

(** The record of the caller, at location 1, and an empty record, at
    location 2. *)
Definition record : gmap string (value no_object) :=
  list_to_map
    [ ("first_name", VStr "R&D_50%");
      ("photo_banner_path", VStr "photo_banner.png") ].

Definition start : world no_object :=
  mkWorld disk ["app"] (list_to_map [(1%positive, record); (2%positive, ∅)])
    0 [] [].

Definition render_and_compile (data : loc) (template_path : string)
    : M no_object RenderResult :=
  render_and_compile obj_str tmpdir rand_name exec get_template render
    data template_path.

Definition render_and_compile_chief (data : loc)
    (template_path template_name : string) : M no_object RenderResult :=
  render_and_compile_chief obj_str obj_truthy obj_fspath tmpdir rand_name
    exec get_template render data template_path template_name.

End Demo.

(** ** The form applications

    The helpers of [app.py], [chief_app.py] and [chief_super_app.py]
    that do not draw widgets. *)

(** The exceptions of the application layer: an exception of the build
    layer, or one of the built-in exceptions that the helpers can
    raise. *)
Inductive app_exn : Type :=
  | LibError (e : exn)
  | IndexError (msg : string).

(** *** List objects *)

(** The position that the index [i] names in a list of length [n]: a
    negative index counts from the end. *)
Definition list_position (n : nat) (i : Z) : option nat :=
  if decide (0 <= i < Z.of_nat n)%Z then Some (Z.to_nat i)
  else if decide (- Z.of_nat n <= i < 0)%Z then Some (Z.to_nat (Z.of_nat n + i))
  else None.

(** The [IndexError] of an index [i] that names no position.  The
    index is first converted to a machine integer ([Py_ssize_t], 64
    bits): one that does not fit is refused there, with a text of its
    own; one that fits and is out of range gets the text [msg] of the
    operation.  A list has fewer than [2 ^ 63] items, so that an index
    that names a position always fits. *)
Definition index_error (i : Z) (msg : string) : app_exn :=
  IndexError
    (if decide (- 2 ^ 63 <= i < 2 ^ 63)%Z then msg
     else "cannot fit 'int' into an index-sized integer").

(** [l[i]]. *)
Definition list_getitem {A} (l : list A) (i : Z) : app_exn + A :=
  match list_position (length l) i ≫= (l !!.) with
  | Some x => inr x
  | None => inl (index_error i "list index out of range")
  end.

(** [l[i] = x]. *)
Definition list_setitem {A} (l : list A) (i : Z) (x : A)
    : app_exn + list A :=
  match list_position (length l) i with
  | Some k => inr (<[k := x]> l)
  | None => inl (index_error i "list assignment index out of range")
  end.

(** [move_item(lst, idx, direction)]: the list object is changed in
    place; the embedding returns the list it holds afterwards.  In
    [lst[idx], lst[j] = lst[j], lst[idx]] the right-hand side is read
    first, [lst[j]] before [lst[idx]], then [lst[idx]] and [lst[j]] are
    assigned in that order. *)
Definition move_item {A} (lst : list A) (idx direction : Z)
    : app_exn + list A :=
  let j := (idx + direction)%Z in
  if decide (j < 0 \/ j >= Z.of_nat (length lst))%Z then inr lst
  else
    match list_getitem lst j with
    | inl e => inl e
    | inr a =>
        match list_getitem lst idx with
        | inl e => inl e
        | inr b =>
            match list_setitem lst idx a with
            | inl e => inl e
            | inr lst1 => list_setitem lst1 j b
            end
        end
    end.

(** *** Profile names *)

(** A character of the class [[a-z0-9_]]. *)
Definition is_slug_char (c : ascii) : bool :=
  let n := N_of_ascii c in
  ((97 <=? n) && (n <=? 122) || (48 <=? n) && (n <=? 57) || (n =? 95))%N.

(** [re.sub(r"[class]+", rep, s)] for a class [P] of ASCII characters:
    every maximal run of characters of the class becomes [rep];
    [in_run] tells that the character before was of the class. *)
Fixpoint sub_runs (P : ascii -> bool) (rep : list ascii) (in_run : bool)
    (s : list ascii) : list ascii :=
  match s with
  | [] => []
  | c :: r =>
      if P c then (if in_run then [] else rep) ++ sub_runs P rep true r
      else c :: sub_runs P rep false r
  end.

(** [s.lstrip(c)] and [s.strip(c)] for one character [c]. *)
Fixpoint lstrip_char (c : ascii) (s : list ascii) : list ascii :=
  match s with
  | x :: r => if decide (x = c) then lstrip_char c r else s
  | [] => []
  end.

Definition strip_char (c : ascii) (s : list ascii) : list ascii :=
  reverse (lstrip_char c (reverse (lstrip_char c s))).

Section Slug.

(** The steps of [slugify_profile] that depend on the Unicode tables of
    Python: [s.strip()], [s.lower()] and [re.sub(r"\s+", "_", s)]. *)
Variable str_strip : string -> string.
Variable str_lower : string -> string.
Variable sub_whitespace : string -> string.

(** [slugify_profile(first_name, last_name)].  The classes of the last
    two patterns hold ASCII characters only, and every byte of a
    non-ASCII character is outside them, so the substitutions act on
    the UTF-8 bytes as they act on the characters. *)
Definition slugify_profile (first_name last_name : string) : string :=
  let base := str_lower (str_strip (first_name +:+ "_" +:+ last_name)) in
  let base := sub_whitespace base in
  let base :=
    sub_runs (fun c => negb (is_slug_char c)) [] false
      (list_ascii_of_string base) in
  let base :=
    strip_char "_" (sub_runs (fun c => bool_decide (c = "_"%char))
                      ["_"%char] false base) in
  if decide (base = []) then "profile" else string_of_list_ascii base.

End Slug.

(** [USERS_DIR]. *)
Definition USERS_DIR : Path := Path_of "users".

Global Instance Path_inhabited : Inhabited Path := populate (mkPath false []).

(** [profile_paths(profile_id)]. *)
Definition profile_paths (profile_id : string) : gmap string Path :=
  let pdir := USERS_DIR </> Path_of profile_id in
  list_to_map
    [ ("dir", pdir);
      ("data", pdir </> Path_of "data.txt");
      ("banner", pdir </> Path_of "photo_banner.png");
      ("pdf", pdir </> Path_of "chief_cv.pdf");
      ("tex", pdir </> Path_of "main.tex") ].

Section Profiles.

Context {pyobj : Type}.

(** The names of the entries of the directory at [k], as [os.listdir]
    gives them: the entries [.] and [..] are never listed. *)
Definition entry_names (f : fsmap) (k : list string) : list string :=
  omap (fun k' =>
          match last k' with
          | Some n =>
              if decide (removelast k' = k /\ n <> "." /\ n <> "..")
              then Some n
              else None
          | None => None
          end)
    (elements (dom f)).

(** [p.iterdir()], as a list: the children of the directory, in the
    order the operating system lists them. *)
Definition iterdir (p : Path) : M pyobj (list Path) :=
  w ← get_world;
  let k := key (cwd w) p in
  match fs w !! k with
  | Some (Dir _) =>
      mret (map (fun n => mkPath (is_absolute p) (names p ++ [n]))
              (entry_names (fs w) k))
  | Some (File _) =>
      raise (os_error NotADirectoryError "20" "Not a directory" k)
  | None =>
      raise (os_error FileNotFoundError "2" "No such file or directory" k)
  end.

(** [p.is_dir()]. *)
Definition is_dir (p : Path) : M pyobj bool :=
  w ← get_world;
  mret (match fs w !! key (cwd w) p with
        | Some (Dir _) => true
        | _ => false
        end).

(** [[p.name for p in ps if p.is_dir()]]. *)
Fixpoint directory_names (ps : list Path) : M pyobj (list string) :=
  match ps with
  | [] => mret []
  | p :: ps' =>
      d ← is_dir p;
      rest ← directory_names ps';
      mret (if (d : bool) then name p :: rest else rest)
  end.

(** [list_profiles()]. *)
Definition list_profiles : M pyobj (list string) :=
  e ← path_exists USERS_DIR;
  if negb e then mret []
  else
    ps ← iterdir USERS_DIR;
    ns ← directory_names ps;
    mret (merge_sort String.le ns).

End Profiles.

(** *** The shape of a profile name *)

(** No two neighbours of [s] are both [c]. *)
Fixpoint no_double (c : ascii) (s : list ascii) : bool :=
  match s with
  | x :: r =>
      negb (bool_decide (x = c) && bool_decide (head r = Some c))
      && no_double c r
  | [] => true
  end.

(** Not empty, of the characters [[a-z0-9_]], with no underscore at
    either end and no two in a row. *)
Definition slug_shaped (cs : list ascii) : Prop :=
  cs <> []
  /\ Forall (fun c => is_slug_char c = true) cs
  /\ head cs <> Some "_"%char
  /\ last cs <> Some "_"%char
  /\ no_double "_" cs = true.

(** ** Further contracts of the build functions and of the clean-up *)

(** Every entry of [f] at or below [root] lies in a directory that can
    be written. *)
Definition tree_writable (f : fsmap) (root : list string) : Prop :=
  map_Forall
    (fun k _ => root `prefix_of` k -> f !! removelast k = Some (Dir true)) f.

Global Instance tree_writable_dec f root : Decision (tree_writable f root).
Proof. unfold tree_writable. apply _. Defined.

Global Instance deeper_or_level_total : Total deeper_or_level.
Proof. intros a b. unfold deeper_or_level. lia. Qed.

Global Instance deeper_or_level_trans : Transitive deeper_or_level.
Proof. intros a b c. unfold deeper_or_level. lia. Qed.

Section BuildContracts.

Context {pyobj : Type}.

(** A compiler that cannot be started ([subprocess.run] raises, as it
    does when [latexmk] is not installed): the build raises a
    [RuntimeError] made from that exception, whose text is the text of
    the exception and, after it, the build folder; the compiler has
    been called that one time only; the file system is the one the
    build had prepared, with [main.tex] in the folder. *)
Definition reports_start_failure (run : M pyobj RenderResult) : Prop :=
  forall (w w' : world pyobj) (r : outcome RenderResult)
         (invs : list invocation) (inv : invocation) (e : exn),
    run w = (r, w') ->
    procs w' = procs w ++ invs ->
    inv ∈ invs ->
    inv_result inv = inl e ->
    r = Raise (ExnFrom RuntimeError
                 (exn_str e +:+ nl +:+ nl +:+ "Temp build folder: "
                  +:+ inv_cwd inv) e)
    /\ invs = [inv]
    /\ fs w' = inv_fs_before inv
    /\ is_Some (inv_fs_before inv
                 !! key (cwd w) (Path_of (inv_cwd inv) </> Path_of "main.tex")).

(** A build calls no command but the compiler, at most once, in a
    folder that did not exist when the build started, and it stays in
    its directory. *)
Definition runs_only_the_compiler (run : M pyobj RenderResult) : Prop :=
  forall w : world pyobj,
    cwd (run w).2 = cwd w
    /\ exists invs,
         procs (run w).2 = procs w ++ invs
         /\ length invs <= 1
         /\ Forall (fun inv =>
                      inv_cmd inv = latexmk_cmd
                      /\ fs w !! key (cwd w) (Path_of (inv_cwd inv)) = None
                      /\ inv_fs_before inv
                         !! key (cwd w) (Path_of (inv_cwd inv))
                         = Some (Dir true))
              invs.

End BuildContracts.

(** ** The pages of the form applications

    The code that [app.py], [chief_app.py] and [chief_super_app.py] run
    when the button [Generate PDF] is pressed, and
    [save_profile_from_state].  A page has the attributes of
    [st.session_state], the elements it has shown so far, and the
    world. *)

(** The elements that the code shows: the calls of [st.success],
    [st.error], [st.warning], [st.info] and [st.text_area], with the
    texts passed. *)
Inductive widget : Type :=
  | st_success (body : string)
  | st_error (body : string)
  | st_warning (body : string)
  | st_info (body : string)
  | st_text_area (label value : string).

(** [st.session_state], with the attributes that [init_state] sets;
    [data] is the dict object of the record.  [app.py] and
    [chief_app.py] have no [selected_profile] and no
    [profile_loaded_once]. *)
Record session_state : Type := mkSession {
  session_data : loc;
  last_pdf : option bytes;
  last_tex : option string;
  last_workdir : option string;
  selected_profile : option string;
  profile_loaded_once : bool
}.

Definition set_last_pdf (v : option bytes) (ss : session_state)
    : session_state :=
  mkSession (session_data ss) v (last_tex ss) (last_workdir ss)
    (selected_profile ss) (profile_loaded_once ss).

Definition set_last_tex (v : option string) (ss : session_state)
    : session_state :=
  mkSession (session_data ss) (last_pdf ss) v (last_workdir ss)
    (selected_profile ss) (profile_loaded_once ss).

Definition set_last_workdir (v : option string) (ss : session_state)
    : session_state :=
  mkSession (session_data ss) (last_pdf ss) (last_tex ss) v
    (selected_profile ss) (profile_loaded_once ss).

Definition set_selected_profile (v : option string) (ss : session_state)
    : session_state :=
  mkSession (session_data ss) (last_pdf ss) (last_tex ss) (last_workdir ss)
    v (profile_loaded_once ss).

(** Truthiness of an attribute that holds [None] or a [str], and its
    text in an f-string. *)
Definition text_truthy (v : option string) : bool :=
  match v with
  | Some s => negb (s =? "")
  | None => false
  end.

Definition text_format (v : option string) : string := default "None" v.

Record page (pyobj : Type) : Type := mkPage {
  session : session_state;
  shown : list widget;
  machine : world pyobj
}.

Arguments mkPage {pyobj}.
Arguments session {pyobj} p.
Arguments shown {pyobj} p.
Arguments machine {pyobj} p.

(** A computation of a page: an exception leaves the attributes
    assigned and the elements shown before it. *)
Definition Page (pyobj : Type) (A : Type) : Type :=
  page pyobj -> outcome A * page pyobj.

Definition page_ret {pyobj A} (a : A) : Page pyobj A := fun p => (Ok a, p).

Definition page_bind {pyobj A B} (m : Page pyobj A) (k : A -> Page pyobj B)
    : Page pyobj B :=
  fun p =>
    match m p with
    | (Ok a, p') => k a p'
    | (Raise e, p') => (Raise e, p')
    end.

(** [try: m  except Exception as e: h e]. *)
Definition page_try {pyobj A} (m : Page pyobj A) (h : exn -> Page pyobj A)
    : Page pyobj A :=
  fun p =>
    match m p with
    | (Ok a, p') => (Ok a, p')
    | (Raise e, p') => h e p'
    end.

Global Instance Page_ret {pyobj} : MRet (Page pyobj) := fun A a => page_ret a.
Global Instance Page_bind {pyobj} : MBind (Page pyobj) :=
  fun A B k m => page_bind m k.

(** A call of the build layer or of a library, made by the page. *)
Definition call {pyobj A} (m : M pyobj A) : Page pyobj A :=
  fun p =>
    let (r, w) := m (machine p) in
    (r, mkPage (session p) (shown p) w).

Definition get_session {pyobj} : Page pyobj session_state :=
  fun p => (Ok (session p), p).

Definition set_session {pyobj} (f : session_state -> session_state)
    : Page pyobj unit :=
  fun p => (Ok tt, mkPage (f (session p)) (shown p) (machine p)).

Definition show {pyobj} (x : widget) : Page pyobj unit :=
  fun p => (Ok tt, mkPage (session p) (shown p ++ [x]) (machine p)).

Section Pages.

Context {pyobj : Type}.
Variable obj_str : pyobj -> string.
Variable obj_truthy : pyobj -> bool.
Variable obj_fspath : pyobj -> option string.
Variable tmpdir : string.
Variable rand_name : nat -> string.
Variable exec : list string -> list string -> fsmap -> exn + completed.
Context {template : Type}.
Variable get_template :
  Environment (value pyobj) -> string -> list string -> fsmap ->
  exn + template.
Variable render :
  template -> list string -> fsmap -> gmap string (value pyobj) ->
  exn + string.

(** The bytes of an object that is a [bytes] or a [bytearray]. *)
Variable obj_bytes : pyobj -> option bytes.

(** [json.dumps(d, indent=2, ensure_ascii=False)] on the items of a
    dict. *)
Variable json_dumps : gmap string (value pyobj) -> exn + string.

(** The steps of [slugify_profile] that depend on the Unicode tables. *)
Variable str_strip : string -> string.
Variable str_lower : string -> string.
Variable sub_whitespace : string -> string.

Local Abbreviation M := (M pyobj).
Local Abbreviation Page := (Page pyobj).
Local Abbreviation value := (value pyobj).

(** What the three pages do after the build attempt has raised. *)
Definition build_failed (e : exn) : Page unit :=
  show (st_error "Failed to compile LaTeX.");;
  show (st_text_area "Build log" (exn_str e));;
  ss ← get_session;
  if text_truthy (last_workdir ss)
  then show (st_info ("Temp build folder: "
                      +:+ text_format (last_workdir ss)))
  else mret tt.

(** The clean-up of the folder of the build before. *)
Definition clean_last_workdir : Page unit :=
  ss ← get_session;
  if text_truthy (last_workdir ss) then
    call (cleanup_workdir (last_workdir ss));;
    set_session (set_last_workdir None)
  else mret tt.

(** The body of [if render_btn:] in [app.py] and in [chief_app.py];
    [build] is the call of the build function on the record. *)
Definition generate_pdf (build : loc -> M RenderResult) : Page unit :=
  clean_last_workdir;;
  page_try
    (ss ← get_session;
     result ← call (build (session_data ss));
     set_session (set_last_pdf (Some (pdf_bytes result)));;
     set_session (set_last_tex (Some (tex_str result)));;
     set_session (set_last_workdir (Some (workdir result)));;
     show (st_success "PDF generated successfully."))
    build_failed.

(** [app.py], lines 222 to 238. *)
Definition app_generate_pdf : Page unit :=
  generate_pdf
    (fun data =>
       render_and_compile obj_str tmpdir rand_name exec get_template render
         data "templates").

(** [chief_app.py], lines 341 to 356. *)
Definition chief_app_generate_pdf : Page unit :=
  generate_pdf
    (fun data =>
       render_and_compile_chief obj_str obj_truthy obj_fspath tmpdir
         rand_name exec get_template render
         data "templates" "main_chief.tex.j2").

(** *** Saving a profile *)

(** [p.parent]. *)
Definition parent (p : Path) : Path :=
  mkPath (is_absolute p) (removelast (names p)).

(** [p.mkdir(parents=False, exist_ok=exist_ok)]: an error of
    [os.mkdir] other than [FileNotFoundError] is dropped when
    [exist_ok] is set and the path is a directory. *)
Definition mkdir_no_parents (p : Path) (exist_ok : bool) : M unit :=
  try_except (os_mkdir p)
    (fun ex =>
       if decide (exn_cls ex = FileNotFoundError) then raise ex
       else
         d ← is_dir p;
         if negb exist_ok || negb d then raise ex else mret tt).

(** [p.mkdir(parents=True, exist_ok=exist_ok)] for a path [p] of [n]
    components: on [FileNotFoundError] the parent is made in the same
    way and the directory is made again, without its parents; a path
    of no component is its own parent. *)
Fixpoint mkdir_parents (n : nat) (p : Path) (exist_ok : bool) : M unit :=
  try_except (os_mkdir p)
    (fun ex =>
       if decide (exn_cls ex = FileNotFoundError) then
         match n with
         | 0 => raise ex
         | S n' =>
             mkdir_parents n' (parent p) true;;
             mkdir_no_parents p exist_ok
         end
       else
         d ← is_dir p;
         if negb exist_ok || negb d then raise ex else mret tt).

(** [p.mkdir(parents=parents, exist_ok=exist_ok)]. *)
Definition Path_mkdir (p : Path) (parents exist_ok : bool) : M unit :=
  if parents then mkdir_parents (length (names p)) p exist_ok
  else mkdir_no_parents p exist_ok.

(** [d.pop(k, None)], the value dropped. *)
Definition dict_pop (d : loc) (k : string) : M unit :=
  w ← get_world;
  modify (set_heap (<[d := delete k (heap w !!! d)]> (heap w))).

(** [d.get(k, v)]. *)
Definition dict_get_default (d : loc) (k : string) (v : value) : M value :=
  w ← get_world;
  mret (default v ((heap w !!! d) !! k)).

(** The bytes to save as the banner:
    [isinstance(v, (bytes, bytearray)) and len(v) > 0]. *)
Definition banner_to_save (v : value) : option bytes :=
  match v with
  | VObj o =>
      match obj_bytes o with
      | Some b => if decide (0 < length b) then Some b else None
      | None => None
      end
  | _ => None
  end.

(** [save_profile_from_state(profile_id, result_pdf, result_tex)]. *)
Definition save_profile_from_state (profile_id : string) (result_pdf : bytes)
    (result_tex : string) : Page unit :=
  let paths := profile_paths profile_id in
  call (Path_mkdir (paths !!! "dir") true true);;
  ss ← get_session;
  data ← call (dict_copy (session_data ss));
  banner_bytes ← call (dict_get data "photo_banner_bytes");
  match banner_to_save banner_bytes with
  | Some b => call (write_bytes (paths !!! "banner") b)
  | None => mret tt
  end;;
  call (dict_pop data "photo_banner_bytes");;
  items ← call (dict_items data);
  text ← call (lift (json_dumps items));
  call (write_text (paths !!! "data") text);;
  call (write_bytes (paths !!! "pdf") result_pdf);;
  call (write_text (paths !!! "tex") result_tex).

(** The calls that [save_profile_from_state] makes, on the record
    [record] of the session. *)
Definition save_profile_steps (record : loc) (profile_id : string)
    (result_pdf : bytes) (result_tex : string) : M unit :=
  let paths := profile_paths profile_id in
  Path_mkdir (paths !!! "dir") true true;;
  data ← dict_copy record;
  banner_bytes ← dict_get data "photo_banner_bytes";
  match banner_to_save banner_bytes with
  | Some b => write_bytes (paths !!! "banner") b
  | None => mret tt
  end;;
  dict_pop data "photo_banner_bytes";;
  items ← dict_items data;
  text ← lift (json_dumps items);
  write_text (paths !!! "data") text;;
  write_bytes (paths !!! "pdf") result_pdf;;
  write_text (paths !!! "tex") result_tex.

(** The profile name of a record that has none yet; it becomes the
    selected profile. *)
Definition new_profile_id (data : loc) : Page string :=
  first_name ← call (dict_get_default data "first_name" (VStr ""));
  last_name ← call (dict_get_default data "last_name" (VStr ""));
  let profile_id :=
    slugify_profile str_strip str_lower sub_whitespace
      (py_str pyobj obj_str first_name) (py_str pyobj obj_str last_name) in
  set_session (set_selected_profile (Some profile_id));;
  mret profile_id.

(** [chief_super_app.py], lines 449 to 476. *)
Definition chief_super_app_generate_pdf : Page unit :=
  clean_last_workdir;;
  page_try
    (ss ← get_session;
     let data := session_data ss in
     result ←
       call (render_and_compile_chief obj_str obj_truthy obj_fspath tmpdir
               rand_name exec get_template render
               data "templates" "main_chief.tex.j2");
     set_session (set_last_pdf (Some (pdf_bytes result)));;
     set_session (set_last_tex (Some (tex_str result)));;
     set_session (set_last_workdir (Some (workdir result)));;
     ss ← get_session;
     profile_id ←
       match selected_profile ss with
       | Some s => if negb (s =? "") then mret s else new_profile_id data
       | None => new_profile_id data
       end;
     save_profile_from_state profile_id (pdf_bytes result) (tex_str result);;
     show (st_success ("PDF generated and saved under users/"
                       +:+ profile_id +:+ "/")))
    build_failed.

End Pages.

Section PageContracts.

Context {pyobj : Type}.
Variable obj_str : pyobj -> string.
Variable obj_bytes : pyobj -> option bytes.
Variable json_dumps : gmap string (value pyobj) -> exn + string.
Variable str_strip : string -> string.
Variable str_lower : string -> string.
Variable sub_whitespace : string -> string.

(** The machine on which the build of a press starts: when the page
    holds the folder of the build before, that folder has been cleaned
    up. *)
Definition cleaned (p : page pyobj) : world pyobj :=
  if text_truthy (last_workdir (session p))
  then (cleanup_workdir (last_workdir (session p)) (machine p)).2
  else machine p.

(** A press of [Generate PDF] in [app.py] and in [chief_app.py], whose
    build function is [build]: the press never ends with an exception,
    the record of the session stays the same dict object, and the page
    is left as the call of [build] on that record ends, on the machine
    that the clean-up has left.  When the call returns, the machine is
    the one it leaves, the page holds its PDF, its text and its folder,
    in which [main.pdf] holds that PDF, and shows the success.  When
    the call raises, the machine is the one it leaves, the page shows
    the error and the text of the exception raised and nothing else,
    holds the PDF and the text it held before, and holds no folder. *)
Definition generate_pdf_contract (build : loc -> M pyobj RenderResult)
    (handler : Page pyobj unit) : Prop :=
  forall p : page pyobj,
    exists p',
      handler p = (Ok tt, p')
      /\ session_data (session p') = session_data (session p)
      /\ match build (session_data (session p)) (cleaned p) with
         | (Ok res, w1) =>
             machine p' = w1
             /\ last_pdf (session p') = Some (pdf_bytes res)
             /\ last_tex (session p') = Some (tex_str res)
             /\ last_workdir (session p') = Some (workdir res)
             /\ shown p'
                = shown p ++ [st_success "PDF generated successfully."]
             /\ fs w1
                !! key (cwd w1) (Path_of (workdir res) </> Path_of "main.pdf")
                = Some (File (pdf_bytes res))
         | (Raise e, w1) =>
             machine p' = w1
             /\ shown p'
                = shown p ++ [st_error "Failed to compile LaTeX.";
                              st_text_area "Build log" (exn_str e)]
             /\ last_pdf (session p') = last_pdf (session p)
             /\ last_tex (session p') = last_tex (session p)
             /\ text_truthy (last_workdir (session p')) = false
         end.

(** The name under which a press of [Generate PDF] in
    [chief_super_app.py] saves the profile: the profile selected, or,
    when none is, the name that [slugify_profile] makes of the first
    and last name of the record. *)
Definition profile_to_save (selected : option string)
    (record : gmap string (value pyobj)) : string :=
  if text_truthy selected then text_format selected
  else
    slugify_profile str_strip str_lower sub_whitespace
      (py_str pyobj obj_str (default (VStr "") (record !! "first_name")))
      (py_str pyobj obj_str (default (VStr "") (record !! "last_name"))).

(** A press of [Generate PDF] in [chief_super_app.py], whose build
    function is [build]: the press never ends with an exception, the
    record of the session stays the same dict object, and the page is
    left as the call of [build] on that record, on the machine that the
    clean-up has left, and then the saving of the profile end.  When
    the build raises, the machine is the one it leaves, so that nothing
    is saved; the page shows the error and the text of the exception
    and nothing else, holds no folder, and holds the PDF, the text and
    the profile it held before.  When the build returns, the page
    holds its PDF, its text and its folder, the profile selected is
    [profile_to_save], and the profile is saved under that name on the
    machine that the build leaves.  When the saving returns, the
    machine is the one it leaves, the page shows where the profile is
    saved, and when the name of the profile is a file name the folder
    of the profile holds the PDF and the text.  When the saving
    raises, the machine is the one it leaves, and the page shows the
    error, the text of the exception and the folder of the build. *)
Definition generate_and_save_contract (build : loc -> M pyobj RenderResult)
    (handler : Page pyobj unit) : Prop :=
  forall p : page pyobj,
    exists p',
      handler p = (Ok tt, p')
      /\ session_data (session p') = session_data (session p)
      /\ match build (session_data (session p)) (cleaned p) with
         | (Raise e, w1) =>
             machine p' = w1
             /\ shown p'
                = shown p ++ [st_error "Failed to compile LaTeX.";
                              st_text_area "Build log" (exn_str e)]
             /\ last_pdf (session p') = last_pdf (session p)
             /\ last_tex (session p') = last_tex (session p)
             /\ selected_profile (session p') = selected_profile (session p)
             /\ text_truthy (last_workdir (session p')) = false
         | (Ok res, w1) =>
             let profile_id :=
               profile_to_save (selected_profile (session p))
                 (heap w1 !!! session_data (session p)) in
             let folder :=
               key (cwd (machine p)) USERS_DIR ++ [profile_id] in
             last_pdf (session p') = Some (pdf_bytes res)
             /\ last_tex (session p') = Some (tex_str res)
             /\ last_workdir (session p') = Some (workdir res)
             /\ selected_profile (session p') = Some profile_id
             /\ (text_truthy (selected_profile (session p)) = false ->
                 valid_name profile_id)
             /\ match save_profile_steps obj_bytes json_dumps
                        (session_data (session p)) profile_id
                        (pdf_bytes res) (tex_str res) w1 with
                | (Ok _, w2) =>
                    machine p' = w2
                    /\ shown p'
                       = shown p
                         ++ [st_success
                               ("PDF generated and saved under users/"
                                +:+ profile_id +:+ "/")]
                    /\ (valid_name profile_id ->
                        fs w2 !! (folder ++ ["chief_cv.pdf"])
                        = Some (File (pdf_bytes res))
                        /\ fs w2 !! (folder ++ ["main.tex"])
                           = Some (File (list_byte_of_string (tex_str res))))
                | (Raise e, w2) =>
                    machine p' = w2
                    /\ shown p'
                       = shown p
                         ++ [st_error "Failed to compile LaTeX.";
                             st_text_area "Build log" (exn_str e)]
                         ++ (if negb (workdir res =? "")
                             then [st_info ("Temp build folder: "
                                            +:+ workdir res)]
                             else [])
                end
         end.

(** A press of [Generate PDF] during which the compiler exits with a
    status other than zero: the page shows the error and a log that
    holds the whole output of the compiler and, after it, the build
    folder; the page holds no folder, so that the next press cleans
    nothing; and the file system is as the compiler left it. *)
Definition leaves_failed_build (handler : Page pyobj unit) : Prop :=
  forall (p p' : page pyobj) (r : outcome unit) (invs : list invocation)
         (inv : invocation) (proc : completed),
    handler p = (r, p') ->
    procs (machine p') = procs (machine p) ++ invs ->
    inv ∈ invs ->
    inv_result inv = inr proc ->
    returncode proc <> 0%Z ->
    fs (machine p') = fs_after proc
    /\ text_truthy (last_workdir (session p')) = false
    /\ exists before between,
         shown p'
         = shown p
           ++ [st_error "Failed to compile LaTeX.";
               st_text_area "Build log"
                 (before +:+ proc_stdout proc +:+ between +:+ inv_cwd inv)].

End PageContracts.


(** ** A second installation

    Objects that are not text, a profile store, an old build folder, a
    record with a banner, and stand-ins for what Python brings:
    [str.strip], [str.lower] and [re.sub(r"\s+", "_", s)] on ASCII
    text, and a printer in the place of [json.dumps]. *)

Module DemoApp.

(** A [bool], a path-like object and a [bytes] object. *)
Inductive object : Type :=
  | Flag (b : bool)
  | PathLike (s : string)
  | Blob (b : bytes).

Definition obj_str (o : object) : string :=
  match o with
  | Flag true => "True"
  | Flag false => "False"
  | PathLike s => s
  | Blob b => "b'" +:+ string_of_list_byte b +:+ "'"
  end.

Definition obj_truthy (o : object) : bool :=
  match o with
  | Flag b => b
  | PathLike _ => true
  | Blob b => bool_decide (b <> [])
  end.

Definition obj_fspath (o : object) : option string :=
  match o with
  | PathLike s => Some s
  | _ => None
  end.

Definition obj_bytes (o : object) : option bytes :=
  match o with
  | Blob b => Some b
  | _ => None
  end.

(** The printer lists the keys of the record, and refuses a record
    that holds a [bytes] object, as [json.dumps] does. *)
Definition json_dumps (items : gmap string (value object)) : exn + string :=
  if forallb (fun kv => match kv.2 with
                        | VObj (Blob _) => false
                        | _ => true
                        end) (map_to_list items)
  then inr ("{" +:+ join ", " (map fst (map_to_list items)) +:+ "}")
  else inl (Exn TypeError "Object of type bytes is not JSON serializable").

Definition template : Type := Environment (value object) * string.

Definition get_template (env : Environment (value object))
    (nm : string) (here : list string) (f : fsmap) : exn + template :=
  match f !! key here (Path_of (searchpath env) </> Path_of nm) with
  | Some (File b) => inr (env, string_of_list_byte b)
  | _ => inl (Exn TemplateError nm)
  end.

Definition render (t : template) (here : list string) (f : fsmap)
    (kwargs : gmap string (value object)) : exn + string :=
  match filters t.1 !! "latex" with
  | Some f => inr (t.2 +:+ f (default VNone (kwargs !! "first_name")))
  | None => inl (Exn TemplateError "No filter named 'latex'.")
  end.

Definition disk : fsmap :=
  list_to_map
    [ ([], Dir true);
      (["tmp"], Dir true);
      (["tmp"; "cv_build_old"], Dir true);
      (["tmp"; "cv_build_old"; "main.tex"], File (Demo.utf8 "old"));
      (["tmp"; "cv_build_old"; "out"], Dir true);
      (["tmp"; "cv_build_old"; "out"; "main.log"], File (Demo.utf8 "log"));
      (["tmp"; "cv_build_older"], Dir true);
      (["app"], Dir true);
      (["app"; "photo_banner.png"], File (Demo.utf8 "PNG"));
      (["app"; "templates"], Dir true);
      (["app"; "templates"; "main.tex.j2"], File (Demo.utf8 "Name: "));
      (["app"; "templates"; "main_chief.tex.j2"], File (Demo.utf8 "Chief: "));
      (["app"; "users"], Dir true);
      (["app"; "users"; "grace_hopper"], Dir true);
      (["app"; "users"; "ada_lovelace"], Dir true);
      (["app"; "users"; "ada_lovelace"; "data.txt"], File (Demo.utf8 "{}"));
      (["app"; "users"; "notes.txt"], File (Demo.utf8 "todo")) ].

(** The record of the session, at location 1. *)
Definition record : gmap string (value object) :=
  list_to_map
    [ ("first_name", VStr "Alan");
      ("last_name", VStr "Turing");
      ("photo_banner_bytes", VObj (Blob (Demo.utf8 "JPEG"))) ].

Definition start : world object :=
  mkWorld disk ["app"] (list_to_map [(1%positive, record)]) 0 [] [].

(** A page that has built once, in [/tmp/cv_build_old]. *)
Definition desk : page object :=
  mkPage
    (mkSession 1%positive (Some (Demo.utf8 "%PDF-old")) (Some "old")
       (Some "/tmp/cv_build_old") None false)
    [] start.

(** A machine on which the compiler is not installed. *)
Definition exec_not_installed (cmd : list string) (k : list string)
    (f : fsmap) : exn + completed :=
  inl (Exn FileNotFoundError
         "[Errno 2] No such file or directory: 'latexmk'").

Definition is_ascii_space (c : ascii) : bool :=
  let n := N_of_ascii c in
  ((9 <=? n) && (n <=? 13) || (28 <=? n) && (n <=? 32))%N.

Definition ascii_lower (c : ascii) : ascii :=
  let n := N_of_ascii c in
  if ((65 <=? n) && (n <=? 90))%N then ascii_of_N (n + 32) else c.

Fixpoint lstrip_space (s : list ascii) : list ascii :=
  match s with
  | x :: r => if is_ascii_space x then lstrip_space r else s
  | [] => []
  end.

Definition str_strip (s : string) : string :=
  string_of_list_ascii
    (reverse (lstrip_space (reverse (lstrip_space (list_ascii_of_string s))))).

Definition str_lower (s : string) : string :=
  string_of_list_ascii (map ascii_lower (list_ascii_of_string s)).

Definition sub_whitespace (s : string) : string :=
  string_of_list_ascii
    (sub_runs is_ascii_space ["_"%char] false (list_ascii_of_string s)).

Definition slugify_profile (first_name last_name : string) : string :=
  slugify_profile str_strip str_lower sub_whitespace first_name last_name.

Definition app_generate_pdf : Page object unit :=
  app_generate_pdf obj_str Demo.tmpdir Demo.rand_name Demo.exec
    get_template render.

Definition save_profile_from_state (profile_id : string)
    (result_pdf : bytes) (result_tex : string) : Page object unit :=
  save_profile_from_state obj_bytes json_dumps profile_id result_pdf
    result_tex.

Definition chief_super_app_generate_pdf : Page object unit :=
  chief_super_app_generate_pdf obj_str obj_truthy obj_fspath Demo.tmpdir
    Demo.rand_name Demo.exec get_template render obj_bytes json_dumps
    str_strip str_lower sub_whitespace.

End DemoApp.

(** * Facts about the escaper *)

Section EscaperFacts.

Lemma append_cons (c : ascii) (s t : string) :
  String c s +:+ t = String c (s +:+ t).
Proof. reflexivity. Qed.

Lemma append_empty_r (s : string) : s +:+ "" = s.
Proof. induction s as [|c s IH]; [done | by rewrite append_cons, IH]. Qed.

Lemma append_assoc' (a b c : string) : (a +:+ b) +:+ c = a +:+ (b +:+ c).
Proof. induction a as [|x a IH]; [done | by rewrite !append_cons, IH]. Qed.

Lemma join_empty_cons (x : string) (l : list string) :
  join "" (x :: l) = x +:+ join "" l.
Proof.
  unfold join. destruct l as [|y l]; simpl.
  - by rewrite append_empty_r.
  - done.
Qed.

Lemma join_empty_app (l1 l2 : list string) :
  join "" (l1 ++ l2) = join "" l1 +:+ join "" l2.
Proof.
  induction l1 as [|x l1 IH].
  - done.
  - change ((x :: l1) ++ l2)%list with (x :: (l1 ++ l2))%list.
    by rewrite !join_empty_cons, IH, append_assoc'.
Qed.

Lemma chars_app (s t : string) :
  list_ascii_of_string (s +:+ t)
  = (list_ascii_of_string s ++ list_ascii_of_string t)%list.
Proof. induction s as [|c s IH]; [done | rewrite append_cons; simpl; by rewrite IH]. Qed.

Lemma replacements_get_special (c : ascii) :
  c ∈ specials -> replacements_get c ∈ escape_sequences.
Proof.
  unfold specials, escape_sequences. intros Hc.
  repeat (apply elem_of_cons in Hc as [-> | Hc];
          [vm_compute; set_solver |]).
  by apply elem_of_nil in Hc.
Qed.

Lemma replacements_get_plain (c : ascii) :
  c ∉ specials -> replacements_get c = chr c.
Proof.
  intros Hc. unfold replacements_get.
  assert (replacements !! c = None) as ->; [| done].
  apply not_elem_of_list_to_map. exact Hc.
Qed.

Lemma passes_pointwise (order : list (ascii * string)) (ps : list piece) :
  fold_left (fun ps cr => map (substitute cr) ps) order ps
  = map (fun p => fold_left (fun p cr => substitute cr p) order p) ps.
Proof.
  revert ps. induction order as [|cr order IH]; intros ps; simpl.
  - by rewrite map_id.
  - by rewrite IH, map_map.
Qed.

Lemma passes_on_char (c : ascii) :
  piece_text
    (fold_left (fun p cr => substitute cr p) substitution_order (Raw c))
  = replacements_get c.
Proof.
  destruct (decide (c ∈ specials)) as [Hc | Hc].
  - unfold specials in Hc.
    repeat (apply elem_of_cons in Hc as [-> | Hc]; [by vm_compute |]).
    by apply elem_of_nil in Hc.
  - rewrite (replacements_get_plain c Hc).
    assert (forall order : list (ascii * string),
               c ∉ order.*1 ->
               fold_left (fun p cr => substitute cr p) order (Raw c) = Raw c)
      as Hkeep.
    { induction order as [|[c' r] order IH]; intros Hn; [done |].
      simpl. destruct (decide (c = c')) as [-> | Hne].
      - exfalso. apply Hn. simpl. left.
      - apply IH. intros Hin. apply Hn. simpl. by right. }
    rewrite Hkeep; [done | exact Hc].
Qed.

Lemma escape_cons (c : ascii) (s : string) :
  join "" (map replacements_get (list_ascii_of_string (String c s)))
  = replacements_get c
    +:+ join "" (map replacements_get (list_ascii_of_string s)).
Proof. simpl. apply join_empty_cons. Qed.

Lemma escape_well_escaped (s : string) :
  well_escaped (join "" (map replacements_get (list_ascii_of_string s))).
Proof.
  induction s as [|c s IH].
  - constructor.
  - rewrite escape_cons. destruct (decide (c ∈ specials)) as [Hc | Hc].
    + apply we_seq; [by apply replacements_get_special | done].
    + rewrite (replacements_get_plain c Hc). by apply we_plain.
Qed.

Lemma get_append_r (e s : string) (i : nat) :
  String.get (String.length e + i) (e +:+ s) = String.get i s.
Proof. induction e as [|x e IH]; [done | by rewrite append_cons]. Qed.

Lemma substring_append_whole (e s : string) :
  substring 0 (String.length e) (e +:+ s) = e.
Proof.
  induction e as [|x e IH].
  - simpl. by destruct s.
  - rewrite append_cons. simpl. by rewrite IH.
Qed.

Lemma substring_append_skip (e s : string) (j n : nat) :
  substring (String.length e + j) n (e +:+ s) = substring j n s.
Proof. induction e as [|x e IH]; [done | by rewrite append_cons]. Qed.

Lemma well_escaped_inside (s : string) :
  well_escaped s ->
  forall i c,
    String.get i s = Some c -> c ∈ specials -> inside_escape_sequence s i.
Proof.
  induction 1 as [| c0 s Hc0 Hs IH | e s He Hs IH]; intros i c Hget Hc.
  - by destruct i.
  - destruct i as [|i]; simpl in Hget.
    + congruence.
    + destruct (IH i c Hget Hc) as (j & e & He & Hj & Hocc).
      exists (S j), e. split; [done |]. split; [lia |].
      unfold occurs_at in *. simpl. exact Hocc.
  - destruct (decide (i < String.length e)) as [Hlt | Hge].
    + exists 0, e. split; [done |]. split; [lia |].
      apply substring_append_whole.
    + replace i with (String.length e + (i - String.length e)) in Hget by lia.
      rewrite get_append_r in Hget.
      destruct (IH _ c Hget Hc) as (j & e' & He' & Hj & Hocc).
      exists (String.length e + j), e'. split; [done |]. split; [lia |].
      unfold occurs_at in *. by rewrite substring_append_skip.
Qed.
End EscaperFacts.

(** * Facts about paths *)

Section PathFacts.

Lemma collapse_snoc (ns : list string) (n : string) :
  n <> ".." -> collapse (ns ++ [n]) = collapse ns ++ [n].
Proof.
  intros Hn. unfold collapse. rewrite fold_left_app. simpl.
  unfold collapse_step at 1. by rewrite decide_False.
Qed.

Lemma split_slash_plain (n : string) :
  "/"%char ∉ list_ascii_of_string n -> split_slash n = [n].
Proof.
  induction n as [|c n IH]; intros Hn; [done |].
  simpl in *. apply not_elem_of_cons in Hn as [Hc Hn].
  rewrite decide_False by congruence. by rewrite IH.
Qed.

Lemma split_slash_component (n s : string) :
  "/"%char ∉ list_ascii_of_string n ->
  split_slash (n +:+ "/" +:+ s) = n :: split_slash s.
Proof.
  induction n as [|c n IH]; intros Hn.
  - simpl. done.
  - simpl in Hn. apply not_elem_of_cons in Hn as [Hc Hn].
    rewrite append_cons. simpl. rewrite decide_False by congruence.
    by rewrite IH.
Qed.

Lemma split_slash_components (s : string) :
  Forall (fun n => "/"%char ∉ list_ascii_of_string n) (split_slash s).
Proof.
  induction s as [|c s IH]; simpl.
  - constructor; [| constructor]. simpl. apply not_elem_of_nil.
  - destruct (decide (c = "/"%char)) as [-> | Hc].
    + constructor; [apply not_elem_of_nil | done].
    + destruct (split_slash s) as [|h t]; simpl.
      * constructor; [| constructor]. simpl.
        apply not_elem_of_cons. split; [congruence | apply not_elem_of_nil].
      * inversion IH; subst. constructor; [| done]. simpl.
        apply not_elem_of_cons. split; [congruence | done].
Qed.

Lemma split_slash_join (ns : list string) :
  ns <> [] ->
  Forall (fun n => "/"%char ∉ list_ascii_of_string n) ns ->
  split_slash (join "/" ns) = ns.
Proof.
  induction ns as [|n ns IH]; intros Hne Hall; [done |].
  inversion Hall as [|? ? Hn Hns]; subst.
  destruct ns as [|m ns].
  - simpl. by apply split_slash_plain.
  - change (join "/" (n :: m :: ns)) with (n +:+ "/" +:+ join "/" (m :: ns)).
    rewrite split_slash_component by done. f_equal. by apply IH.
Qed.

Lemma Path_of_names (s : string) : parsed_names (names (Path_of s)).
Proof.
  unfold parsed_names, Path_of. simpl.
  apply List.Forall_forall. intros n Hn.
  apply list_elem_of_In in Hn.
  apply list_elem_of_filter in Hn as [[H1 H2] Hn].
  split; [done |]. split; [done |].
  pose proof (split_slash_components s) as Hall.
  rewrite List.Forall_forall in Hall. apply Hall. by apply list_elem_of_In.
Qed.

Lemma filter_parsed_names (ns : list string) :
  parsed_names ns ->
  filter (fun n => n <> "" /\ n <> ".") ns = ns.
Proof.
  induction 1 as [|n ns (H1 & H2 & _) _ IH]; [done |].
  rewrite filter_cons_True by done. by rewrite IH.
Qed.

Lemma prefix_slash_name (n rest : string) :
  n <> "" -> "/"%char ∉ list_ascii_of_string n ->
  String.prefix "/" (n +:+ rest) = false.
Proof.
  intros H1 H3. destruct n as [|c n]; [done |].
  simpl in H3. apply not_elem_of_cons in H3 as [Hc _].
  rewrite append_cons.
  change (String.prefix "/" (String c (n +:+ rest)))
    with (if ascii_dec "/" c then String.prefix "" (n +:+ rest) else false).
  destruct (ascii_dec "/" c); [congruence | done].
Qed.

Lemma prefix_slash_root (rest : string) :
  String.prefix "/" ("/" +:+ rest) = true.
Proof.
  change (String.prefix "/" ("/" +:+ rest))
    with (if ascii_dec "/" "/" then String.prefix "" rest else false).
  destruct (ascii_dec "/" "/"); [by destruct rest | done].
Qed.

Lemma join_cons_cons (sep n m : string) (ns : list string) :
  join sep (n :: m :: ns) = n +:+ sep +:+ join sep (m :: ns).
Proof. reflexivity. Qed.

Lemma Path_of_path_str (p : Path) :
  parsed_names (names p) -> Path_of (path_str p) = p.
Proof.
  destruct p as [a ns]. cbn [names]. intros Hns.
  assert (Forall (fun n => "/"%char ∉ list_ascii_of_string n) ns) as Hsl.
  { unfold parsed_names in Hns. eapply Forall_impl; [exact Hns |].
    simpl. intros n (_ & _ & H). exact H. }
  destruct a, ns as [|n ns]; unfold path_str; cbn [is_absolute names].
  - done.
  - unfold Path_of. f_equal; [apply prefix_slash_root |].
    change (split_slash ("/" +:+ join "/" (n :: ns)))
      with ("" :: split_slash (join "/" (n :: ns))).
    rewrite split_slash_join by done.
    rewrite filter_cons_False by (intros [H _]; done).
    by apply filter_parsed_names.
  - done.
  - unfold Path_of. f_equal.
    + inversion Hns as [|? ? (H1 & H2 & H3) _]; subst.
      destruct ns as [|m ns].
      * change (join "/" [n]) with n.
        pose proof (prefix_slash_name n "" H1 H3) as Hp.
        by rewrite append_empty_r in Hp.
      * rewrite join_cons_cons. by apply prefix_slash_name.
    + rewrite split_slash_join by done. by apply filter_parsed_names.
Qed.

Lemma Path_of_roundtrip (s : string) :
  Path_of (path_str (Path_of s)) = Path_of s.
Proof. apply Path_of_path_str, Path_of_names. Qed.

Lemma Path_of_valid_name (n : string) :
  valid_name n -> Path_of n = mkPath false [n].
Proof.
  intros (H1 & H2 & H3 & H4). unfold Path_of.
  rewrite split_slash_plain by done.
  rewrite filter_cons_True by done. f_equal.
  pose proof (prefix_slash_name n "" H1 H4) as Hp.
  by rewrite append_empty_r in Hp.
Qed.

Lemma key_join_name (c : list string) (p : Path) (n : string) :
  valid_name n -> key c (p </> Path_of n) = key c p ++ [n].
Proof.
  intros Hn. rewrite (Path_of_valid_name n Hn).
  unfold joinpath, key. simpl. rewrite app_assoc.
  apply collapse_snoc. by destruct Hn as (_ & _ & H & _).
Qed.

Lemma valid_main_tex : valid_name "main.tex".
Proof.
  repeat split; try done. apply (bool_decide_unpack _). by vm_compute.
Qed.

Lemma valid_main_pdf : valid_name "main.pdf".
Proof.
  repeat split; try done. apply (bool_decide_unpack _). by vm_compute.
Qed.

(** *** The walk of the kernel *)

Lemma key_fold (c : list string) (p : Path) :
  key c p
  = fold_left collapse_step (names p)
      (if is_absolute p then [] else collapse c).
Proof.
  unfold key, collapse. rewrite fold_left_app. by destruct (is_absolute p).
Qed.

Lemma walk_found (f : fsmap) (ns cur k : list string) (n : node) :
  walk f cur ns = Found k n ->
  k = fold_left collapse_step ns cur /\ f !! k = Some n.
Proof.
  revert cur. induction ns as [|a ns IH]; intros cur; simpl.
  - destruct (f !! cur) as [m |] eqn:Hcur; [| done].
    intros [= <- <-]. done.
  - destruct (f !! cur) as [[b | d] |]; try done.
    unfold collapse_step at 2.
    destruct (decide (a = "..")); [apply IH |].
    destruct (decide (NAME_MAX < String.length a)); [done | apply IH].
Qed.

Lemma walk_short (f : fsmap) (ns cur : list string) :
  Forall (fun n => String.length n <= NAME_MAX) ns ->
  walk f cur ns <> NameTooLong.
Proof.
  intros Hall. revert cur.
  induction Hall as [|a ns Ha _ IH]; intros cur; simpl.
  - by destruct (f !! cur).
  - destruct (f !! cur) as [[b | d] |]; try done.
    destruct (decide (a = "..")); [apply IH |].
    destruct (decide (NAME_MAX < String.length a)); [lia | apply IH].
Qed.

(** What [p.exists()] finds is at the location of [p]. *)
Lemma exists_outcome_found (f : fsmap) (c : list string) (p : Path) :
  exists_outcome f c p = inr true -> is_Some (f !! key c p).
Proof.
  unfold exists_outcome, stat.
  destruct (has_nul (path_str p)); [done |].
  destruct (decide (PATH_MAX <= String.length (path_str p))); [done |].
  destruct (walk f _ (names p)) as [k m | |] eqn:Hwalk; try done.
  intros _. apply walk_found in Hwalk as [-> Hk].
  rewrite key_fold. by eexists.
Qed.

(** [p.exists()] does not raise for a path that is short enough. *)
Lemma exists_outcome_short (f : fsmap) (c : list string) (p : Path) :
  short_enough p ->
  exists_outcome f c p = inr (bool_decide (exists_outcome f c p = inr true)).
Proof.
  intros [Hlen Hnames]. unfold exists_outcome, stat.
  destruct (has_nul (path_str p)); [done |].
  destruct (decide (PATH_MAX <= String.length (path_str p))); [lia |].
  pose proof (walk_short f (names p)
                (if is_absolute p then [] else collapse c) Hnames) as Hw.
  by destruct (walk f _ (names p)).
Qed.

(** *** Texts without a NUL character *)

Lemma has_nul_false (s : string) :
  has_nul s = false <-> "000"%char ∉ list_ascii_of_string s.
Proof. unfold has_nul. apply bool_decide_eq_false. Qed.

Lemma has_nul_append (a b : string) :
  has_nul (a +:+ b) = false <-> has_nul a = false /\ has_nul b = false.
Proof.
  rewrite !has_nul_false, chars_app, not_elem_of_app. done.
Qed.

Lemma has_nul_join (ns : list string) :
  has_nul (join "/" ns) = false <-> Forall (fun n => has_nul n = false) ns.
Proof.
  induction ns as [|n ns IH].
  - split; [constructor | done].
  - destruct ns as [|m ns].
    + change (join "/" [n]) with n. split.
      * intros H. by constructor.
      * by inversion 1.
    + rewrite join_cons_cons, !has_nul_append, IH. split.
      * intros (Hn & _ & Hns). by constructor.
      * inversion 1; subst. done.
Qed.

Lemma has_nul_path_str (p : Path) :
  has_nul (path_str p) = false
  <-> Forall (fun n => has_nul n = false) (names p).
Proof.
  destruct p as [[] ns]; unfold path_str; cbn [is_absolute names].
  - rewrite has_nul_append, has_nul_join. split; [by intros [_ H] | done].
  - destruct ns as [|n ns]; [| apply has_nul_join].
    split; [constructor | done].
Qed.

Lemma has_nul_split_slash (s : string) :
  has_nul s = false -> Forall (fun n => has_nul n = false) (split_slash s).
Proof.
  induction s as [|c s IH]; intros Hs.
  - by constructor.
  - change (String c s) with (chr c +:+ s) in Hs.
    apply has_nul_append in Hs as [Hc Hs]. specialize (IH Hs). simpl.
    destruct (decide (c = "/"%char)); [by constructor |].
    destruct (split_slash s) as [|h t]; [by constructor |].
    inversion IH; subst. constructor; [| done].
    change (String c h) with (chr c +:+ h). by apply has_nul_append.
Qed.

Lemma has_nul_Path_of (s : string) :
  has_nul s = false -> has_nul (path_str (Path_of s)) = false.
Proof.
  intros Hs. apply has_nul_path_str. unfold Path_of. cbn [names].
  apply Forall_forall. intros n Hn.
  apply list_elem_of_filter in Hn as [_ Hn].
  pose proof (has_nul_split_slash s Hs) as Hall.
  rewrite Forall_forall in Hall. by apply Hall.
Qed.

Lemma has_nul_joinpath (a b : Path) :
  has_nul (path_str a) = false -> has_nul (path_str b) = false ->
  has_nul (path_str (a </> b)) = false.
Proof.
  intros Ha Hb. unfold joinpath. destruct (is_absolute b); [done |].
  apply has_nul_path_str. cbn [names]. apply Forall_app.
  split; by apply has_nul_path_str.
Qed.

End PathFacts.

(** * Facts about runs *)

Section Runs.

Context {pyobj : Type}.
Variable obj_str : pyobj -> string.
Variable obj_truthy : pyobj -> bool.
Variable obj_fspath : pyobj -> option string.
Variable tmpdir : string.
Variable rand_name : nat -> string.
Variable exec : list string -> list string -> fsmap -> exn + completed.
Context {template : Type}.
Variable get_template :
  Environment (value pyobj) -> string -> list string -> fsmap ->
  exn + template.
Variable render :
  template -> list string -> fsmap -> gmap string (value pyobj) ->
  exn + string.

Local Abbreviation M := (M pyobj).
Local Abbreviation world := (world pyobj).

(** How a sequence of two steps runs. *)
Lemma bind_inv {A B} (m : M A) (k : A -> M B) (w w' : world) (r : outcome B) :
  (m ≫= k) w = (r, w') ->
  (exists a w1, m w = (Ok a, w1) /\ k a w1 = (r, w'))
  \/ (exists e, m w = (Raise e, w') /\ r = Raise e).
Proof.
  unfold mbind, M_bind, bind. destruct (m w) as [[a | e] w1]; intros H.
  - left. eauto.
  - right. inversion H. eauto.
Qed.

Lemma try_except_inv {A} (m : M A) (h : exn -> M A) (w w' : world)
    (r : outcome A) :
  try_except m h w = (r, w') ->
  (exists a, m w = (Ok a, w') /\ r = Ok a)
  \/ (exists e w1, m w = (Raise e, w1) /\ h e w1 = (r, w')).
Proof.
  unfold try_except. destruct (m w) as [[a | e] w1]; intros H.
  - left. inversion H. eauto.
  - right. eauto.
Qed.

Lemma lift_inv {A} (x : exn + A) (w w' : world) (r : outcome A) :
  lift x w = (r, w') ->
  w' = w /\ r = match x with inl e => Raise e | inr a => Ok a end.
Proof. destruct x; intros H; inversion H; done. Qed.

(** A step that leaves everything but the random names as it is. *)
Lemma next_name_run (w : world) :
  next_name rand_name w = (Ok (rand_name (rng w)), set_rng (S (rng w)) w).
Proof. reflexivity. Qed.

Lemma os_mkdir_inv (p : Path) (w w' : world) (r : outcome unit) :
  os_mkdir p w = (r, w') ->
  (r = Ok tt /\ fs w !! key (cwd w) p = None
   /\ w' = set_fs (<[key (cwd w) p := Dir true]> (fs w)) w)
  \/ (exists e, r = Raise e /\ w' = w).
Proof.
  unfold os_mkdir. intros H. apply bind_inv in H as [(w0 & w1 & H0 & H) | (e & H0 & _)];
    [| inversion H0].
  inversion H0; subst w0 w1; clear H0. cbv zeta in H.
  destruct (fs w !! key (cwd w) p) as [n |] eqn:Hk.
  - inversion H. right. eauto.
  - apply bind_inv in H as [(u & w1 & H0 & H) | (e & H0 & ->)].
    + apply lift_inv in H0 as [-> _]. inversion H. left. done.
    + apply lift_inv in H0 as [-> _]. right. eauto.
Qed.

Lemma mkdtemp_loop_inv (n : nat) (prefix : string) (w w' : world)
    (r : outcome string) :
  mkdtemp_loop tmpdir rand_name n prefix w = (r, w') ->
  cwd w' = cwd w /\ procs w' = procs w /\ heap w' = heap w
  /\ match r with
     | Ok s =>
         fs w !! key (cwd w) (Path_of s) = None
         /\ fs w' = <[key (cwd w) (Path_of s) := Dir true]> (fs w)
     | Raise _ => fs w' = fs w
     end.
Proof.
  revert w. induction n as [|n IH]; intros w H; simpl in H.
  - inversion H. done.
  - apply bind_inv in H as [(nm & w1 & H0 & H) | (e & H0 & _)];
      [| rewrite next_name_run in H0; inversion H0].
    rewrite next_name_run in H0. inversion H0; subst nm w1; clear H0.
    cbv zeta in H.
    apply try_except_inv in H as [(s & H & ->) | (e & w1 & H & Hh)].
    + apply bind_inv in H as [(u & w1 & H0 & H) | (e & _ & He)];
        [| inversion He].
      inversion H; subst s w1; clear H.
      apply os_mkdir_inv in H0 as [(_ & Hnone & ->) | (e & He & _)];
        [| inversion He].
      done.
    + assert (w1 = set_rng (S (rng w)) w) as ->.
      { apply bind_inv in H as [(u & w2 & H0 & H) | (e' & H0 & _)].
        - inversion H.
        - by apply os_mkdir_inv in H0 as [(He & _) | (e'' & _ & ->)]. }
      destruct (decide (exn_cls e = FileExistsError)).
      * apply IH in Hh. exact Hh.
      * inversion Hh. done.
Qed.


Lemma write_bytes_inv (p : Path) (b : bytes) (w w' : world)
    (r : outcome unit) :
  write_bytes p b w = (r, w') ->
  (r = Ok tt
   /\ w' = set_fs (<[key (cwd w) p := File b]> (fs w)) w
   /\ forall d, fs w !! key (cwd w) p <> Some (Dir d))
  \/ (exists e, r = Raise e /\ w' = w).
Proof.
  unfold write_bytes. intros H.
  apply bind_inv in H as [(w0 & w1 & H0 & H) | (e & H0 & _)];
    [| inversion H0].
  inversion H0; subst w0 w1; clear H0. cbv zeta in H.
  destruct (fs w !! key (cwd w) p) as [[c | d] |] eqn:Hk.
  - inversion H. left. done.
  - inversion H. right. eauto.
  - apply bind_inv in H as [(u & w1 & H0 & H) | (e & H0 & ->)].
    + apply lift_inv in H0 as [-> _]. inversion H. left. done.
    + apply lift_inv in H0 as [-> _]. right. eauto.
Qed.

Lemma _run_inv (cmd : list string) (folder : string) (w w' : world)
    (r : outcome unit) :
  _run exec cmd folder w = (r, w') ->
  let res := exec cmd (key (cwd w) (Path_of folder)) (fs w) in
  cwd w' = cwd w /\ heap w' = heap w
  /\ procs w' = procs w ++ [mkInvocation cmd folder (fs w) res]
  /\ match res with
     | inl e => r = Raise e /\ fs w' = fs w
     | inr proc =>
         fs w' = fs_after proc
         /\ r = if decide (returncode proc <> 0%Z)
                then Raise (command_failed cmd proc)
                else Ok tt
     end.
Proof.
  unfold _run, subprocess_run.
  cbv [mbind M_bind bind get_world modify lift mret M_ret ret raise].
  destruct (exec cmd (key (cwd w) (Path_of folder)) (fs w)) as [e | proc];
    cbn.
  - intros H. inversion H. done.
  - destruct (decide (returncode proc <> 0%Z)); intros H; inversion H; done.
Qed.

Lemma path_exists_run (p : Path) (w : world) :
  path_exists p w
  = (Ok (bool_decide (is_Some (fs w !! key (cwd w) p))), w).
Proof. reflexivity. Qed.

Lemma read_bytes_run (p : Path) (w : world) :
  read_bytes p w
  = (match fs w !! key (cwd w) p with
     | Some (File b) => Ok b
     | Some (Dir _) =>
         Raise (os_error IsADirectoryError "21" "Is a directory"
                  (key (cwd w) p))
     | None =>
         Raise (os_error FileNotFoundError "2" "No such file or directory"
                  (key (cwd w) p))
     end, w).
Proof.
  unfold read_bytes.
  cbv [mbind M_bind bind get_world mret M_ret ret raise].
  by destruct (fs w !! key (cwd w) p) as [[b | d] |].
Qed.

(** The shared steps: nothing but the file system and the list of
    subprocesses changes, and the compiler is called at most once. *)
Lemma build_steps_inv (wd : Path) (folder tex : string) (w w' : world)
    (r : outcome RenderResult) :
  Path_of folder = wd ->
  build_steps exec wd folder tex w = (r, w') ->
  cwd w' = cwd w /\ heap w' = heap w
  /\ ((procs w' = procs w /\ fs w' = fs w /\ exists e, r = Raise e)
      \/ (let kw := key (cwd w) wd in
          let fs1 :=
            <[kw ++ ["main.tex"] := File (list_byte_of_string tex)]> (fs w) in
          exists res,
            (forall d, fs w !! (kw ++ ["main.tex"]) <> Some (Dir d))
            /\ procs w' = procs w ++ [mkInvocation latexmk_cmd folder fs1 res]
            /\ build_ending kw folder tex fs1 res r (fs w'))).
Proof.
  intros Hwd H. unfold build_steps in H.
  apply bind_inv in H as [(u & w1 & Hw & H) | (e & Hw & ->)].
  2: { apply write_bytes_inv in Hw as [(He & _) | (e' & _ & ->)]; [done |].
       split; [done |]. split; [done |]. left. eauto. }
  apply write_bytes_inv in Hw as [(_ & -> & Hnd) | (e' & He & _)];
    [| done].
  rewrite (key_join_name _ _ _ valid_main_tex) in Hnd, H.
  set (kw := key (cwd w) wd) in *.
  set (fs1 := <[kw ++ ["main.tex"] := File (list_byte_of_string tex)]> (fs w))
    in *.
  apply bind_inv in H as [(u' & w2 & Hr & H) | (e & Hr & ->)].
  - apply try_except_inv in Hr as [(u'' & Hr & _) | (e & w3 & Hr & Hh)];
      [| inversion Hh].
    apply _run_inv in Hr. cbv zeta in Hr. cbn [cwd fs heap procs set_fs] in Hr.
    rewrite Hwd in Hr. fold kw in Hr.
    destruct Hr as (Hc & Hh & Hp & Hres).
    cbv zeta in H.
    apply bind_inv in H as [(ex & w3 & He & H) | (e & He & _)];
      [| by rewrite path_exists_run in He].
    rewrite path_exists_run in He. inversion He; subst ex w3; clear He.
    rewrite (key_join_name _ _ _ valid_main_pdf) in H.
    rewrite Hc in H. fold kw in H.
    destruct (exec latexmk_cmd kw fs1) as [e | proc] eqn:Hex;
      [by destruct Hres |].
    destruct Hres as [Hfs Hru].
    destruct (decide (returncode proc <> 0%Z)) as [Hne | Hz]; [done |].
    assert (w' = w2 /\
            r = match fs_after proc !! (kw ++ ["main.pdf"]) with
                | Some (File b) => Ok (mkRenderResult b tex folder)
                | Some (Dir _) =>
                    Raise (os_error IsADirectoryError "21" "Is a directory"
                             (kw ++ ["main.pdf"]))
                | None => Raise pdf_missing
                end) as [-> ->].
    { rewrite Hfs in H.
      destruct (fs_after proc !! (kw ++ ["main.pdf"])) as [n |] eqn:Hpdf.
      - rewrite bool_decide_true in H by eauto. cbn [negb] in H.
        apply bind_inv in H as [(b & w3 & Hb & H) | (e & Hb & ->)];
          rewrite read_bytes_run in Hb;
          rewrite (key_join_name _ _ _ valid_main_pdf) in Hb;
          rewrite Hc, Hfs in Hb; fold kw in Hb; rewrite Hpdf in Hb;
          destruct n as [b' | d]; inversion Hb; subst.
        + by inversion H.
        + done.
      - rewrite bool_decide_false in H by (by intros [? ?]).
        cbn [negb] in H. by inversion H. }
    split; [done |]. split; [done |]. right. exists (inr proc).
    split; [done |]. split; [done |].
    unfold build_ending. split; [exact Hfs |].
    rewrite decide_False by done.
    by destruct (fs_after proc !! (kw ++ ["main.pdf"])) as [[b | d] |].
  - apply try_except_inv in Hr as [(u'' & _ & Hu) | (e0 & w3 & Hr & Hh)];
      [done |].
    inversion Hh; subst e w3; clear Hh.
    apply _run_inv in Hr. cbv zeta in Hr. cbn [cwd fs heap procs set_fs] in Hr.
    rewrite Hwd in Hr. fold kw in Hr.
    destruct Hr as (Hc & Hh & Hp & Hres).
    split; [done |]. split; [done |]. right.
    destruct (exec latexmk_cmd kw fs1) as [e | proc] eqn:Hex.
    + destruct Hres as [He Hfs]. inversion He; subst e0.
      exists (inl e). unfold build_ending. done.
    + destruct Hres as [Hfs Hru]. exists (inr proc).
      split; [done |]. split; [done |].
      unfold build_ending. split; [done |].
      destruct (decide (returncode proc <> 0%Z)); [| done].
      by inversion Hru.
Qed.

Lemma print_run (line : string) (w : world) :
  print line w = (Ok tt, set_stdout (stdout w ++ [line]) w).
Proof. reflexivity. Qed.

Lemma dict_items_run (d : loc) (w : world) :
  dict_items d w = (Ok (heap w !!! d), w).
Proof. reflexivity. Qed.

Lemma env_get_template_inv (env : Environment (value pyobj)) (nm : string)
    (w w' : world) (r : outcome template) :
  env_get_template get_template env nm w = (r, w') -> w' = w.
Proof.
  unfold env_get_template. intros H.
  apply bind_inv in H as [(w0 & w1 & H0 & H) | (e & H0 & _)];
    [| inversion H0].
  inversion H0; subst w0 w1; clear H0. by apply lift_inv in H as [-> _].
Qed.

Lemma template_render_inv (t : template)
    (kwargs : gmap string (value pyobj)) (w w' : world)
    (r : outcome string) :
  template_render render t kwargs w = (r, w') ->
  w' = w
  /\ forall tex, r = Ok tex -> render t (cwd w) (fs w) kwargs = inr tex.
Proof.
  unfold template_render. intros H.
  apply bind_inv in H as [(w0 & w1 & H0 & H) | (e & H0 & _)];
    [| inversion H0].
  inversion H0; subst w0 w1; clear H0.
  apply lift_inv in H as [-> ->]. split; [done |].
  intros tex. destruct (render t (cwd w) (fs w) kwargs); congruence.
Qed.

(** A path below a directory is not the directory. *)
Lemma app_singleton_ne (k : list string) (n : string) : k ++ [n] <> k.
Proof.
  intros H. apply (f_equal length) in H. rewrite length_app in H.
  simpl in H. lia.
Qed.

(** Every run of [render_and_compile] has the shape [build_trace]. *)
Lemma render_and_compile_trace (data : loc) (template_path : string)
    (w w' : world) (r : outcome RenderResult) :
  render_and_compile obj_str tmpdir rand_name exec get_template render
    data template_path w = (r, w') ->
  build_trace render w r w'.
Proof.
  unfold render_and_compile. cbv zeta. intros H.
  apply bind_inv in H as [(u & w1 & H0 & H) | (e & H0 & _)];
    [| rewrite print_run in H0; inversion H0].
  rewrite print_run in H0. inversion H0; subst u w1; clear H0.
  set (w0 := set_stdout _ w) in H.
  assert (cwd w0 = cwd w /\ heap w0 = heap w /\ procs w0 = procs w
          /\ fs w0 = fs w) as (Hc0 & Hh0 & Hp0 & Hf0) by done.
  clearbody w0.
  apply bind_inv in H as [(t & w1 & H0 & H) | (e & H0 & ->)];
    apply env_get_template_inv in H0 as ->.
  2: { split; [done |]. split; [by intros l _; rewrite Hh0 |].
       left. eauto. }
  apply bind_inv in H as [(kwargs & w1 & H0 & H) | (e & H0 & _)];
    [| rewrite dict_items_run in H0; inversion H0].
  rewrite dict_items_run in H0. inversion H0; subst kwargs w1; clear H0.
  apply bind_inv in H as [(tex & w1 & H0 & H) | (e & H0 & ->)];
    apply template_render_inv in H0 as [-> Htex].
  2: { split; [done |]. split; [by intros l _; rewrite Hh0 |].
       left. eauto. }
  specialize (Htex tex eq_refl).
  apply bind_inv in H as [(tmp & w1 & H0 & H) | (e & H0 & ->)];
    apply mkdtemp_loop_inv in H0 as (Hc1 & Hp1 & Hh1 & Hf1).
  2: { split; [congruence |].
       split; [by intros l _; rewrite Hh1, Hh0 |].
       left. split; [congruence | eauto]. }
  destruct Hf1 as [Hnew Hf1].
  apply (build_steps_inv _ _ _ _ _ _ eq_refl) in H
    as (Hc2 & Hh2 & [(Hp2 & _ & e & ->) | Hrun]).
  { split; [congruence |].
    split; [by intros l _; rewrite Hh2, Hh1, Hh0 |].
    left. split; [congruence | eauto]. }
  cbv zeta in Hrun. destruct Hrun as (res & _ & Hp2 & Hend).
  split; [congruence |].
  split; [by intros l _; rewrite Hh2, Hh1, Hh0 |].
  right. exists tmp, tex. eexists. exists res. cbv zeta.
  rewrite Hc1, Hc0, Hf1, Hf0 in *.
  split; [by rewrite Hp2, Hp1, Hp0 |].
  split; [eauto |].
  split; [exact Hnew |].
  split.
  { rewrite lookup_insert_ne by apply app_singleton_ne.
    apply lookup_insert_eq. }
  split; [apply lookup_insert_eq | exact Hend].
Qed.

(** *** Steps that only read *)

Lemma readonly_ret {A} (a : A) : readonly (mret a : M A).
Proof. by intros w. Qed.

Lemma readonly_bind {A B} (m : M A) (k : A -> M B) :
  readonly m -> (forall a, readonly (k a)) -> readonly (m ≫= k).
Proof.
  intros Hm Hk w. specialize (Hm w).
  cbv [mbind M_bind bind]. destruct (m w) as [[a | e] w1]; simpl in *.
  - subst w1. apply Hk.
  - done.
Qed.

Lemma readonly_path_exists (p : Path) : readonly (path_exists p : M bool).
Proof. by intros w. Qed.

Lemma readonly_resolve (p : Path) : readonly (resolve p : M Path).
Proof. by intros w. Qed.

Lemma readonly_Path_exists (p : Path) : readonly (Path_exists p : M bool).
Proof.
  intros w. unfold Path_exists. cbv [mbind M_bind bind get_world].
  by destruct (exists_outcome (fs w) (cwd w) p).
Qed.

Lemma readonly_Path_resolve (p : Path) : readonly (Path_resolve p : M Path).
Proof. intros w. unfold Path_resolve. by destruct (has_nul (path_str p)). Qed.

Lemma Path_exists_run (p : Path) (w : world) :
  short_enough p ->
  Path_exists p w = (Ok (bool_decide (found w p)), w).
Proof.
  intros Hp. unfold Path_exists, found. cbv [mbind M_bind bind get_world].
  by rewrite (exists_outcome_short _ _ _ Hp) at 1.
Qed.

Lemma Path_resolve_run (p : Path) (w : world) :
  has_nul (path_str p) = false ->
  Path_resolve p w = (Ok (mkPath true (key (cwd w) p)), w).
Proof. intros Hp. unfold Path_resolve. by rewrite Hp. Qed.

Lemma readonly_Path_of_value (v : value pyobj) :
  readonly (Path_of_value obj_fspath v).
Proof. intros w. destruct v as [| s | o]; simpl; try done.
  by destruct (obj_fspath o). Qed.

Lemma readonly_resolve_asset_path (v : value pyobj)
    (template_dir project_root : Path) (default_name : string) :
  readonly (_resolve_asset_path obj_truthy obj_fspath v template_dir
              project_root default_name).
Proof.
  unfold _resolve_asset_path. cbv zeta.
  assert (forall (A : Type) (b : bool) (x y : M A),
             readonly x -> readonly y -> readonly (if b then x else y))
    as Hif by (by intros ? []).
  repeat first
    [ apply readonly_ret
    | apply readonly_Path_exists
    | apply readonly_Path_resolve
    | apply readonly_Path_of_value
    | apply Hif
    | apply readonly_bind; [| intros ?] ].
Qed.

Lemma readonly_inv {A} (m : M A) (w w' : world) (r : outcome A) :
  readonly m -> m w = (r, w') -> w' = w.
Proof. intros Hm H. specialize (Hm w). by rewrite H in Hm. Qed.

(** *** Copying an asset *)

Lemma copyfile_inv (src dst : Path) (w w' : world) (r : outcome unit) :
  copyfile src dst w = (r, w') ->
  (exists b,
      r = Ok tt
      /\ fs w !! key (cwd w) src = Some (File b)
      /\ key (cwd w) src <> key (cwd w) dst
      /\ (forall d, fs w !! key (cwd w) dst <> Some (Dir d))
      /\ w' = set_fs (<[key (cwd w) dst := File b]> (fs w)) w)
  \/ (exists e, r = Raise e /\ w' = w).
Proof.
  unfold copyfile. intros H.
  apply bind_inv in H as [(w0 & w1 & H0 & H) | (e & H0 & _)];
    [| inversion H0].
  inversion H0; subst w0 w1; clear H0. cbv zeta in H.
  destruct (decide (key (cwd w) src = key (cwd w) dst
                    /\ is_Some (fs w !! key (cwd w) src))) as [Hs | Hs].
  { inversion H. right. eauto. }
  apply bind_inv in H as [(b & w1 & H0 & H) | (e & H0 & ->)];
    rewrite read_bytes_run in H0.
  - assert (fs w !! key (cwd w) src = Some (File b) /\ w1 = w) as [Hb ->].
    { by destruct (fs w !! key (cwd w) src) as [[b' | d] |];
        inversion H0. }
    apply write_bytes_inv in H as [(-> & -> & Hnd) | (e & -> & ->)].
    + left. exists b. repeat split; try done.
      intros Heq. apply Hs. split; [done | by rewrite Hb].
    + right. eauto.
  - right. exists e. split; [done |]. by inversion H0.
Qed.

(** One asset of [render_and_compile_chief]: the file is copied and the
    field of the dict [d] is set to its base name.  Directories stay,
    and so do the dict objects other than [d]. *)
Lemma asset_step_inv (src : option Path) (wd : Path) (d : loc)
    (k : string) (w w' : world) (r : outcome unit) :
  match src return M unit with
  | Some s =>
      b ← _copy_asset_to_workdir s wd;
      dict_setitem d k (VStr b)
  | None => mret tt
  end w = (r, w') ->
  cwd w' = cwd w /\ procs w' = procs w
  /\ (forall l, l <> d -> heap w' !! l = heap w !! l)
  /\ (forall p b, fs w !! p = Some (Dir b) -> fs w' !! p = Some (Dir b)).
Proof.
  destruct src as [s |]; intros H; [| by inversion H].
  apply bind_inv in H as [(b & w1 & H0 & H) | (e & H0 & _)].
  - unfold _copy_asset_to_workdir in H0. cbv zeta in H0.
    apply bind_inv in H0 as [(u & w2 & H0 & H1) | (e & _ & He)];
      [| done].
    inversion H1; subst b w2; clear H1.
    inversion H; subst r w'; clear H.
    apply copyfile_inv in H0
      as [(b & _ & _ & _ & Hnd & ->) | (e & He & _)]; [| done].
    cbn. repeat split; try done.
    + intros l Hl. by rewrite lookup_insert_ne.
    + intros p c Hp. rewrite lookup_insert_ne; [done |].
      intros <-. by apply (Hnd c).
  - unfold _copy_asset_to_workdir in H0. cbv zeta in H0.
    apply bind_inv in H0 as [(u & w2 & _ & H1) | (e' & H0 & _)];
      [inversion H1 |].
    by apply copyfile_inv in H0
      as [(b & Hb & _) | (e'' & _ & ->)].
Qed.

(** Every run of [render_and_compile_chief] has the shape
    [build_trace]. *)
Lemma render_and_compile_chief_trace (data : loc)
    (template_path template_name : string) (w w' : world)
    (r : outcome RenderResult) :
  render_and_compile_chief obj_str obj_truthy obj_fspath tmpdir rand_name
    exec get_template render data template_path template_name w = (r, w') ->
  build_trace render w r w'.
Proof.
  unfold render_and_compile_chief. intros H.
  apply bind_inv in H as [(template_dir & w1 & H0 & H) | (e & H0 & _)];
    [| inversion H0].
  inversion H0; subst template_dir w1; clear H0.
  apply bind_inv in H as [(here & w1 & H0 & H) | (e & H0 & _)];
    [| inversion H0].
  inversion H0; subst here w1; clear H0.
  apply bind_inv in H as [(project_root & w1 & H0 & H) | (e & H0 & _)];
    [| inversion H0].
  inversion H0; subst project_root w1; clear H0. cbv zeta in H.
  apply bind_inv in H as [(t & w1 & H0 & H) | (e & H0 & ->)];
    apply env_get_template_inv in H0 as ->.
  2: { split; [done |]. split; [done |]. left. eauto. }
  apply bind_inv in H as [(tmp & w1 & H0 & H) | (e & H0 & ->)];
    apply mkdtemp_loop_inv in H0 as (Hc1 & Hp1 & Hh1 & Hf1).
  2: { split; [done |]. split; [by intros l _; rewrite Hh1 |].
       left. eauto. }
  destruct Hf1 as [Hnew Hf1].
  set (kw := key (cwd w) (Path_of tmp)) in *.
  assert (fs w1 !! kw = Some (Dir true)) as Hdir
    by (rewrite Hf1; apply lookup_insert_eq).
  clear Hf1.
  apply bind_inv in H as [(v1 & w2 & H0 & H) | (e & H0 & _)];
    [| inversion H0].
  inversion H0; subst v1 w2; clear H0.
  apply bind_inv in H as [(banner_src & w2 & H0 & H) | (e & H0 & ->)];
    apply (readonly_inv _ _ _ _ (readonly_resolve_asset_path _ _ _ _))
      in H0 as ->.
  2: { split; [done |]. split; [by intros l _; rewrite Hh1 |].
       left. eauto. }
  apply bind_inv in H as [(v2 & w2 & H0 & H) | (e & H0 & _)];
    [| inversion H0].
  inversion H0; subst v2 w2; clear H0.
  apply bind_inv in H as [(highlight_src & w2 & H0 & H) | (e & H0 & ->)];
    apply (readonly_inv _ _ _ _ (readonly_resolve_asset_path _ _ _ _))
      in H0 as ->.
  2: { split; [done |]. split; [by intros l _; rewrite Hh1 |].
       left. eauto. }
  apply bind_inv in H as [(copy & w2 & H0 & H) | (e & H0 & _)];
    [| inversion H0].
  inversion H0; subst copy w2; clear H0.
  set (copy := fresh (dom (heap w1))) in *.
  set (w2 := set_heap _ w1) in H.
  assert (forall l, is_Some (heap w !! l) -> l <> copy) as Hfresh.
  { intros l Hl ->. apply (is_fresh (dom (heap w1))).
    fold copy. apply elem_of_dom. by rewrite Hh1. }
  assert (cwd w2 = cwd w /\ procs w2 = procs w
          /\ (forall l, l <> copy -> heap w2 !! l = heap w !! l)
          /\ fs w2 !! kw = Some (Dir true)) as (Hc2 & Hp2 & Hh2 & Hd2).
  { subst w2. cbn. repeat split; try done.
    intros l Hl. rewrite lookup_insert_ne by done. by rewrite Hh1. }
  clearbody w2 copy. clear Hdir Hc1 Hp1 Hh1 w1.
  apply bind_inv in H as [(u & w3 & H0 & H) | (e & H0 & ->)];
    apply asset_step_inv in H0 as (Hc3 & Hp3 & Hh3 & Hd3).
  2: { split; [congruence |].
       split; [| left; split; [congruence | eauto]].
       intros l Hl. rewrite Hh3, Hh2 by auto. done. }
  apply bind_inv in H as [(u' & w4 & H0 & H) | (e & H0 & ->)];
    apply asset_step_inv in H0 as (Hc4 & Hp4 & Hh4 & Hd4).
  2: { split; [congruence |].
       split; [| left; split; [congruence | eauto]].
       intros l Hl. rewrite Hh4, Hh3, Hh2 by auto. done. }
  assert (cwd w4 = cwd w /\ procs w4 = procs w
          /\ (forall l, is_Some (heap w !! l) -> heap w4 !! l = heap w !! l)
          /\ fs w4 !! kw = Some (Dir true)) as (Hc & Hp & Hh & Hd).
  { split; [congruence |]. split; [congruence |]. split; [| auto].
    intros l Hl. rewrite Hh4, Hh3, Hh2 by auto. done. }
  clear Hc2 Hp2 Hh2 Hd2 Hc3 Hp3 Hh3 Hd3 Hc4 Hp4 Hh4 Hd4 w2 w3 u u'.
  apply bind_inv in H as [(kwargs & w5 & H0 & H) | (e & H0 & _)];
    [| inversion H0].
  inversion H0; subst kwargs w5; clear H0.
  apply bind_inv in H as [(tex & w5 & H0 & H) | (e & H0 & ->)];
    apply template_render_inv in H0 as [-> Htex].
  2: { split; [done |]. split; [done |]. left. eauto. }
  specialize (Htex tex eq_refl).
  apply (build_steps_inv _ _ _ _ _ _ (Path_of_roundtrip tmp)) in H
    as (Hc5 & Hh5 & [(Hp5 & _ & e & ->) | Hrun]).
  { split; [congruence |].
    split; [by intros l Hl; rewrite Hh5; auto |].
    left. split; [congruence | eauto]. }
  cbv zeta in Hrun. destruct Hrun as (res & _ & Hp5 & Hend).
  split; [congruence |].
  split; [by intros l Hl; rewrite Hh5; auto |].
  right. exists (path_str (Path_of tmp)), tex. eexists. exists res.
  cbv zeta. rewrite Path_of_roundtrip. fold kw.
  rewrite Hc in Hp5, Hend. fold kw in Hp5, Hend.
  split; [by rewrite Hp5, Hp |].
  split; [eauto |].
  split; [exact Hnew |].
  split.
  { rewrite lookup_insert_ne by apply app_singleton_ne. exact Hd. }
  split; [apply lookup_insert_eq | exact Hend].
Qed.

(** *** From the shape of a run to the contracts *)

Lemma build_failure_text (cmd : list string) (proc : completed)
    (folder : string) :
  exists before between,
    exn_str (build_failure (command_failed cmd proc) folder)
    = before +:+ proc_stdout proc +:+ between +:+ folder.
Proof.
  exists ("Command failed:" +:+ nl +:+ join " " cmd +:+ nl +:+ nl
          +:+ "---- Build output ----" +:+ nl),
         (nl +:+ nl +:+ "Temp build folder: ").
  unfold build_failure, command_failed. cbn [exn_str].
  by rewrite !append_assoc'.
Qed.

(** The subprocesses of a run with the shape [build_trace]. *)
Lemma build_trace_invocations (w w' : world) (r : outcome RenderResult)
    (invs : list invocation) :
  build_trace render w r w' ->
  procs w' = procs w ++ invs ->
  (invs = [] /\ exists e, r = Raise e)
  \/ (exists folder tex fs1 res,
        let kw := key (cwd w) (Path_of folder) in
        invs = [mkInvocation latexmk_cmd folder fs1 res]
        /\ (exists t c f kwargs, render t c f kwargs = inr tex)
        /\ fs w !! kw = None
        /\ fs1 !! kw = Some (Dir true)
        /\ fs1 !! (kw ++ ["main.tex"])
           = Some (File (list_byte_of_string tex))
        /\ build_ending kw folder tex fs1 res r (fs w')).
Proof.
  intros (_ & _ & [(Hp & He) | (folder & tex & fs1 & res & Hrun)]) Hinvs.
  - left. split; [| done]. rewrite Hp in Hinvs.
    rewrite <- (app_nil_r (procs w)) in Hinvs at 1.
    by apply app_inv_head in Hinvs.
  - right. exists folder, tex, fs1, res. cbv zeta in *.
    destruct Hrun as (Hp & Hrest). split; [| exact Hrest].
    rewrite Hp in Hinvs. by apply app_inv_head in Hinvs.
Qed.

Lemma trace_reports_compiler_failure (run : M RenderResult) :
  (forall w r w', run w = (r, w') -> build_trace render w r w') ->
  reports_compiler_failure run.
Proof.
  intros Htrace w w' r invs inv proc Hrun Hinvs Hin Hres Hrc. cbv zeta.
  apply Htrace in Hrun.
  destruct (build_trace_invocations _ _ _ _ Hrun Hinvs)
    as [(-> & _) | (folder & tex & fs1 & res & Hshape)].
  { by apply elem_of_nil in Hin. }
  cbv zeta in Hshape. destruct Hshape as (-> & _ & Hnew & Hdir & Htex & Hend).
  apply list_elem_of_singleton in Hin as ->.
  cbn [inv_result inv_cwd inv_fs_before inv_cmd] in *. subst res.
  rewrite (key_join_name _ _ _ valid_main_tex).
  unfold build_ending in Hend. destruct Hend as [Hfs Hr].
  rewrite decide_True in Hr by done.
  split; [| by rewrite Htex].
  exists (build_failure (command_failed latexmk_cmd proc) folder).
  split; [done |]. split; [done |]. apply build_failure_text.
Qed.

Lemma trace_reports_missing_pdf (run : M RenderResult) :
  (forall w r w', run w = (r, w') -> build_trace render w r w') ->
  reports_missing_pdf run.
Proof.
  intros Htrace w w' r invs inv proc Hrun Hinvs Hin Hres Hrc Hpdf.
  apply Htrace in Hrun.
  destruct (build_trace_invocations _ _ _ _ Hrun Hinvs)
    as [(-> & _) | (folder & tex & fs1 & res & Hshape)].
  { by apply elem_of_nil in Hin. }
  cbv zeta in Hshape. destruct Hshape as (-> & _ & Hnew & Hdir & Htex & Hend).
  apply list_elem_of_singleton in Hin as ->.
  cbn [inv_result inv_cwd inv_fs_before inv_cmd] in *. subst res.
  rewrite (key_join_name _ _ _ valid_main_pdf) in Hpdf.
  unfold build_ending in Hend. destruct Hend as [Hfs Hr].
  rewrite decide_False in Hr by (intros Hn; apply Hn; exact Hrc).
  rewrite Hpdf in Hr. done.
Qed.

Lemma trace_successful_build (run : M RenderResult) :
  (forall w r w', run w = (r, w') -> build_trace render w r w') ->
  successful_build_contract render run.
Proof.
  intros Htrace w w' res Hrun. cbv zeta.
  apply Htrace in Hrun.
  destruct Hrun as (Hcwd & _ & [(_ & e & He) | Hrun]); [done |].
  destruct Hrun as (folder & tex & fs1 & r & Hrun). cbv zeta in Hrun.
  destruct Hrun as (Hp & Hrend & Hnew & Hdir & Htex & Hend).
  unfold build_ending in Hend.
  destruct r as [e | proc]; [by destruct Hend |].
  destruct Hend as [Hfs Hr].
  destruct (decide (returncode proc <> 0%Z)) as [Hne | Hz]; [done |].
  destruct (fs_after proc !! (key (cwd w) (Path_of folder) ++ ["main.pdf"]))
    as [[b | d] |] eqn:Hpdf; try done.
  inversion Hr; subst res; clear Hr. cbn [workdir tex_str pdf_bytes].
  rewrite !(key_join_name _ _ _ valid_main_tex).
  rewrite !(key_join_name _ _ _ valid_main_pdf).
  rewrite Hcwd, Hfs.
  eexists. exists proc. split; [exact Hp |].
  cbn [inv_result inv_cwd inv_fs_before inv_cmd].
  repeat split; try done.
  destruct (decide (returncode proc = 0%Z)); [done | by exfalso; auto].
Qed.

Lemma trace_keeps_callers_dict (data : loc) (run : M RenderResult) :
  (forall w r w', run w = (r, w') -> build_trace render w r w') ->
  keeps_callers_dict data run.
Proof.
  intros Htrace w w' r d Hrun Hd.
  apply Htrace in Hrun as (_ & Hheap & _).
  rewrite Hheap; [done | by rewrite Hd].
Qed.

(** *** Copying an asset into the build folder *)


Lemma write_bytes_run (p : Path) (b : bytes) (w : world) :
  (forall d, fs w !! key (cwd w) p <> Some (Dir d)) ->
  fs w !! removelast (key (cwd w) p) = Some (Dir true) ->
  write_bytes p b w
  = (Ok tt, set_fs (<[key (cwd w) p := File b]> (fs w)) w).
Proof.
  intros Hnd Hparent. unfold write_bytes.
  cbv [mbind M_bind bind get_world]. cbv zeta.
  destruct (fs w !! key (cwd w) p) as [[c | d] |] eqn:Hk.
  - reflexivity.
  - by destruct (Hnd d).
  - unfold can_create. rewrite Hparent. reflexivity.
Qed.


(** *** Removing the build folder *)

Lemma onerror_ignore_run (m : M unit) (w : world) :
  exists w', onerror true m w = (Ok tt, w') /\ w' = (m w).2.
Proof.
  unfold onerror, try_except. destruct (m w) as [[[] | e] w1]; eauto.
Qed.

Lemma remove_entry_frame (k : list string) (w : world) :
  cwd (remove_entry k w).2 = cwd w
  /\ heap (remove_entry k w).2 = heap w
  /\ procs (remove_entry k w).2 = procs w.
Proof.
  unfold remove_entry. cbv [mbind M_bind bind get_world lift].
  by destruct (os_remove (fs w) k).
Qed.

Lemma rmtree_entries_ignore_run (ks : list (list string)) (w : world) :
  exists w',
    rmtree_entries true ks w = (Ok tt, w')
    /\ cwd w' = cwd w /\ heap w' = heap w /\ procs w' = procs w.
Proof.
  revert w. induction ks as [|k ks IH]; intros w.
  - by exists w.
  - cbn [rmtree_entries]. cbv [mbind M_bind bind].
    destruct (onerror_ignore_run (remove_entry k) w) as (w1 & -> & Hw1).
    destruct (IH w1) as (w2 & -> & Hc & Hh & Hp).
    exists w2. split; [done |].
    destruct (remove_entry_frame k w) as (Hc1 & Hh1 & Hp1).
    subst w1. repeat split; congruence.
Qed.

Lemma rmtree_ignore_run (path : string) (w : world) :
  exists w',
    rmtree path true w = (Ok tt, w')
    /\ cwd w' = cwd w /\ heap w' = heap w /\ procs w' = procs w.
Proof.
  unfold rmtree. cbv [mbind M_bind bind get_world]. cbv zeta.
  destruct (fs w !! key (cwd w) (Path_of path)) as [[b | d] |].
  - by exists w.
  - apply rmtree_entries_ignore_run.
  - by exists w.
Qed.

(** *** A build that succeeds *)

Lemma bind_run_ok {A B} (m : M A) (k : A -> M B) (w w1 : world) (a : A) :
  m w = (Ok a, w1) -> (m ≫= k) w = k a w1.
Proof. intros H. cbv [mbind M_bind bind]. by rewrite H. Qed.

(** The first name drawn is used when no entry has it and the temporary
    directory can be written. *)
(** One candidate of the asset resolver: resolved, looked up, and
    returned when it is found. *)
Lemma candidate_step (p : Path) (rest : M (option Path)) (w : world)
    (l : list Path) :
  has_nul (path_str p) = false ->
  short_enough (mkPath true (key (cwd w) p)) ->
  rest w = (Ok (head (filter (found w) l)), w) ->
  (q ← Path_resolve p;
   e ← Path_exists q;
   if (e : bool) then mret (Some q) else rest) w
  = (Ok (head (filter (found w) (mkPath true (key (cwd w) p) :: l))), w).
Proof.
  intros Hnul Hshort Hrest.
  rewrite (bind_run_ok _ _ _ _ _ (Path_resolve_run _ _ Hnul)).
  rewrite (bind_run_ok _ _ _ _ _ (Path_exists_run _ _ Hshort)).
  case_bool_decide as Hfound.
  - by rewrite filter_cons_True.
  - by rewrite filter_cons_False.
Qed.

Lemma mkdtemp_first_name (prefix : string) (w : world) :
  let file := tmpdir +:+ "/" +:+ prefix +:+ rand_name (rng w) in
  let k := key (cwd w) (Path_of file) in
  fs w !! k = None ->
  fs w !! removelast k = Some (Dir true) ->
  mkdtemp tmpdir rand_name prefix w
  = (Ok file, set_fs (<[k := Dir true]> (fs w)) (set_rng (S (rng w)) w)).
Proof.
  intros file k Hnew Hparent. unfold mkdtemp.
  assert (TMP_MAX = S (pred TMP_MAX)) as -> by (vm_compute; reflexivity).
  cbn [mkdtemp_loop].
  rewrite (bind_run_ok _ _ _ _ _ (next_name_run w)). cbv zeta.
  unfold try_except, os_mkdir.
  cbv [mbind M_bind bind get_world]. cbv zeta.
  cbn [fs cwd set_rng]. fold file. fold k. rewrite Hnew.
  unfold can_create. rewrite Hparent. reflexivity.
Qed.

(** When the template is found and renders, the first temporary name is
    free, and the compiler exits with status zero and leaves
    [main.pdf], [render_and_compile] returns the bytes of that file,
    the rendered text and the folder. *)
Lemma render_and_compile_succeeds (data : loc) (template_path : string)
    (w : world) (t : template) (tex : string) (proc : completed)
    (pdf : bytes) :
  let env :=
    set_filter "latex" (latex_escape pyobj obj_str)
      (mkEnvironment template_path true true "{%" "%}" "{#" "#}" ∅) in
  let folder := tmpdir +:+ "/" +:+ "cv_build_" +:+ rand_name (rng w) in
  let kw := key (cwd w) (Path_of folder) in
  let fs1 :=
    <[kw ++ ["main.tex"] := File (list_byte_of_string tex)]>
      (<[kw := Dir true]> (fs w)) in
  get_template env "main.tex.j2" (cwd w) (fs w) = inr t ->
  render t (cwd w) (fs w) (heap w !!! data) = inr tex ->
  fs w !! kw = None ->
  fs w !! removelast kw = Some (Dir true) ->
  (forall d, fs w !! (kw ++ ["main.tex"]) <> Some (Dir d)) ->
  exec latexmk_cmd kw fs1 = inr proc ->
  returncode proc = 0%Z ->
  fs_after proc !! (kw ++ ["main.pdf"]) = Some (File pdf) ->
  exists w',
    render_and_compile obj_str tmpdir rand_name exec get_template render
      data template_path w
    = (Ok (mkRenderResult pdf tex folder), w')
    /\ fs w' = fs_after proc.
Proof.
  intros env folder kw fs1 Ht Hr Hnew Hparent Hnd Hex Hrc Hpdf.
  unfold render_and_compile. cbv zeta. fold env.
  rewrite (bind_run_ok _ _ _ _ _ (print_run _ w)).
  set (w0 := set_stdout _ w).
  assert (env_get_template get_template env "main.tex.j2" w0 = (Ok t, w0))
    as Hstep.
  { unfold env_get_template. cbv [mbind M_bind bind get_world].
    subst w0. cbn [cwd fs set_stdout]. by rewrite Ht. }
  rewrite (bind_run_ok _ _ _ _ _ Hstep). clear Hstep.
  rewrite (bind_run_ok _ _ _ _ _ (dict_items_run data w0)).
  assert (template_render render t (heap w0 !!! data) w0 = (Ok tex, w0))
    as Hstep.
  { unfold template_render. cbv [mbind M_bind bind get_world].
    subst w0. cbn [cwd fs heap set_stdout]. by rewrite Hr. }
  rewrite (bind_run_ok _ _ _ _ _ Hstep). clear Hstep.
  rewrite (bind_run_ok _ _ _ _ _
             (mkdtemp_first_name "cv_build_" w0 Hnew Hparent)).
  change (tmpdir +:+ "/" +:+ "cv_build_" +:+ rand_name (rng w0)) with folder.
  change (key (cwd w0) (Path_of folder)) with kw.
  set (w1 := set_fs _ (set_rng _ w0)).
  assert (write_text (Path_of folder </> Path_of "main.tex") tex w1
          = (Ok tt, set_fs fs1 w1)) as Hstep.
  { unfold write_text. rewrite write_bytes_run.
    - by rewrite (key_join_name _ _ _ valid_main_tex).
    - rewrite (key_join_name _ _ _ valid_main_tex).
      intros d. subst w1. cbn [fs cwd set_fs set_rng set_stdout].
      fold kw. rewrite lookup_insert_ne by (by apply not_eq_sym, app_singleton_ne).
      apply Hnd.
    - rewrite (key_join_name _ _ _ valid_main_tex), removelast_last.
      subst w1. cbn [fs cwd set_fs set_rng set_stdout]. fold kw.
      apply lookup_insert_eq. }
  rewrite (bind_run_ok _ _ _ _ _ Hstep). clear Hstep.
  set (w2 := set_fs fs1 w1).
  set (w3 := set_fs (fs_after proc)
               (set_procs (procs w2
                           ++ [mkInvocation latexmk_cmd folder fs1 (inr proc)])
                  w2)).
  assert (try_except (_run exec latexmk_cmd folder)
            (fun ex => raise (build_failure ex folder)) w2 = (Ok tt, w3))
    as Hstep.
  { unfold try_except, _run, subprocess_run.
    cbv [mbind M_bind bind get_world modify lift mret M_ret ret].
    change (key (cwd w2) (Path_of folder)) with kw.
    change (fs w2) with fs1. rewrite Hex. cbn [fs_after returncode].
    rewrite decide_False by (intros Hn; apply Hn; exact Hrc).
    reflexivity. }
  rewrite (bind_run_ok _ _ _ _ _ Hstep). clear Hstep. cbv zeta.
  rewrite (bind_run_ok _ _ _ _ _ (path_exists_run _ w3)).
  rewrite (key_join_name _ _ _ valid_main_pdf).
  change (key (cwd w3) (Path_of folder)) with kw.
  change (fs w3) with (fs_after proc).
  rewrite bool_decide_true by (by rewrite Hpdf). cbn [negb].
  exists w3. split; [| reflexivity].
  rewrite (bind_run_ok _ _ w3 w3 pdf); [reflexivity |].
  rewrite read_bytes_run, (key_join_name _ _ _ valid_main_pdf).
  change (key (cwd w3) (Path_of folder)) with kw.
  change (fs w3) with (fs_after proc). by rewrite Hpdf.
Qed.

(** A later build never returns the folder of an earlier build that is
    still on disk. *)
Lemma distinct_build_folders (run1 run2 : M RenderResult)
    (w w1 w2 w3 : world) (res1 res2 : RenderResult) :
  successful_build_contract render run2 ->
  run1 w = (Ok res1, w1) ->
  is_Some (fs w2 !! key (cwd w2) (Path_of (workdir res1))) ->
  run2 w2 = (Ok res2, w3) ->
  key (cwd w2) (Path_of (workdir res2))
  <> key (cwd w2) (Path_of (workdir res1)).
Proof.
  intros Hc _ [n Hold] Hrun2.
  destruct (Hc w2 w3 res2 Hrun2)
    as (inv & proc & _ & _ & _ & _ & _ & Hnew & _).
  intros Heq. rewrite Heq in Hnew. congruence.
Qed.

End Runs.

(** * The claims *)

Section Claims.

Context {pyobj : Type}.
Variable obj_str : pyobj -> string.
Variable obj_truthy : pyobj -> bool.
Variable obj_fspath : pyobj -> option string.
Variable tmpdir : string.
Variable rand_name : nat -> string.
Variable exec : list string -> list string -> fsmap -> exn + completed.
Context {template : Type}.
Variable get_template :
  Environment (value pyobj) -> string -> list string -> fsmap ->
  exn + template.
Variable render :
  template -> list string -> fsmap -> gmap string (value pyobj) ->
  exn + string.

Local Abbreviation M := (M pyobj).
Local Abbreviation world := (world pyobj).
Local Abbreviation latex_escape := (latex_escape pyobj obj_str).
Local Abbreviation render_and_compile :=
  (render_and_compile obj_str tmpdir rand_name exec get_template render).
Local Abbreviation render_and_compile_chief :=
  (render_and_compile_chief obj_str obj_truthy obj_fspath tmpdir rand_name
     exec get_template render).

(** C1.  The escaper returns the empty text for [None]; for any other
    value it returns what the substitutions of the specification, made
    in their priority on the text of the value and never on text that a
    substitution has produced, return; each of the ten special
    characters becomes its escape sequence, and any other character,
    line feed and the bytes of non-ASCII text included, is returned as
    it is. *)
Theorem latex_escape_spec :
  latex_escape VNone = ""
  /\ (forall v : value pyobj,
         v <> VNone ->
         latex_escape v = spec_escape_passes (py_str pyobj obj_str v))
  /\ Forall2 (fun c e => latex_escape (VStr (chr c)) = e)
       specials escape_sequences
  /\ (forall c : ascii, c ∉ specials -> latex_escape (VStr (chr c)) = chr c).
Proof.
  split; [done |]. split; [| split].
  - intros v Hv.
    assert (latex_escape v
            = join "" (map replacements_get
                         (list_ascii_of_string (py_str pyobj obj_str v))))
      as ->.
    { by destruct v. }
    unfold spec_escape_passes. f_equal.
    rewrite passes_pointwise, !map_map.
    apply map_ext. intros c. by rewrite passes_on_char.
  - unfold specials, escape_sequences.
    repeat (constructor; [by vm_compute |]). constructor.
  - intros c Hc.
    change (latex_escape (VStr (chr c))) with (join "" [replacements_get c]).
    rewrite join_empty_cons, (replacements_get_plain c Hc).
    apply append_empty_r.
Qed.

(** C2.  In the escaped form of any text, every occurrence of a special
    character lies inside an occurrence of one of the ten escape
    sequences; the whole output splits into characters that are not
    special and escape sequences. *)
Theorem latex_escape_no_unescaped_special (s : string) :
  well_escaped (latex_escape (VStr s))
  /\ forall i c,
       String.get i (latex_escape (VStr s)) = Some c ->
       c ∈ specials ->
       inside_escape_sequence (latex_escape (VStr s)) i.
Proof.
  assert (well_escaped (latex_escape (VStr s))) as Hw.
  { apply escape_well_escaped. }
  split; [exact Hw |]. by apply well_escaped_inside.
Qed.

(** C10.  The escaper commutes with concatenation and maps the empty
    text to the empty text. *)
Theorem latex_escape_concat (s t : string) :
  latex_escape (VStr (s +:+ t))
  = latex_escape (VStr s) +:+ latex_escape (VStr t)
  /\ latex_escape (VStr "") = "".
Proof.
  split; [| done].
  change (latex_escape (VStr (s +:+ t)))
    with (join "" (map replacements_get (list_ascii_of_string (s +:+ t)))).
  by rewrite chars_app, map_app, join_empty_app.
Qed.

(** C3.  When the compiler exits with a status other than zero, both
    build functions raise a [RuntimeError] whose text holds the whole
    captured output and the path of the build folder, and they leave
    the file system as the compiler left it: nothing is deleted. *)
Theorem failed_build_reports_log (data : loc)
    (template_path template_name : string) :
  reports_compiler_failure (render_and_compile data template_path)
  /\ reports_compiler_failure
       (render_and_compile_chief data template_path template_name).
Proof.
  split; apply (trace_reports_compiler_failure render).
  - intros w r w'. apply render_and_compile_trace.
  - intros w r w'. apply render_and_compile_chief_trace.
Qed.

(** C4.  When the compiler exits with status zero and there is no
    [main.pdf] in the build folder, both build functions raise the
    error "Build succeeded but main.pdf was not created", and the
    compiler is not called a second time. *)
Theorem missing_pdf_is_an_error (data : loc)
    (template_path template_name : string) :
  reports_missing_pdf (render_and_compile data template_path)
  /\ reports_missing_pdf
       (render_and_compile_chief data template_path template_name).
Proof.
  split; apply (trace_reports_missing_pdf render).
  - intros w r w'. apply render_and_compile_trace.
  - intros w r w'. apply render_and_compile_chief_trace.
Qed.

(** C5.  A build that returns has made a folder that did not exist when
    the call started, has written the rendered text to [main.tex] in
    it, and returns that text, the bytes of [main.pdf] in the folder
    and the path of the folder. *)
Theorem successful_build_result (data : loc)
    (template_path template_name : string) :
  successful_build_contract render (render_and_compile data template_path)
  /\ successful_build_contract render
       (render_and_compile_chief data template_path template_name).
Proof.
  split; apply trace_successful_build.
  - intros w r w'. apply render_and_compile_trace.
  - intros w r w'. apply render_and_compile_chief_trace.
Qed.

(** C6, amended.  When the explicit path, the template directory, the
    project root and the default name hold no NUL character, and no
    candidate is refused by the kernel for its length, the asset
    resolver returns the first candidate, in the fixed order of
    [asset_candidates], that [Path.exists] finds, and [None] when it
    finds none; it does not raise and changes nothing. *)
Theorem resolve_asset_path_order (maybe_path : option string)
    (template_dir project_root : Path) (default_name : string) (w : world) :
  (forall s, maybe_path = Some s -> has_nul s = false) ->
  has_nul (path_str template_dir) = false ->
  has_nul (path_str project_root) = false ->
  has_nul default_name = false ->
  Forall short_enough
    (asset_candidates (cwd w) maybe_path template_dir project_root
       default_name) ->
  _resolve_asset_path obj_truthy obj_fspath (explicit_path maybe_path)
    template_dir project_root default_name w
  = (Ok (head (filter (found w)
                 (asset_candidates (cwd w) maybe_path template_dir
                    project_root default_name))), w).
Proof.
  intros Hs Htd Hpr Hdn Hshort.
  pose proof (has_nul_Path_of _ Hdn) as Hdn'.
  unfold _resolve_asset_path, asset_candidates in *. cbv zeta.
  assert (forall l : list Path, l = [] -> (Ok (@None Path), w)
            = (Ok (head (filter (found w) l)), w)) as Hnil by (by intros ? ->).
  destruct maybe_path as [s |]; cbn [explicit_path truthy].
  2: { cbn [app] in *.
       apply Forall_cons in Hshort as [H3 Hshort].
       apply Forall_cons in Hshort as [H4 _].
       apply candidate_step; [by apply has_nul_joinpath | done |].
       apply candidate_step; [by apply has_nul_joinpath | done |].
       by apply Hnil. }
  destruct (decide (s = "")) as [-> | Hne].
  { cbn [app String.eqb negb] in *.
    apply Forall_cons in Hshort as [H3 Hshort].
    apply Forall_cons in Hshort as [H4 _].
    apply candidate_step; [by apply has_nul_joinpath | done |].
    apply candidate_step; [by apply has_nul_joinpath | done |].
    by apply Hnil. }
  assert ((s =? "") = false) as -> by (by apply String.eqb_neq).
  pose proof (has_nul_Path_of _ (Hs s eq_refl)) as Hp.
  cbn [negb Path_of_value].
  rewrite (bind_run_ok _ _ _ _ _ (eq_refl : (mret (Path_of s) : M Path) w = (Ok (Path_of s), w))).
  destruct (is_absolute (Path_of s)) eqn:Habs; cbn [app] in *.
  - apply Forall_cons in Hshort as [H0 Hshort].
    apply Forall_cons in Hshort as [H1 Hshort].
    apply Forall_cons in Hshort as [H2 Hshort].
    apply Forall_cons in Hshort as [H3 Hshort].
    apply Forall_cons in Hshort as [H4 _].
    rewrite (bind_run_ok _ _ _ _ _ (Path_exists_run _ _ H0)).
    case_bool_decide as Hfound.
    + by rewrite filter_cons_True.
    + rewrite filter_cons_False by done.
      apply candidate_step; [by apply has_nul_joinpath | exact H1 |].
      apply candidate_step; [by apply has_nul_joinpath | exact H2 |].
      apply candidate_step; [by apply has_nul_joinpath | exact H3 |].
      apply candidate_step; [by apply has_nul_joinpath | exact H4 |].
      by apply Hnil.
  - apply Forall_cons in Hshort as [H1 Hshort].
    apply Forall_cons in Hshort as [H2 Hshort].
    apply Forall_cons in Hshort as [H3 Hshort].
    apply Forall_cons in Hshort as [H4 _].
    rewrite (bind_run_ok _ _ _ _ _
               (eq_refl : (mret false : M bool) w = (Ok false, w))).
    apply candidate_step; [by apply has_nul_joinpath | exact H1 |].
    apply candidate_step; [by apply has_nul_joinpath | exact H2 |].
    apply candidate_step; [by apply has_nul_joinpath | exact H3 |].
    apply candidate_step; [by apply has_nul_joinpath | exact H4 |].
    by apply Hnil.
Qed.


(** C8.  However a build ends, the dict object the caller passed holds
    the items it held before the call. *)
Theorem build_keeps_callers_record (data : loc)
    (template_path template_name : string) :
  keeps_callers_dict data (render_and_compile data template_path)
  /\ keeps_callers_dict data
       (render_and_compile_chief data template_path template_name).
Proof.
  split; apply (trace_keeps_callers_dict render).
  - intros w r w'. apply render_and_compile_trace.
  - intros w r w'. apply render_and_compile_chief_trace.
Qed.

(** C9.  [cleanup_workdir] returns without an exception for every
    argument and every state of the file system; it changes nothing
    when the argument is not the path of a directory. *)
Theorem cleanup_workdir_never_raises (workdir : option string) (w : world) :
  exists w',
    cleanup_workdir workdir w = (Ok tt, w')
    /\ cwd w' = cwd w /\ heap w' = heap w /\ procs w' = procs w
    /\ ((forall s d,
            workdir = Some s ->
            fs w !! key (cwd w) (Path_of s) <> Some (Dir d)) ->
        w' = w).
Proof.
  unfold cleanup_workdir. destruct workdir as [s |]; [| by exists w].
  destruct (negb (s =? "")); [| by exists w].
  unfold os_path_isdir. cbv [mbind M_bind bind get_world mret M_ret ret].
  destruct (fs w !! key (cwd w) (Path_of s)) as [[b | d] |] eqn:Hk;
    try (by exists w).
  destruct (rmtree_ignore_run s w) as (w' & Hrun & Hc & Hh & Hp).
  exists w'. repeat split; try done.
  intros Hnot. by destruct (Hnot s d eq_refl).
Qed.

End Claims.

(** * The claims on the concrete installation *)

Lemma latex_escape_spec_witness :
  latex_escape Demo.no_object Demo.obj_str (VStr "R&D_50%")
  = spec_escape_passes "R&D_50%"
  /\ latex_escape Demo.no_object Demo.obj_str (VStr (chr "010"))
     = chr "010".
Proof.
  destruct (latex_escape_spec Demo.obj_str) as (_ & Hv & _ & Hc).
  split.
  - apply (Hv (VStr "R&D_50%")). discriminate.
  - apply Hc. apply (bool_decide_unpack _). vm_compute. exact I.
Defined.

Lemma latex_escape_no_unescaped_special_witness :
  inside_escape_sequence
    (latex_escape Demo.no_object Demo.obj_str (VStr "a_b")) 2.
Proof.
  destruct (latex_escape_no_unescaped_special Demo.obj_str "a_b")
    as [_ H].
  apply (H 2 "_"%char).
  - reflexivity.
  - apply (bool_decide_unpack _). vm_compute. exact I.
Defined.

Lemma failed_build_reports_log_witness :
  exists e,
    (Demo.render_and_compile 2%positive "bad" Demo.start).1 = Raise e
    /\ exn_cls e = RuntimeError
    /\ fs (Demo.render_and_compile 2%positive "bad" Demo.start).2
       !! ["tmp"; "cv_build_ak3x9q_"; "main.tex"]
       = Some (File (Demo.utf8 "\bad")).
Proof.
  set (run := Demo.render_and_compile 2%positive "bad" Demo.start).
  set (folder_disk :=
         <[["tmp"; "cv_build_ak3x9q_"; "main.tex"] := File (Demo.utf8 "\bad")]>
           (<[["tmp"; "cv_build_ak3x9q_"] := Dir true]> Demo.disk)).
  set (proc := mkCompleted 12 "! Undefined control sequence." folder_disk).
  set (inv := mkInvocation latexmk_cmd "/tmp/cv_build_ak3x9q_" folder_disk
                (inr proc)).
  destruct (failed_build_reports_log Demo.obj_str Demo.obj_truthy
              Demo.obj_fspath Demo.tmpdir Demo.rand_name Demo.exec
              Demo.get_template Demo.render 2%positive "bad"
              "main_chief.tex.j2") as [H _].
  destruct (H Demo.start run.2 run.1 [inv] inv proc)
    as ((e & He & Hcls & _) & _ & _ & _ & Hfs).
  - exact (surjective_pairing run).
  - vm_compute. reflexivity.
  - left.
  - reflexivity.
  - discriminate.
  - exists e. split; [exact He |]. split; [exact Hcls |].
    rewrite Hfs. vm_compute. reflexivity.
Defined.

Lemma missing_pdf_is_an_error_witness :
  (Demo.render_and_compile 2%positive "quiet" Demo.start).1
  = Raise pdf_missing.
Proof.
  set (run := Demo.render_and_compile 2%positive "quiet" Demo.start).
  set (folder_disk :=
         <[["tmp"; "cv_build_ak3x9q_"; "main.tex"]
           := File (Demo.utf8 "\quiet")]>
           (<[["tmp"; "cv_build_ak3x9q_"] := Dir true]> Demo.disk)).
  set (proc := mkCompleted 0 "" folder_disk).
  set (inv := mkInvocation latexmk_cmd "/tmp/cv_build_ak3x9q_" folder_disk
                (inr proc)).
  destruct (missing_pdf_is_an_error Demo.obj_str Demo.obj_truthy
              Demo.obj_fspath Demo.tmpdir Demo.rand_name Demo.exec
              Demo.get_template Demo.render 2%positive "quiet"
              "main_chief.tex.j2") as [H _].
  destruct (H Demo.start run.2 run.1 [inv] inv proc) as (Hr & _).
  - exact (surjective_pairing run).
  - vm_compute. reflexivity.
  - left.
  - reflexivity.
  - reflexivity.
  - vm_compute. reflexivity.
  - exact Hr.
Defined.

Lemma successful_build_result_witness :
  exists res w',
    Demo.render_and_compile_chief 1%positive "templates" "main_chief.tex.j2"
      Demo.start = (Ok res, w')
    /\ tex_str res = "Chief: R\&D\_50\%"
    /\ fs Demo.start !! key (cwd Demo.start) (Path_of (workdir res)) = None
    /\ fs w' !! key (cwd w') (Path_of (workdir res) </> Path_of "main.pdf")
       = Some (File (pdf_bytes res)).
Proof.
  set (run := Demo.render_and_compile_chief 1%positive "templates"
                "main_chief.tex.j2" Demo.start).
  set (res := mkRenderResult (Demo.utf8 "%PDF-1.5 Chief: R\&D\_50\%")
                "Chief: R\&D\_50\%" "/tmp/cv_build_ak3x9q_").
  destruct (successful_build_result Demo.obj_str Demo.obj_truthy
              Demo.obj_fspath Demo.tmpdir Demo.rand_name Demo.exec
              Demo.get_template Demo.render 1%positive "templates"
              "main_chief.tex.j2") as [_ H].
  assert (run = (Ok res, run.2)) as Hrun by (vm_compute; reflexivity).
  destruct (H Demo.start run.2 res Hrun)
    as (inv & proc & _ & _ & _ & _ & _ & Hnew & _ & _ & _ & Hpdf & _).
  exists res, run.2. split; [exact Hrun |]. split; [reflexivity |].
  split; [exact Hnew | exact Hpdf].
Defined.

(** C6, on the concrete installation: an absolute explicit path through
    a directory that does not exist is not found as it stands, and the
    resolved path below the project root, the second candidate, is
    returned. *)
Lemma resolve_asset_path_order_witness :
  _resolve_asset_path Demo.obj_truthy Demo.obj_fspath
    (explicit_path (Some "/missing/../app/templates/photo_banner.png"))
    (mkPath true ["app"; "templates"]) (mkPath true ["app"])
    "highlight.png" Demo.start
  = (Ok (Some (mkPath true ["app"; "templates"; "photo_banner.png"])),
     Demo.start).
Proof.
  rewrite (resolve_asset_path_order Demo.obj_truthy Demo.obj_fspath
             (Some "/missing/../app/templates/photo_banner.png")
             (mkPath true ["app"; "templates"]) (mkPath true ["app"])
             "highlight.png" Demo.start).
  - vm_compute. reflexivity.
  - intros s Hs. inversion Hs; subst s. vm_compute. reflexivity.
  - vm_compute. reflexivity.
  - vm_compute. reflexivity.
  - vm_compute. reflexivity.
  - apply (bool_decide_unpack _). vm_compute. exact I.
Defined.

(** C6, as the specification states it, fails.  An explicit path with a
    NUL character makes the resolver raise [ValueError] when it
    resolves the path below the project root, whether a later candidate
    exists (the default banner of the template directory) or none
    does.  An explicit path that is a name of 256 bytes makes it raise
    the [OSError] of the kernel, which [Path.exists] lets through, when
    it looks the path up below the project root. *)
Lemma resolve_asset_path_raises :
  _resolve_asset_path Demo.obj_truthy Demo.obj_fspath
    (explicit_path (Some (String "000" "banner.png")))
    (mkPath true ["app"; "templates"]) (mkPath true ["app"])
    "photo_banner.png" Demo.start
  = (Raise (Exn ValueError "embedded null byte"), Demo.start)
  /\ _resolve_asset_path Demo.obj_truthy Demo.obj_fspath
       (explicit_path (Some (String "000" "banner.png")))
       (mkPath true ["app"; "templates"]) (mkPath true ["app"])
       "missing.png" Demo.start
     = (Raise (Exn ValueError "embedded null byte"), Demo.start)
  /\ exists e,
       _resolve_asset_path Demo.obj_truthy Demo.obj_fspath
         (explicit_path
            (Some (string_of_list_ascii (replicate 256 "a"%char))))
         (mkPath true ["app"; "templates"]) (mkPath true ["app"])
         "photo_banner.png" Demo.start
       = (Raise e, Demo.start)
       /\ exn_cls e = OSError.
Proof.
  split; [vm_compute; reflexivity |]. split; [vm_compute; reflexivity |].
  eexists. split; vm_compute; reflexivity.
Qed.


Lemma build_keeps_callers_record_witness :
  heap (Demo.render_and_compile_chief 1%positive "templates"
          "main_chief.tex.j2" Demo.start).2 !! 1%positive
  = Some Demo.record.
Proof.
  set (run := Demo.render_and_compile_chief 1%positive "templates"
                "main_chief.tex.j2" Demo.start).
  destruct (build_keeps_callers_record Demo.obj_str Demo.obj_truthy
              Demo.obj_fspath Demo.tmpdir Demo.rand_name Demo.exec
              Demo.get_template Demo.render 1%positive "templates"
              "main_chief.tex.j2") as [_ H].
  apply (H Demo.start run.2 run.1 Demo.record).
  - exact (surjective_pairing run).
  - vm_compute. reflexivity.
Defined.

Lemma cleanup_workdir_never_raises_witness :
  cleanup_workdir (Some "/nowhere") Demo.start = (Ok tt, Demo.start).
Proof.
  destruct (cleanup_workdir_never_raises (Some "/nowhere") Demo.start)
    as (w' & Hrun & _ & _ & _ & Hsame).
  rewrite Hrun. f_equal. apply Hsame.
  intros s d Hs. inversion Hs; subst s. vm_compute. discriminate.
Defined.

(** * The model at work

    Runs of the model on the concrete installation, and two
    consequences of the contracts. *)

(** The line of [test_script.py] that holds every special character. *)
Example latex_escape_test_script_line :
  latex_escape Demo.no_object Demo.obj_str
    (VStr "edge cases: %, &, _, $, #, {, }, ~, ^ and backslashes (\).")
  = "edge cases: \%, \&, \_, \$, \#, \{, \}, \textasciitilde{}, "
    +:+ "\textasciicircum{} and backslashes (\textbackslash{}).".
Proof. vm_compute. reflexivity. Qed.

(** Line feeds and the bytes of non-ASCII text are returned as they
    are. *)
Example latex_escape_unicode_line_feed :
  latex_escape Demo.no_object Demo.obj_str
    (VStr ("Zürich" +:+ nl +:+ "naïve"))
  = "Zürich" +:+ nl +:+ "naïve".
Proof. vm_compute. reflexivity. Qed.

(** Chained replacement would escape the braces of [\textbackslash{}]
    again; the escaper does not. *)
Example chained_replace_differs :
  chained_replace_passes "\" = "\textbackslash\{\}"
  /\ latex_escape Demo.no_object Demo.obj_str (VStr "\")
     = "\textbackslash{}".
Proof. split; vm_compute; reflexivity. Qed.

(** [mkdtemp] draws a second name when the first one is taken. *)
Example mkdtemp_draws_again :
  (mkdtemp Demo.tmpdir Demo.rand_name "cv_build_"
     (set_fs (<[["tmp"; "cv_build_ak3x9q_"] := Dir true]> Demo.disk)
        Demo.start)).1
  = Ok "/tmp/cv_build_bk3x9q_".
Proof. vm_compute. reflexivity. Qed.

(** The folder of a failed build is still there after the call, with
    [main.tex] in it; [cleanup_workdir] then removes it. *)
Example failed_build_then_cleanup :
  let after_build :=
    (Demo.render_and_compile 2%positive "bad" Demo.start).2 in
  fs after_build !! ["tmp"; "cv_build_ak3x9q_"] = Some (Dir true)
  /\ fs after_build !! ["tmp"; "cv_build_ak3x9q_"; "main.tex"]
     = Some (File (Demo.utf8 "\bad"))
  /\ fs (cleanup_workdir (Some "/tmp/cv_build_ak3x9q_") after_build).2
     = Demo.disk.
Proof. repeat split; vm_compute; reflexivity. Qed.

(** A directory that cannot be written: [rmtree] raises when errors are
    not ignored, [cleanup_workdir] returns and leaves the files. *)
Example cleanup_swallows_deletion_error :
  (exists e,
      (rmtree "/app/locked" false Demo.start).1 = Raise e
      /\ exn_cls e = PermissionError)
  /\ cleanup_workdir (Some "/app/locked") Demo.start = (Ok tt, Demo.start).
Proof.
  split.
  - eexists. split; [vm_compute; reflexivity | reflexivity].
  - vm_compute. reflexivity.
Qed.

(** The Chief build renders a copy of the record in which the banner is
    named by its base name, and copies the banner into the folder. *)
Example chief_build_copies_banner :
  let after_build :=
    (Demo.render_and_compile_chief 1%positive "templates"
       "main_chief.tex.j2" Demo.start).2 in
  fs after_build !! ["tmp"; "cv_build_ak3x9q_"; "photo_banner.png"]
  = Some (File (Demo.utf8 "PNG"))
  /\ (heap after_build !!! 3%positive) !! "photo_banner_path"
     = Some (VStr "photo_banner.png")
  /\ heap after_build !! 1%positive = Some Demo.record.
Proof. repeat split; vm_compute; reflexivity. Qed.

(** The resolver on the concrete installation: an explicit relative
    path found below the template directory, an explicit absolute path,
    an empty explicit path that falls back on the default name, and no
    candidate at all. *)
Example resolve_asset_path_cases :
  let resolve_in_app (v : value Demo.no_object) (default_name : string) :=
    (_resolve_asset_path Demo.obj_truthy Demo.obj_fspath v
       (mkPath true ["app"; "templates"]) (mkPath true ["app"])
       default_name Demo.start).1 in
  resolve_in_app (VStr "photo_banner.png") "highlight.png"
  = Ok (Some (mkPath true ["app"; "templates"; "photo_banner.png"]))
  /\ resolve_in_app (VStr "/app/templates/../templates/photo_banner.png")
       "highlight.png"
     = Ok (Some (mkPath true
                   ["app"; "templates"; ".."; "templates";
                    "photo_banner.png"]))
  /\ resolve_in_app (VStr "") "photo_banner.png"
     = Ok (Some (mkPath true ["app"; "templates"; "photo_banner.png"]))
  /\ resolve_in_app VNone "highlight.png" = Ok None.
Proof. repeat split; vm_compute; reflexivity. Qed.

(** * Facts for the further properties *)

Section EscaperMore.

(** The text that the escaper makes of the text [s]. *)
Local Abbreviation escape_text s :=
  (join "" (map replacements_get (list_ascii_of_string s))).

Lemma append_inj_l (e a b : string) : e +:+ a = e +:+ b -> a = b.
Proof.
  induction e as [|c e IH]; [done |].
  rewrite !append_cons. intros [= H]. by apply IH.
Qed.

Lemma chr_append (c : ascii) (a : string) : chr c +:+ a = String c a.
Proof. reflexivity. Qed.

(** The replacement of a character, by cases. *)
Lemma replacements_get_cases (c : ascii) :
  ((c ∉ specials) /\ replacements_get c = chr c)
  \/ (c ∈ specials
      /\ exists x r, replacements_get c = String "\" (String x r)
                     /\ x ∉ ["\"%char]).
Proof.
  destruct (decide (c ∈ specials)) as [Hc | Hc].
  - right. split; [done |].
    unfold specials in Hc.
    repeat (apply elem_of_cons in Hc as [-> | Hc]);
      [.. | by apply elem_of_nil in Hc];
      (eexists _, _; split; [vm_compute; reflexivity |]);
      by intros [= ?]%list_elem_of_singleton.
  - left. split; [done |]. by apply replacements_get_plain.
Qed.

Lemma replacements_get_inj (c d : ascii) (a b : string) :
  replacements_get c +:+ a = replacements_get d +:+ b -> c = d /\ a = b.
Proof.
  destruct (decide (c ∈ specials)) as [Hc | Hc];
    destruct (decide (d ∈ specials)) as [Hd | Hd].
  - unfold specials in Hc, Hd.
    repeat (apply elem_of_cons in Hc as [-> | Hc]);
      [.. | by apply elem_of_nil in Hc];
      repeat (apply elem_of_cons in Hd as [-> | Hd]);
      try (by apply elem_of_nil in Hd);
      vm_compute replacements_get; rewrite ?append_cons;
      intros H; simplify_eq; try (split; [reflexivity |]);
      try (injection H as H); by simplify_eq.
  - rewrite (replacements_get_plain d) by done.
    unfold specials in Hc.
    repeat (apply elem_of_cons in Hc as [-> | Hc]);
      [.. | by apply elem_of_nil in Hc];
      vm_compute replacements_get; rewrite chr_append, ?append_cons;
      intros [= <- _]; exfalso; apply Hd; unfold specials; set_solver.
  - rewrite (replacements_get_plain c) by done.
    unfold specials in Hd.
    repeat (apply elem_of_cons in Hd as [-> | Hd]);
      [.. | by apply elem_of_nil in Hd];
      vm_compute replacements_get; rewrite chr_append, ?append_cons;
      intros [= -> _]; exfalso; apply Hc; unfold specials; set_solver.
  - rewrite (replacements_get_plain c), (replacements_get_plain d) by done.
    rewrite !chr_append. by intros [= -> ->].
Qed.

Lemma escape_text_inj (s t : string) :
  escape_text s = escape_text t -> s = t.
Proof.
  revert t. induction s as [|c s IH]; intros [|d t].
  - done.
  - rewrite escape_cons. cbn.
    destruct (replacements_get_cases d) as [[_ ->] | [_ (x & r & -> & _)]];
      by rewrite ?chr_append, ?append_cons.
  - rewrite escape_cons. cbn.
    destruct (replacements_get_cases c) as [[_ ->] | [_ (x & r & -> & _)]];
      by rewrite ?chr_append, ?append_cons.
  - rewrite !escape_cons. intros [-> H]%replacements_get_inj.
    by rewrite (IH t H).
Qed.

Lemma append_length (a b : string) :
  String.length (a +:+ b) = String.length a + String.length b.
Proof. induction a as [|c a IH]; [done |]. rewrite append_cons. cbn. lia. Qed.

Lemma replacements_get_length (c : ascii) :
  (c ∉ specials -> String.length (replacements_get c) = 1)
  /\ (c ∈ specials -> 2 <= String.length (replacements_get c))
  /\ String.length (replacements_get c) <= 18.
Proof.
  destruct (decide (c ∈ specials)) as [Hc | Hc].
  - split; [done |].
    unfold specials in Hc.
    repeat (apply elem_of_cons in Hc as [-> | Hc]);
      [.. | by apply elem_of_nil in Hc];
      vm_compute; split; intros; lia.
  - rewrite (replacements_get_plain c) by done. cbn.
    split; [done |]. split; [done | lia].
Qed.

Lemma escape_text_length (s : string) :
  String.length s <= String.length (escape_text s) <= 18 * String.length s.
Proof.
  induction s as [|c s IH]; [cbn; lia |].
  rewrite escape_cons, append_length.
  destruct (replacements_get_length c) as (Hp & Hs & Hle).
  destruct (decide (c ∈ specials)) as [Hc | Hc].
  - specialize (Hs Hc). cbn [String.length]. lia.
  - specialize (Hp Hc). cbn [String.length]. lia.
Qed.

Lemma escape_text_fixed (s : string) :
  escape_text s = s <-> Forall (fun c => c ∉ specials) (list_ascii_of_string s).
Proof.
  split.
  - intros H. assert (String.length (escape_text s) = String.length s) as Hl
      by (by rewrite H).
    clear H. induction s as [|c s IH]; [constructor |].
    rewrite escape_cons, append_length in Hl.
    destruct (replacements_get_length c) as (Hp & Hs & _).
    pose proof (escape_text_length s) as [Hge _].
    cbn [String.length] in Hl.
    destruct (decide (c ∈ specials)) as [Hc | Hc].
    + specialize (Hs Hc). lia.
    + specialize (Hp Hc). cbn. constructor; [done |]. apply IH. lia.
  - induction s as [|c s IH]; [done |].
    intros Hall.
    change (list_ascii_of_string (String c s))
      with (c :: list_ascii_of_string s) in Hall.
    apply Forall_cons in Hall as [Hc Hs].
    rewrite escape_cons, (replacements_get_plain c), chr_append by done.
    by rewrite (IH Hs).
Qed.

End EscaperMore.

Section RunsMore.

Context {pyobj : Type}.
Context {template : Type}.
Variable render :
  template -> list string -> fsmap -> gmap string (value pyobj) ->
  exn + string.

Local Abbreviation M := (M pyobj).
Local Abbreviation world := (world pyobj).

Lemma trace_reports_start_failure (run : M RenderResult) :
  (forall w r w', run w = (r, w') -> build_trace render w r w') ->
  reports_start_failure run.
Proof.
  intros Htrace w w' r invs inv e Hrun Hprocs Hin Hres.
  destruct (build_trace_invocations render w w' r invs
              (Htrace _ _ _ Hrun) Hprocs)
    as [[-> _] | (folder & tex & fs1 & res & -> & _ & _ & _ & Htex & Hend)].
  { by apply elem_of_nil in Hin. }
  apply list_elem_of_singleton in Hin as ->. cbn in Hres. subst res.
  cbn in Hend. destruct Hend as [-> ->]. cbn [inv_cwd inv_fs_before].
  split; [done |]. split; [done |]. split; [done |].
  rewrite (key_join_name _ _ "main.tex" valid_main_tex), Htex. by eexists.
Qed.

Lemma trace_only_the_compiler (run : M RenderResult) :
  (forall w r w', run w = (r, w') -> build_trace render w r w') ->
  runs_only_the_compiler run.
Proof.
  intros Htrace w.
  destruct (Htrace w _ _ (surjective_pairing (run w)))
    as (Hcwd & _
        & [[Hp _] | (folder & tex & fs1 & res & Hp & _ & Hnew & Hdir & _)]).
  - split; [done |]. exists []. rewrite app_nil_r.
    split; [done |]. split; [cbn; lia | constructor].
  - split; [done |]. eexists. split; [exact Hp |]. split; [cbn; lia |].
    by repeat constructor.
Qed.

Lemma bind_run_raise {A B} (m : M A) (k : A -> M B) (w w1 : world)
    (e : exn) :
  m w = (Raise e, w1) -> (m ≫= k) w = (Raise e, w1).
Proof. intros H. cbv [mbind M_bind bind]. by rewrite H. Qed.

End RunsMore.

Section CleanupFacts.

Context {pyobj : Type}.
Local Abbreviation M := (M pyobj).
Local Abbreviation world := (world pyobj).

Lemma elem_of_entries_under (f : fsmap) (root k : list string) :
  k ∈ entries_under f root
  <-> root `prefix_of` k /\ k <> root /\ is_Some (f !! k).
Proof.
  unfold entries_under. rewrite merge_sort_Permutation.
  rewrite list_elem_of_filter, elem_of_elements, elem_of_dom. tauto.
Qed.

(** One step of the deletion with [ignore_errors]: the entry is
    removed, or nothing is changed. *)
Lemma remove_entry_ignore_run (k : list string) (w : world) :
  onerror true (remove_entry k) w
  = (Ok tt,
     match os_remove (fs w) k with
     | inr f' => set_fs f' w
     | inl _ => w
     end).
Proof.
  unfold onerror, try_except, remove_entry.
  cbv [mbind M_bind bind get_world lift modify raise ret].
  by destruct (os_remove (fs w) k).
Qed.

Lemma os_remove_cases (f f' : fsmap) (k : list string) :
  os_remove f k = inr f' -> f' = delete k f.
Proof.
  unfold os_remove. destruct (f !! k) as [n |]; [| done].
  destruct (match n with Dir _ => _ | File _ => _ end); [done |].
  destruct k; [done |].
  destruct (f !! removelast (s :: k)) as [[? | []] |]; try done.
  by intros [= <-].
Qed.

(** Deleting with [ignore_errors] touches the listed entries only, and
    only removes. *)
Lemma rmtree_entries_frame (ks : list (list string)) (w w' : world) :
  rmtree_entries true ks w = (Ok tt, w') ->
  forall k, fs w' !! k = fs w !! k \/ (k ∈ ks /\ fs w' !! k = None).
Proof.
  revert w. induction ks as [|k0 ks IH]; intros w Hrun k.
  - cbn in Hrun. cbv [mret M_ret ret] in Hrun. injection Hrun as <-. by left.
  - cbn [rmtree_entries] in Hrun.
    rewrite (bind_run_ok _ _ _ _ _ (remove_entry_ignore_run k0 w)) in Hrun.
    destruct (IH _ Hrun k) as [Heq | [Hin Hnone]].
    + rewrite Heq.
      destruct (os_remove (fs w) k0) as [e | f'] eqn:Hrm; [by left |].
      apply os_remove_cases in Hrm as ->. cbn [fs set_fs].
      destruct (decide (k = k0)) as [-> | Hne].
      * right. split; [left |]. apply lookup_delete_eq.
      * left. by apply lookup_delete_ne.
    + right. split; [by right | done].
Qed.

Lemma prefix_of_length_lt (a b : list string) :
  a `prefix_of` b -> b <> a -> length a < length b.
Proof.
  intros [t ->] Hne. rewrite length_app.
  destruct t; [by rewrite app_nil_r in Hne | cbn; lia].
Qed.

Lemma removelast_length (k : list string) :
  k <> [] -> length (removelast k) < length k.
Proof.
  intros Hk. destruct (exists_last Hk) as (k' & x & ->).
  rewrite removelast_last, length_app. cbn. lia.
Qed.

(** Deleting the entries [ks], the deepest first, when they are all
    there, in directories that can be written, and when every entry
    below one of them is one of them: all of them are removed. *)
Lemma rmtree_entries_removes (ks : list (list string)) (w : world) :
  NoDup ks ->
  StronglySorted deeper_or_level ks ->
  (forall k, k ∈ ks ->
     k <> [] /\ is_Some (fs w !! k)
     /\ fs w !! removelast k = Some (Dir true)) ->
  (forall k k', k ∈ ks -> k `prefix_of` k' -> is_Some (fs w !! k') ->
     k' ∈ ks) ->
  exists w',
    rmtree_entries true ks w = (Ok tt, w')
    /\ forall k, fs w' !! k = if decide (k ∈ ks) then None else fs w !! k.
Proof.
  revert w. induction ks as [|k0 ks IH]; intros w Hnd Hsorted Hthere Hclosed.
  - exists w. split; [done |]. intros k.
    destruct (decide (k ∈ [])) as [Hk |]; [| done]. by apply elem_of_nil in Hk.
  - apply NoDup_cons in Hnd as [Hk0 Hnd].
    apply StronglySorted_cons in Hsorted as [Hdeep Hsorted].
    rewrite Forall_forall in Hdeep.
    destruct (Hthere k0 ltac:(left)) as (Hne & [n Hn] & Hparent).
    assert (os_remove (fs w) k0 = inr (delete k0 (fs w))) as Hrm.
    { unfold os_remove. rewrite Hn.
      assert (entries_under (fs w) k0 = []) as Hempty.
      { destruct (entries_under (fs w) k0) as [|k' l] eqn:Hl; [done |].
        assert (k' ∈ entries_under (fs w) k0) as Hin by (rewrite Hl; left).
        apply elem_of_entries_under in Hin as (Hpre & Hne' & Hsome).
        pose proof (prefix_of_length_lt _ _ Hpre Hne') as Hlt.
        pose proof (Hclosed k0 k' ltac:(left) Hpre Hsome) as Hin.
        apply elem_of_cons in Hin as [-> | Hin]; [done |].
        specialize (Hdeep _ Hin). unfold deeper_or_level in Hdeep. lia. }
      rewrite Hempty.
      assert (match n with
              | Dir _ => bool_decide ([] <> ([] : list (list string)))
              | File _ => false
              end = false) as ->.
      { destruct n; [done |]. by apply bool_decide_eq_false; intros []. }
      destruct k0; [done |]. by rewrite Hparent. }
    cbn [rmtree_entries].
    rewrite (bind_run_ok _ _ _ _ _ (remove_entry_ignore_run k0 w)), Hrm.
    set (w1 := set_fs (delete k0 (fs w)) w).
    assert (forall k, k ∈ ks ->
              k <> [] /\ is_Some (fs w1 !! k)
              /\ fs w1 !! removelast k = Some (Dir true)) as Hthere1.
    { intros k Hk. cbn [fs set_fs w1].
      destruct (Hthere k ltac:(by right)) as (Hkne & Hsome & Hpar).
      split; [done |]. split.
      * rewrite lookup_delete_ne; [done |]. by intros ->.
      * rewrite lookup_delete_ne; [done |]. intros ->.
        specialize (Hdeep _ Hk). unfold deeper_or_level in Hdeep.
        pose proof (removelast_length k Hkne). lia. }
    assert (forall k k', k ∈ ks -> k `prefix_of` k' ->
              is_Some (fs w1 !! k') -> k' ∈ ks) as Hclosed1.
    { intros k k' Hk Hpre. cbn [fs set_fs w1]. intros Hsome.
      destruct (decide (k' = k0)) as [-> | Hne'].
      { by rewrite lookup_delete_eq in Hsome; destruct Hsome. }
      rewrite lookup_delete_ne in Hsome by done.
      pose proof (Hclosed k k' ltac:(by right) Hpre Hsome) as Hin.
      by apply elem_of_cons in Hin as [-> | Hin]. }
    destruct (IH w1 Hnd Hsorted Hthere1 Hclosed1) as (w' & Hrun & Hfs).
    exists w'. split; [done |]. intros k. rewrite Hfs. cbn [fs set_fs w1].
    destruct (decide (k = k0)) as [-> | Hne'].
    + rewrite (decide_True (P := k0 ∈ k0 :: ks)) by left.
      rewrite lookup_delete_eq. by destruct (decide (k0 ∈ ks)).
    + rewrite lookup_delete_ne by done.
      destruct (decide (k ∈ ks)) as [Hk | Hk].
      * by rewrite (decide_True (P := k ∈ k0 :: ks)) by (by right).
      * rewrite (decide_False (P := k ∈ k0 :: ks)); [done |].
        by intros [-> | ?]%elem_of_cons.
Qed.

Lemma entries_under_sorted (f : fsmap) (root : list string) :
  NoDup (entries_under f root ++ [root])
  /\ StronglySorted deeper_or_level (entries_under f root ++ [root]).
Proof.
  split.
  - apply NoDup_app. split; [| split].
    + unfold entries_under. rewrite merge_sort_Permutation.
      apply NoDup_filter, NoDup_elements.
    + intros k (_ & Hne & _)%elem_of_entries_under ->%list_elem_of_singleton.
      done.
    + apply NoDup_singleton.
  - apply StronglySorted_app_2.
    + intros k ? (Hpre & _ & _)%elem_of_entries_under ->%list_elem_of_singleton.
      unfold deeper_or_level. by apply prefix_length.
    + apply StronglySorted_merge_sort; apply _.
    + repeat constructor.
Qed.

(** [cleanup_workdir] only removes entries, and only entries at or
    below the folder. *)
Lemma cleanup_workdir_frame_run (workdir : option string) (w : world)
    (k : list string) :
  fs (cleanup_workdir workdir w).2 !! k = fs w !! k
  \/ (fs (cleanup_workdir workdir w).2 !! k = None
      /\ exists s,
           workdir = Some s /\ key (cwd w) (Path_of s) `prefix_of` k).
Proof.
  unfold cleanup_workdir. destruct workdir as [s |]; [| by left].
  destruct (negb (s =? "")); [| by left].
  unfold os_path_isdir. cbv [mbind M_bind bind get_world mret M_ret ret].
  destruct (fs w !! key (cwd w) (Path_of s)) as [[b | d] |] eqn:Hk;
    try (by left).
  unfold rmtree. cbv [mbind M_bind bind get_world]. cbv zeta. rewrite Hk.
  destruct (rmtree_entries_ignore_run
              (entries_under (fs w) (key (cwd w) (Path_of s))
               ++ [key (cwd w) (Path_of s)]) w) as (w' & Hrun & _).
  rewrite Hrun. cbn [snd].
  destruct (rmtree_entries_frame _ _ _ Hrun k) as [Heq | [Hin Hnone]];
    [by left |].
  right. split; [done |]. exists s. split; [done |].
  apply elem_of_app in Hin as [Hin | ->%list_elem_of_singleton]; [| done].
  by apply elem_of_entries_under in Hin as (Hpre & _).
Qed.

(** [cleanup_workdir] on a folder, not the root, in which every entry
    lies in a directory that can be written: the folder and all that
    is in it are removed, and nothing else is. *)
Lemma cleanup_workdir_removes_run (s : string) (w : world) (d : bool) :
  let kw := key (cwd w) (Path_of s) in
  s <> "" ->
  kw <> [] ->
  fs w !! kw = Some (Dir d) ->
  tree_writable (fs w) kw ->
  exists w',
    cleanup_workdir (Some s) w = (Ok tt, w')
    /\ forall k,
         fs w' !! k = if decide (kw `prefix_of` k) then None else fs w !! k.
Proof.
  intros kw Hs Hroot Hdir Hwr. unfold cleanup_workdir.
  assert ((s =? "") = false) as -> by (by apply String.eqb_neq).
  cbn [negb]. unfold os_path_isdir.
  cbv [mbind M_bind bind get_world mret M_ret ret]. fold kw. rewrite Hdir.
  unfold rmtree. cbv [mbind M_bind bind get_world]. cbv zeta. fold kw.
  rewrite Hdir.
  destruct (entries_under_sorted (fs w) kw) as [Hnd Hsorted].
  destruct (rmtree_entries_removes _ w Hnd Hsorted) as (w' & Hrun & Hfs).
  - intros k Hk.
    assert (kw `prefix_of` k /\ is_Some (fs w !! k)) as [Hpre [n Hn]].
    { apply elem_of_app in Hk as [Hk | ->%list_elem_of_singleton].
      - by apply elem_of_entries_under in Hk as (? & _ & ?).
      - split; [done | by eexists]. }
    split; [| split].
    + intros ->. by apply prefix_nil_inv in Hpre.
    + by eexists.
    + by apply (Hwr k n Hn).
  - intros k k' Hk Hpre Hsome.
    assert (kw `prefix_of` k) as Hpre0.
    { apply elem_of_app in Hk as [Hk | ->%list_elem_of_singleton].
      - by apply elem_of_entries_under in Hk as (? & _).
      - done. }
    destruct (decide (k' = kw)) as [-> | Hne].
    + apply elem_of_app. right. by apply list_elem_of_singleton.
    + apply elem_of_app. left. apply elem_of_entries_under.
      split; [by etrans |]. done.
  - exists w'. split; [done |]. intros k. rewrite Hfs.
    destruct (decide (kw `prefix_of` k)) as [Hpre | Hpre].
    + destruct (decide (k ∈ entries_under (fs w) kw ++ [kw])) as [| Hnot];
        [done |].
      destruct (fs w !! k) as [n |] eqn:Hn; [| done].
      exfalso. apply Hnot. apply elem_of_app.
      destruct (decide (k = kw)) as [-> | Hne].
      * right. by apply list_elem_of_singleton.
      * left. apply elem_of_entries_under. split; [done |].
        split; [done | by eexists].
    + destruct (decide (k ∈ entries_under (fs w) kw ++ [kw])) as [Hin |];
        [| done].
      exfalso. apply Hpre.
      apply elem_of_app in Hin as [Hin | ->%list_elem_of_singleton].
      * by apply elem_of_entries_under in Hin as (? & _).
      * done.
Qed.

End CleanupFacts.

Section ListObjects.

Context {A : Type}.
Implicit Types (lst : list A) (idx direction : Z).

Lemma list_position_in_range (n : nat) (i : Z) :
  (0 <= i < Z.of_nat n)%Z -> list_position n i = Some (Z.to_nat i).
Proof. intros Hi. unfold list_position. by rewrite decide_True. Qed.

Lemma list_position_outside (n : nat) (i : Z) :
  (i < - Z.of_nat n \/ Z.of_nat n <= i)%Z -> list_position n i = None.
Proof.
  intros Hi. unfold list_position.
  rewrite decide_False by lia. by rewrite decide_False by lia.
Qed.

(** What [move_item] does once the two positions are known. *)
Lemma move_item_positions lst idx direction (i j : nat) (a b : A) :
  (0 <= idx + direction < Z.of_nat (length lst))%Z ->
  list_position (length lst) idx = Some i ->
  j = Z.to_nat (idx + direction) ->
  lst !! i = Some b ->
  lst !! j = Some a ->
  move_item lst idx direction = inr (<[j := b]> (<[i := a]> lst)).
Proof.
  intros Hj Hi -> Hb Ha. unfold move_item. cbv zeta.
  rewrite decide_False by lia.
  unfold list_getitem.
  rewrite (list_position_in_range _ _ Hj), Hi. cbn [mbind option_bind].
  rewrite Ha, Hb. unfold list_setitem. rewrite Hi.
  rewrite length_insert. by rewrite (list_position_in_range _ _ Hj).
Qed.

End ListObjects.

Section MoveItem.
Context {A : Type}.
Implicit Types (lst : list A) (idx direction : Z).

(** X14.  For an index of the list, [move_item] does not raise and
    keeps the items of the list: when the neighbour position
    [idx + direction] is a position of the list, the two items change
    places and every other item stays where it is; otherwise the list
    is left as it is. *)
Theorem move_item_swaps_neighbour lst idx direction :
  (0 <= idx < Z.of_nat (length lst))%Z ->
  exists lst',
    move_item lst idx direction = inr lst'
    /\ lst' ≡ₚ lst
    /\ let i := Z.to_nat idx in
       let j := Z.to_nat (idx + direction) in
       if decide (0 <= idx + direction < Z.of_nat (length lst))%Z
       then lst' !! i = lst !! j
            /\ lst' !! j = lst !! i
            /\ forall k, k <> i -> k <> j -> lst' !! k = lst !! k
       else lst' = lst.
Proof.
  intros Hidx. cbv zeta.
  destruct (decide (0 <= idx + direction < Z.of_nat (length lst))%Z)
    as [Hj | Hj].
  - destruct (lookup_lt_is_Some_2 lst (Z.to_nat idx)) as [b Hb]; [lia |].
    destruct (lookup_lt_is_Some_2 lst (Z.to_nat (idx + direction)))
      as [a Ha]; [lia |].
    eexists. split.
    { apply (move_item_positions lst idx direction _ _ a b Hj
               (list_position_in_range _ _ Hidx) eq_refl Hb Ha). }
    split; [by apply Permutation_insert_swap |].
    set (i := Z.to_nat idx). set (j := Z.to_nat (idx + direction)).
    fold i in Hb. fold j in Ha.
    assert (i < length lst) by (by eapply lookup_lt_Some).
    assert (j < length lst) by (by eapply lookup_lt_Some).
    split; [| split].
    + destruct (decide (i = j)) as [<- | Hne].
      * rewrite list_lookup_insert_eq by (by rewrite length_insert). congruence.
      * rewrite list_lookup_insert_ne by done.
        rewrite list_lookup_insert_eq by done. congruence.
    + rewrite list_lookup_insert_eq by (by rewrite length_insert). congruence.
    + intros k Hki Hkj. by rewrite !list_lookup_insert_ne.
  - exists lst. split; [| done]. unfold move_item. cbv zeta.
    by rewrite decide_True by lia.
Qed.

(** X15.  Moving an item and then moving it back from its new
    position, in the opposite direction, gives the list back. *)
Theorem move_item_undo lst lst' idx direction :
  (0 <= idx < Z.of_nat (length lst))%Z ->
  (0 <= idx + direction < Z.of_nat (length lst))%Z ->
  move_item lst idx direction = inr lst' ->
  move_item lst' (idx + direction) (- direction) = inr lst.
Proof.
  intros Hidx Hj Hmove.
  destruct (lookup_lt_is_Some_2 lst (Z.to_nat idx)) as [b Hb]; [lia |].
  destruct (lookup_lt_is_Some_2 lst (Z.to_nat (idx + direction)))
    as [a Ha]; [lia |].
  rewrite (move_item_positions lst idx direction _ _ a b Hj
             (list_position_in_range _ _ Hidx) eq_refl Hb Ha) in Hmove.
  inversion Hmove; subst lst'; clear Hmove.
  remember (Z.to_nat idx) as i eqn:Ei.
  remember (Z.to_nat (idx + direction)) as j eqn:Ej.
  assert (i < length lst) by (by eapply lookup_lt_Some).
  assert (j < length lst) by (by eapply lookup_lt_Some).
  assert (Hlen : length (<[j:=b]> (<[i:=a]> lst)) = length lst)
    by (by rewrite !length_insert).
  assert ((idx + direction + - direction)%Z = idx) as Hback by lia.
  assert (<[j:=b]> (<[i:=a]> lst) !! j = Some b) as Hj'
    by (apply list_lookup_insert_eq; by rewrite length_insert).
  assert (<[j:=b]> (<[i:=a]> lst) !! i = Some (if decide (i = j) then b else a))
    as Hi'.
  { case_decide as Hij.
    - rewrite Hij. apply list_lookup_insert_eq. by rewrite length_insert.
    - rewrite list_lookup_insert_ne by done. by apply list_lookup_insert_eq. }
  rewrite (move_item_positions _ (idx + direction) (- direction) j i
             (if decide (i = j) then b else a) b).
  - f_equal. apply list_eq. intros k.
    destruct (decide (k = i)) as [-> | Hki].
    { rewrite list_lookup_insert_eq by (by rewrite !length_insert). done. }
    rewrite list_lookup_insert_ne by done.
    destruct (decide (k = j)) as [-> | Hkj].
    { rewrite list_lookup_insert_eq by (by rewrite !length_insert).
      case_decide; congruence. }
    by rewrite !list_lookup_insert_ne.
  - rewrite Hlen, Hback. lia.
  - rewrite Hlen, Ej. by apply list_position_in_range.
  - by rewrite Hback.
  - exact Hj'.
  - exact Hi'.
Qed.

(** X16.  For an index outside the list, below [-len] or from [len]
    on: when the position [idx + direction] is a position of the list,
    [move_item] raises [IndexError] on reading [lst[idx]], before
    anything is assigned, with the text of an index out of range when
    [idx] fits a machine integer and the text of the failed conversion
    when it does not; otherwise it returns with the list as it is. *)
Theorem move_item_index_error lst idx direction :
  (idx < - Z.of_nat (length lst) \/ Z.of_nat (length lst) <= idx)%Z ->
  move_item lst idx direction
  = if decide (0 <= idx + direction < Z.of_nat (length lst))%Z
    then inl (IndexError
                (if decide (- 2 ^ 63 <= idx < 2 ^ 63)%Z
                 then "list index out of range"
                 else "cannot fit 'int' into an index-sized integer"))
    else inr lst.
Proof.
  intros Hidx. unfold move_item. cbv zeta.
  destruct (decide (0 <= idx + direction < Z.of_nat (length lst))%Z)
    as [Hj | Hj].
  - rewrite decide_False by lia.
    destruct (lookup_lt_is_Some_2 lst (Z.to_nat (idx + direction)))
      as [a Ha]; [lia |].
    unfold list_getitem.
    rewrite (list_position_in_range _ _ Hj). cbn [mbind option_bind].
    rewrite Ha. by rewrite (list_position_outside _ _ Hidx).
  - by rewrite decide_True by lia.
Qed.

End MoveItem.

Section SlugFacts.

Implicit Types (c x : ascii) (s r : list ascii).

(** [no_double], position by position. *)
Local Abbreviation no_double_at c s :=
  (forall i : nat, s !! i = Some c -> s !! S i <> Some c).

Lemma no_double_iff (c : ascii) s :
  no_double c s = true <-> no_double_at c s.
Proof.
  induction s as [|x s IH]; [done |]. cbn [no_double].
  rewrite andb_true_iff, negb_true_iff, andb_false_iff, IH.
  rewrite !bool_decide_eq_false. split.
  - intros [Hx Hs] [|i] Hi.
    + injection Hi as ->. change (s !! 0 <> Some c).
      rewrite <- head_lookup. by destruct Hx.
    + apply (Hs i Hi).
  - intros Hnd. split.
    + destruct (decide (x = c)) as [-> | Hx]; [| by left].
      right. rewrite head_lookup. apply (Hnd 0 eq_refl).
    + intros i. apply (Hnd (S i)).
Qed.

Lemma sub_runs_delete (P : ascii -> bool) (b : bool) s :
  sub_runs P [] b s = filter (fun c => P c = false) s.
Proof.
  revert b. induction s as [|c s IH]; intros b; [done |]. cbn [sub_runs].
  destruct (P c) eqn:HP.
  - rewrite filter_cons_False by congruence.
    destruct b; cbn [app]; apply IH.
  - rewrite filter_cons_True by done. by rewrite IH.
Qed.

Lemma sub_runs_Forall (Q : ascii -> Prop) (P : ascii -> bool)
    (rep : list ascii) (b : bool) s :
  Forall Q rep -> Forall Q s -> Forall Q (sub_runs P rep b s).
Proof.
  intros Hrep Hs. revert b.
  induction Hs as [|c s Hc Hs IH]; intros b; [constructor |].
  cbn [sub_runs]. destruct (P c).
  - apply Forall_app. split; [by destruct b | apply IH].
  - constructor; [done | apply IH].
Qed.

Lemma sub_runs_collapse (c : ascii) (b : bool) s :
  no_double_at c (sub_runs (fun x => bool_decide (x = c)) [c] b s)
  /\ (b = true ->
      head (sub_runs (fun x => bool_decide (x = c)) [c] b s) <> Some c).
Proof.
  revert b. induction s as [|x s IH]; intros b.
  - split; [by intros i Hi | done].
  - cbn [sub_runs]. case_bool_decide as Hx.
    + destruct (IH true) as [Hnd Hhd]. specialize (Hhd eq_refl).
      destruct b; cbn [app]; [done |].
      split; [| done]. intros [|i] Hi.
      * change (sub_runs (fun x => bool_decide (x = c)) [c] true s !! 0
                <> Some c).
        by rewrite <- head_lookup.
      * apply (Hnd i). exact Hi.
    + destruct (IH false) as [Hnd _]. split.
      * intros [|i] Hi; [cbn in Hi; congruence | apply (Hnd i); exact Hi].
      * intros _. cbn. congruence.
Qed.

Lemma sub_runs_collapse_id (c : ascii) (b : bool) s :
  no_double_at c s ->
  (b = true -> head s <> Some c) ->
  sub_runs (fun x => bool_decide (x = c)) [c] b s = s.
Proof.
  revert b. induction s as [|x s IH]; intros b Hnd Hhd; [done |].
  cbn [sub_runs]. case_bool_decide as Hx.
  - subst x. destruct b; [by destruct Hhd |]. cbn [app]. f_equal.
    apply IH.
    + intros i Hi. apply (Hnd (S i) Hi).
    + intros _. rewrite head_lookup. by apply (Hnd 0).
  - f_equal. apply IH; [| done]. intros i Hi. apply (Hnd (S i) Hi).
Qed.

Lemma lstrip_char_drop (c : ascii) s :
  exists n, lstrip_char c s = drop n s.
Proof.
  induction s as [|x s [n IH]]; [by exists 0 |]. cbn [lstrip_char].
  case_decide; [by exists (S n) | by exists 0].
Qed.

Lemma lstrip_char_head (c : ascii) s : head (lstrip_char c s) <> Some c.
Proof.
  induction s as [|x s IH]; [done |]. cbn [lstrip_char].
  case_decide; [done | cbn; congruence].
Qed.

Lemma lstrip_char_id (c : ascii) s :
  head s <> Some c -> lstrip_char c s = s.
Proof.
  destruct s as [|x s]; [done |]. cbn. intros Hx.
  rewrite decide_False; [done | congruence].
Qed.

Lemma no_double_drop (c : ascii) (n : nat) s :
  no_double_at c s -> no_double_at c (drop n s).
Proof.
  intros Hnd i. rewrite !lookup_drop.
  replace (n + S i) with (S (n + i)) by lia. apply Hnd.
Qed.

Lemma no_double_reverse (c : ascii) s :
  no_double_at c s -> no_double_at c (reverse s).
Proof.
  intros Hnd i Hi Hsi.
  assert (S i < length s) as Hlt.
  { apply lookup_lt_Some in Hsi. by rewrite length_reverse in Hsi. }
  rewrite reverse_lookup in Hi by lia.
  rewrite reverse_lookup in Hsi by lia.
  apply (Hnd (length s - S (S i)) Hsi).
  by replace (S (length s - S (S i))) with (length s - S i) by lia.
Qed.

Lemma last_drop_nonempty {A} (n : nat) (l : list A) :
  drop n l <> [] -> last (drop n l) = last l.
Proof.
  intros Hne. rewrite <- (take_drop n l) at 2.
  rewrite last_app. destruct (last (drop n l)) eqn:Hl; [done |].
  by apply last_None in Hl.
Qed.

(** The shape of a stripped text. *)
Lemma strip_char_shape (c : ascii) (Q : ascii -> Prop) s :
  Forall Q s -> no_double_at c s ->
  Forall Q (strip_char c s)
  /\ no_double_at c (strip_char c s)
  /\ head (strip_char c s) <> Some c
  /\ last (strip_char c s) <> Some c.
Proof.
  intros HQ Hnd. unfold strip_char.
  destruct (lstrip_char_drop c s) as [n Hn].
  destruct (lstrip_char_drop c (reverse (lstrip_char c s))) as [m Hm].
  split; [| split; [| split]].
  - apply Forall_reverse. rewrite Hm. apply Forall_drop, Forall_reverse.
    rewrite Hn. by apply Forall_drop.
  - apply no_double_reverse. rewrite Hm.
    apply no_double_drop, no_double_reverse. rewrite Hn.
    by apply no_double_drop.
  - rewrite head_reverse.
    destruct (decide (lstrip_char c (reverse (lstrip_char c s)) = []))
      as [Hnil | Hne].
    + by rewrite Hnil.
    + rewrite Hm in Hne |- *. rewrite (last_drop_nonempty _ _ Hne).
      rewrite last_reverse. apply lstrip_char_head.
  - rewrite last_reverse. apply lstrip_char_head.
Qed.

Lemma strip_char_id (c : ascii) s :
  head s <> Some c -> last s <> Some c -> strip_char c s = s.
Proof.
  intros Hh Hl. unfold strip_char.
  rewrite (lstrip_char_id c s Hh).
  rewrite lstrip_char_id by (by rewrite head_reverse).
  apply reverse_involutive.
Qed.


Lemma sub_runs_delete_id (P : ascii -> bool) (b : bool) s :
  Forall (fun c => P c = false) s -> sub_runs P [] b s = s.
Proof.
  intros Hs. rewrite sub_runs_delete.
  induction Hs as [|c s Hc Hs IH]; [done |].
  rewrite filter_cons_True by done. by rewrite IH.
Qed.

Lemma slug_chars_valid_name (n : string) :
  n <> "" ->
  Forall (fun c => is_slug_char c = true) (list_ascii_of_string n) ->
  valid_name n.
Proof.
  intros Hne Hall. split; [done |].
  assert (forall c, c ∈ list_ascii_of_string n -> is_slug_char c = true)
    as Hin.
  { intros c Hc. rewrite List.Forall_forall in Hall. apply Hall.
    by apply list_elem_of_In. }
  split; [| split].
  - intros ->. by specialize (Hin "."%char ltac:(left)).
  - intros ->. by specialize (Hin "."%char ltac:(left)).
  - intros Hc. by specialize (Hin _ Hc).
Qed.

Section Slugify.

Variable str_strip str_lower sub_whitespace : string -> string.

Local Abbreviation slugify_profile :=
  (slugify_profile str_strip str_lower sub_whitespace).

(** The shape of the characters of a profile name. *)
Lemma slugify_profile_chars (first_name last_name : string) :
  let cs := list_ascii_of_string (slugify_profile first_name last_name) in
  slug_shaped cs.
Proof.
  unfold slug_shaped. rewrite no_double_iff.
  unfold slugify_profile. cbv zeta.
  set (base0 := list_ascii_of_string (sub_whitespace _)).
  set (kept := sub_runs (fun c => negb (is_slug_char c)) [] false base0).
  assert (Forall (fun c => is_slug_char c = true) kept) as Hkept.
  { unfold kept. rewrite sub_runs_delete. apply List.Forall_forall.
    intros c Hc. apply list_elem_of_In in Hc.
    apply list_elem_of_filter in Hc as [Hc _].
    by destruct (is_slug_char c). }
  set (runs := sub_runs (fun c => bool_decide (c = "_"%char)) ["_"%char]
                 false kept).
  assert (Forall (fun c => is_slug_char c = true) runs) as Hruns.
  { apply sub_runs_Forall; [| done]. by repeat constructor. }
  destruct (sub_runs_collapse "_" false kept) as [Hnd _]. fold runs in Hnd.
  destruct (strip_char_shape "_" _ runs Hruns Hnd) as (HQ & Hnd' & Hh & Hl).
  case_decide as Hnil.
  - split; [done |]. split; [by repeat constructor |].
    split; [done |]. split; [done |].
    intros i Hi. do 7 (destruct i as [|i]; [done |]). done.
  - rewrite list_ascii_of_string_of_list_ascii. done.
Qed.

(** The profile name is a file name. *)
Lemma slugify_profile_valid_name (first_name last_name : string) :
  valid_name (slugify_profile first_name last_name).
Proof.
  destruct (slugify_profile_chars first_name last_name)
    as (Hne & Hall & _).
  apply slug_chars_valid_name; [| done].
  intros Heq. apply Hne. by rewrite Heq.
Qed.

End Slugify.

(** The paths of a profile whose name is a file name: the folder
    [users/<name>] and four files in it. *)
Lemma profile_paths_valid_name (profile_id : string) :
  valid_name profile_id ->
  profile_paths profile_id
  = list_to_map
      [ ("dir", mkPath false ["users"; profile_id]);
        ("data", mkPath false ["users"; profile_id; "data.txt"]);
        ("banner", mkPath false ["users"; profile_id; "photo_banner.png"]);
        ("pdf", mkPath false ["users"; profile_id; "chief_cv.pdf"]);
        ("tex", mkPath false ["users"; profile_id; "main.tex"]) ].
Proof.
  intros Hv. unfold profile_paths. cbv zeta.
  rewrite (Path_of_valid_name profile_id Hv).
  change USERS_DIR with (mkPath false ["users"]).
  reflexivity.
Qed.

(** The location of the paths of a profile whose name is a file name,
    whatever the current directory. *)
Lemma profile_paths_below (profile_id : string) (c : list string)
    (k : string) (p : Path) :
  valid_name profile_id ->
  profile_paths profile_id !! k = Some p ->
  (collapse c ++ ["users"; profile_id]) `prefix_of` key c p
  /\ length (key c p) <= length (collapse c) + 3.
Proof.
  intros Hv. rewrite (profile_paths_valid_name profile_id Hv).
  assert (forall ns,
             Forall (fun n => n <> "..") ns ->
             key c (mkPath false ns) = collapse c ++ ns) as Hkey.
  { intros ns. unfold key. cbn [is_absolute names].
    induction ns as [|n ns IH] using rev_ind; intros Hns.
    - by rewrite !app_nil_r.
    - apply Forall_app in Hns as [Hns [Hn _]%Forall_cons].
      rewrite !app_assoc, collapse_snoc by done. by rewrite (IH Hns). }
  assert (profile_id <> "..") as Hdd by (by destruct Hv as (_ & _ & ? & _)).
  intros Hk. rewrite !list_to_map_cons, list_to_map_nil in Hk.
  repeat (apply lookup_insert_Some in Hk as [[<- <-] | [_ Hk]];
    [rewrite Hkey by (by repeat constructor);
     split; [| rewrite length_app; cbn; lia];
     apply prefix_app; by eexists (_ : list string) |]).
  by rewrite lookup_empty in Hk.
Qed.

End SlugFacts.

Section ProfileFacts.

Context {pyobj : Type}.
Local Abbreviation M := (M pyobj).
Local Abbreviation world := (world pyobj).

Lemma key_USERS_DIR (c : list string) :
  key c USERS_DIR = collapse c ++ ["users"].
Proof.
  change USERS_DIR with (mkPath false ["users"]).
  unfold key. cbn [is_absolute names]. by apply collapse_snoc.
Qed.

Lemma removelast_last_eq (k : list string) (n : string) :
  last k = Some n -> k = removelast k ++ [n].
Proof.
  intros Hl. destruct (decide (k = [])) as [-> | Hne]; [done |].
  destruct (exists_last Hne) as (k' & x & ->).
  rewrite last_snoc in Hl. injection Hl as ->. by rewrite removelast_last.
Qed.

(** The names that [os.listdir] gives for the directory at [k]. *)
Lemma elem_of_entry_names (f : fsmap) (k : list string) (n : string) :
  n ∈ entry_names f k
  <-> n <> "." /\ n <> ".." /\ is_Some (f !! (k ++ [n])).
Proof.
  unfold entry_names. rewrite list_elem_of_omap. split.
  - intros (k' & Hk' & Hn).
    apply elem_of_elements, elem_of_dom in Hk'.
    destruct (last k') as [m |] eqn:Hl; [| done].
    case_decide as Hd; [| done]. injection Hn as ->.
    destruct Hd as (<- & Hne & Hne'). split; [done |]. split; [done |].
    by rewrite <- (removelast_last_eq k' n Hl).
  - intros (Hne & Hne' & Hsome). exists (k ++ [n]). split.
    + by apply elem_of_elements, elem_of_dom.
    + rewrite last_snoc, removelast_last. by rewrite decide_True.
Qed.

Lemma NoDup_omap_inj {A B} (f : A -> option B) (l : list A) :
  (forall x y b, x ∈ l -> y ∈ l -> f x = Some b -> f y = Some b -> x = y) ->
  NoDup l -> NoDup (omap f l).
Proof.
  intros Hinj Hnd. induction Hnd as [|x l Hx Hnd IH]; [constructor |].
  cbn. destruct (f x) as [b |] eqn:Hfx.
  - constructor.
    + intros (y & Hy & Hfy)%list_elem_of_omap.
      apply Hx. by rewrite (Hinj x y b ltac:(left) ltac:(by right) Hfx Hfy).
    + apply IH. intros y z c Hy Hz. apply Hinj; by right.
  - apply IH. intros y z c Hy Hz. apply Hinj; by right.
Qed.

Lemma entry_names_NoDup (f : fsmap) (k : list string) :
  NoDup (entry_names f k).
Proof.
  unfold entry_names.
  apply NoDup_omap_inj; [| apply NoDup_elements].
  intros k1 k2 n _ _ H1 H2.
  destruct (last k1) as [n1 |] eqn:Hl1; [| done].
  destruct (last k2) as [n2 |] eqn:Hl2; [| done].
  destruct (decide (removelast k1 = k /\ n1 <> "." /\ n1 <> ".."))
    as [[E1 _] |]; [| done].
  destruct (decide (removelast k2 = k /\ n2 <> "." /\ n2 <> ".."))
    as [[E2 _] |]; [| done].
  simplify_eq.
  rewrite (removelast_last_eq k1 n Hl1), (removelast_last_eq k2 n Hl2).
  by rewrite E2.
Qed.

(** The comprehension of [list_profiles] on the children of the
    directory at [k]: it reads the file system only and keeps the names
    of the directories. *)
Lemma directory_names_run (p : Path) (ns : list string) (w : world) :
  Forall (fun n => n <> "..") ns ->
  directory_names
    (map (fun n => mkPath (is_absolute p) (names p ++ [n])) ns) w
  = (Ok (filter (fun n => exists d,
                     fs w !! (key (cwd w) p ++ [n]) = Some (Dir d)) ns),
     w).
Proof.
  induction 1 as [|n ns Hn _ IH]; [done |].
  cbn [map directory_names]. unfold is_dir at 1.
  cbv [mbind M_bind bind get_world mret M_ret ret].
  cbv [mbind M_bind bind] in IH. rewrite IH.
  assert (key (cwd w) (mkPath (is_absolute p) (names p ++ [n]))
          = key (cwd w) p ++ [n]) as ->.
  { unfold key. cbn [is_absolute names]. rewrite app_assoc.
    by apply collapse_snoc. }
  assert (name (mkPath (is_absolute p) (names p ++ [n])) = n) as ->.
  { unfold name. cbn [names]. by rewrite last_snoc. }
  destruct (fs w !! (key (cwd w) p ++ [n])) as [[b | d] |] eqn:Hk.
  - rewrite filter_cons_False; [done |]. intros [? ?]. congruence.
  - rewrite filter_cons_True; [done |]. by eexists.
  - rewrite filter_cons_False; [done |]. intros [? ?]. congruence.
Qed.

End ProfileFacts.

Section PageFacts.

Context {pyobj : Type}.
Local Abbreviation M := (M pyobj).
Local Abbreviation Page := (Page pyobj).
Local Abbreviation world := (world pyobj).
Local Abbreviation page := (page pyobj).

Lemma page_bind_inv {A B} (m : Page A) (k : A -> Page B) (p p' : page)
    (r : outcome B) :
  (m ≫= k) p = (r, p') ->
  (exists a p1, m p = (Ok a, p1) /\ k a p1 = (r, p'))
  \/ (exists e, m p = (Raise e, p') /\ r = Raise e).
Proof.
  cbv [mbind Page_bind page_bind]. destruct (m p) as [[a | e] p1].
  - intros H. left. by exists a, p1.
  - intros [= <- <-]. right. by exists e.
Qed.

Lemma page_bind_run_ok {A B} (m : Page A) (k : A -> Page B) (p p1 : page)
    (a : A) :
  m p = (Ok a, p1) -> (m ≫= k) p = k a p1.
Proof. intros H. cbv [mbind Page_bind page_bind]. by rewrite H. Qed.

Lemma page_bind_run_raise {A B} (m : Page A) (k : A -> Page B) (p p1 : page)
    (e : exn) :
  m p = (Raise e, p1) -> (m ≫= k) p = (Raise e, p1).
Proof. intros H. cbv [mbind Page_bind page_bind]. by rewrite H. Qed.

Lemma call_run {A} (m : M A) (p : page) :
  call m p = ((m (machine p)).1,
              mkPage (session p) (shown p) (m (machine p)).2).
Proof. unfold call. by destruct (m (machine p)). Qed.

(** [cleanup_workdir] returns, in the same directory. *)
Lemma cleanup_workdir_returns (workdir : option string) (w : world) :
  (cleanup_workdir workdir w).1 = Ok tt
  /\ cwd (cleanup_workdir workdir w).2 = cwd w.
Proof.
  unfold cleanup_workdir. destruct workdir as [s |]; [| done].
  destruct (negb (s =? "")); [| done].
  unfold os_path_isdir. cbv [mbind M_bind bind get_world mret M_ret ret].
  destruct (fs w !! key (cwd w) (Path_of s)) as [[b | d] |]; try done.
  destruct (rmtree_ignore_run s w) as (w' & -> & Hc & _). done.
Qed.

Lemma cleanup_workdir_procs (workdir : option string) (w : world) :
  procs (cleanup_workdir workdir w).2 = procs w
  /\ cwd (cleanup_workdir workdir w).2 = cwd w.
Proof.
  unfold cleanup_workdir. destruct workdir as [s |]; [| done].
  destruct (negb (s =? "")); [| done].
  unfold os_path_isdir. cbv [mbind M_bind bind get_world mret M_ret ret].
  destruct (fs w !! key (cwd w) (Path_of s)) as [[b | d] |]; try done.
  destruct (rmtree_ignore_run s w) as (w' & -> & Hc & _ & Hp). done.
Qed.

(** The clean-up of the folder of the build before returns, and leaves
    an attribute [last_workdir] that is false. *)
Lemma clean_last_workdir_run (p : page) :
  exists w0,
    clean_last_workdir p
    = (Ok tt,
       mkPage (if text_truthy (last_workdir (session p))
               then set_last_workdir None (session p)
               else session p)
         (shown p) w0)
    /\ w0 = (if text_truthy (last_workdir (session p))
             then (cleanup_workdir (last_workdir (session p)) (machine p)).2
             else machine p).
Proof.
  unfold clean_last_workdir.
  cbv [mbind Page_bind page_bind get_session].
  destruct (text_truthy (last_workdir (session p))).
  - rewrite call_run, (proj1 (cleanup_workdir_returns _ _)).
    eexists. split; reflexivity.
  - destruct p. eexists. split; reflexivity.
Qed.

(** What the page does after the build attempt has raised. *)
Lemma build_failed_run (e : exn) (p : page) :
  build_failed e p
  = (Ok tt,
     mkPage (session p)
       (shown p
        ++ [st_error "Failed to compile LaTeX.";
            st_text_area "Build log" (exn_str e)]
        ++ (if text_truthy (last_workdir (session p))
            then [st_info ("Temp build folder: "
                           +:+ text_format (last_workdir (session p)))]
            else []))
       (machine p)).
Proof.
  unfold build_failed.
  cbv [mbind Page_bind page_bind show get_session]. cbn [session shown machine].
  destruct (text_truthy (last_workdir (session p))).
  - cbv [show]. cbn [session shown machine]. by rewrite <- !app_assoc.
  - cbv [mret Page_ret page_ret]. by rewrite <- !app_assoc.
Qed.

(** The run of the button of [app.py] and [chief_app.py]. *)
Lemma generate_pdf_run (build : loc -> M RenderResult) (p : page) :
  let ss0 :=
    if text_truthy (last_workdir (session p))
    then set_last_workdir None (session p)
    else session p in
  let w0 :=
    if text_truthy (last_workdir (session p))
    then (cleanup_workdir (last_workdir (session p)) (machine p)).2
    else machine p in
  text_truthy (last_workdir ss0) = false
  /\ generate_pdf build p
     = (Ok tt,
        match build (session_data (session p)) w0 with
        | (Ok res, w1) =>
            mkPage
              (set_last_workdir (Some (workdir res))
                 (set_last_tex (Some (tex_str res))
                    (set_last_pdf (Some (pdf_bytes res)) ss0)))
              (shown p ++ [st_success "PDF generated successfully."]) w1
        | (Raise e, w1) =>
            mkPage ss0
              (shown p ++ [st_error "Failed to compile LaTeX.";
                           st_text_area "Build log" (exn_str e)])
              w1
        end).
Proof.
  intros ss0 w0.
  assert (text_truthy (last_workdir ss0) = false) as Hfalse.
  { subst ss0. by destruct (text_truthy (last_workdir (session p))) eqn:H. }
  split; [done |].
  unfold generate_pdf.
  destruct (clean_last_workdir_run p) as (w0' & Hclean & Hw0).
  fold ss0 in Hclean. fold w0 in Hw0. subst w0'.
  rewrite (page_bind_run_ok _ _ _ _ _ Hclean).
  unfold page_try. cbv [mbind Page_bind page_bind get_session].
  cbn [session shown machine]. rewrite call_run. cbn [session shown machine].
  assert (session_data ss0 = session_data (session p)) as ->.
  { subst ss0. by destruct (text_truthy (last_workdir (session p))). }
  destruct (build (session_data (session p)) w0) as [[res | e] w1].
  - reflexivity.
  - cbn [fst snd]. rewrite build_failed_run. cbn [session shown machine].
    by rewrite Hfalse.
Qed.

(** *** Making directories *)

Lemma is_dir_run (p : Path) (w : world) :
  is_dir p w
  = (Ok (match fs w !! key (cwd w) p with
         | Some (Dir _) => true
         | _ => false
         end), w).
Proof. reflexivity. Qed.

Lemma set_fs_same (w : world) : set_fs (fs w) w = w.
Proof. by destruct w. Qed.

Lemma set_fs_set_fs (f g : fsmap) (w : world) :
  set_fs f (set_fs g w) = set_fs f w.
Proof. reflexivity. Qed.

(** The handler of an error of [os.mkdir] in [Path.mkdir], for an
    error that is not [FileNotFoundError]. *)
Lemma mkdir_exists_inv (p : Path) (exist_ok : bool) (ex : exn) (w w' : world)
    (r : outcome unit) :
  (d ← is_dir p;
   if negb exist_ok || negb d then raise ex else mret tt) w = (r, w') ->
  w' = w
  /\ (r = Ok tt -> exists d, fs w !! key (cwd w) p = Some (Dir d)).
Proof.
  rewrite (bind_run_ok _ _ _ _ _ (is_dir_run p w)).
  destruct (fs w !! key (cwd w) p) as [[b | d] |];
    destruct exist_ok; cbn; intros [= <- <-];
    (split; [done |]); try done.
  intros _. by eexists.
Qed.

Lemma mkdir_no_parents_inv (p : Path) (exist_ok : bool) (w w' : world)
    (r : outcome unit) :
  mkdir_no_parents p exist_ok w = (r, w') ->
  let k := key (cwd w) p in
  (r = Ok tt /\ fs w !! k = None
   /\ w' = set_fs (<[k := Dir true]> (fs w)) w)
  \/ (w' = w /\ (r = Ok tt -> exists d, fs w !! k = Some (Dir d))).
Proof.
  intros Hrun k. unfold mkdir_no_parents in Hrun.
  apply try_except_inv in Hrun as [(a & Hmk & ->) | (e & w1 & Hmk & Hh)].
  - apply os_mkdir_inv in Hmk as [(_ & Hnone & ->) | (e & [=] & _)].
    left. destruct a. done.
  - apply os_mkdir_inv in Hmk as [([=] & _) | (e' & [= <-] & ->)].
    right. case_decide.
    + injection Hh as <- <-. done.
    + by apply mkdir_exists_inv in Hh.
Qed.

Lemma key_take_all (c : list string) (p : Path) :
  key c (mkPath (is_absolute p) (take (length (names p)) (names p)))
  = key c p.
Proof. rewrite firstn_all. by destruct p. Qed.

(** [Path.mkdir] with [parents]: the other parts of the world are as
    they were; an entry is as it was, or is a new directory at the
    path or above it; and when the call returns the path is a
    directory. *)
Lemma mkdir_parents_inv (n : nat) (p : Path) (exist_ok : bool) (w w' : world)
    (r : outcome unit) :
  length (names p) = n ->
  mkdir_parents n p exist_ok w = (r, w') ->
  w' = set_fs (fs w') w
  /\ (forall k,
        fs w' !! k = fs w !! k
        \/ (fs w !! k = None /\ fs w' !! k = Some (Dir true)
            /\ exists i,
                 k = key (cwd w) (mkPath (is_absolute p) (take i (names p)))))
  /\ (r = Ok tt -> exists d, fs w' !! key (cwd w) p = Some (Dir d)).
Proof.
  revert p exist_ok w w' r.
  induction n as [|n IH]; intros p exist_ok w w' r Hlen Hrun.
  - cbn [mkdir_parents] in Hrun.
    apply try_except_inv in Hrun as [(a & Hmk & ->) | (e & w1 & Hmk & Hh)].
    + apply os_mkdir_inv in Hmk as [(_ & Hnone & ->) | (e & [=] & _)].
      cbn [fs set_fs]. split; [done |]. split.
      * intros k. destruct (decide (k = key (cwd w) p)) as [-> | Hne].
        -- right. rewrite lookup_insert_eq. split; [done |]. split; [done |].
           exists (length (names p)). by rewrite key_take_all.
        -- left. by rewrite lookup_insert_ne.
      * intros _. exists true. apply lookup_insert_eq.
    + apply os_mkdir_inv in Hmk as [([=] & _) | (e' & [= <-] & ->)].
      case_decide.
      * injection Hh as <- <-. rewrite set_fs_same.
        split; [done |]. split; [by left | done].
      * apply mkdir_exists_inv in Hh as [-> Hd]. rewrite set_fs_same.
        split; [done |]. split; [by left | done].
  - cbn [mkdir_parents] in Hrun.
    apply try_except_inv in Hrun as [(a & Hmk & ->) | (e & w1 & Hmk & Hh)].
    + apply os_mkdir_inv in Hmk as [(_ & Hnone & ->) | (e & [=] & _)].
      cbn [fs set_fs]. split; [done |]. split.
      * intros k. destruct (decide (k = key (cwd w) p)) as [-> | Hne].
        -- right. rewrite lookup_insert_eq. split; [done |]. split; [done |].
           exists (length (names p)). by rewrite key_take_all.
        -- left. by rewrite lookup_insert_ne.
      * intros _. exists true. apply lookup_insert_eq.
    + apply os_mkdir_inv in Hmk as [([=] & _) | (e' & [= <-] & ->)].
      case_decide.
      2: { apply mkdir_exists_inv in Hh as [-> Hd]. rewrite set_fs_same.
           split; [done |]. split; [by left | done]. }
      assert (forall i, take i (names (parent p))
                        = take (i `min` n) (names p)) as Htake.
      { intros i. unfold parent. cbn [names].
        rewrite removelast_firstn_len, Hlen. cbn [Nat.pred].
        by rewrite take_take. }
      apply bind_inv in Hh
        as [([] & w2 & Hpar & Hself) | (e' & Hpar & ->)].
      * apply IH in Hpar as (Hw2 & Hfr & _).
        2: { unfold parent. cbn [names]. rewrite removelast_firstn_len, Hlen.
             cbn [Nat.pred]. rewrite length_take. lia. }
        assert (cwd w2 = cwd w) as Hcwd by (by rewrite Hw2).
        apply mkdir_no_parents_inv in Hself
          as [(-> & Hnone & ->) | (-> & Hd)]; rewrite Hcwd in *.
        -- cbn [fs set_fs]. split; [by rewrite Hw2 |]. split.
           ++ intros k. destruct (decide (k = key (cwd w) p)) as [-> | Hne].
              ** right. rewrite lookup_insert_eq.
                 destruct (Hfr (key (cwd w) p)) as [Heq | (Hn & Hs & _)].
                 --- split; [congruence |]. split; [done |].
                     exists (length (names p)). by rewrite key_take_all.
                 --- congruence.
              ** rewrite lookup_insert_ne by done.
                 destruct (Hfr k) as [Heq | (Hn & Hs & i & ->)];
                   [by left |].
                 right. split; [done |]. split; [done |].
                 exists (i `min` n). cbn [is_absolute parent].
                 by rewrite Htake.
           ++ intros _. exists true. apply lookup_insert_eq.
        -- split; [done |]. split; [| done].
           intros k. destruct (Hfr k) as [Heq | (Hn & Hs & i & ->)];
             [by left |].
           right. split; [done |]. split; [done |].
           exists (i `min` n). cbn [is_absolute parent]. by rewrite Htake.
      * apply IH in Hpar as (Hw2 & Hfr & _).
        2: { unfold parent. cbn [names]. rewrite removelast_firstn_len, Hlen.
             cbn [Nat.pred]. rewrite length_take. lia. }
        split; [done |]. split; [| done].
        intros k. destruct (Hfr k) as [Heq | (Hn & Hs & i & ->)];
          [by left |].
        right. split; [done |]. split; [done |].
        exists (i `min` n). cbn [is_absolute parent]. by rewrite Htake.
Qed.

(** *** Saving a profile *)

Lemma call_ret {A} (a : A) (p : page) :
  call (mret a : M A) p = (mret a : Page A) p.
Proof. by destruct p. Qed.

Lemma get_session_bind {B} (k : session_state -> Page B) (p : page) :
  (get_session ≫= k) p = k (session p) p.
Proof. reflexivity. Qed.

Lemma set_session_bind {B} (f : session_state -> session_state)
    (k : unit -> Page B) (p : page) :
  (set_session f ≫= k) p
  = k tt (mkPage (f (session p)) (shown p) (machine p)).
Proof. reflexivity. Qed.

Lemma call_bind_ext {A B} (m : M A) (k : A -> M B) (k' : A -> Page B)
    (p : page) :
  (forall a w1,
      k' a (mkPage (session p) (shown p) w1)
      = call (k a) (mkPage (session p) (shown p) w1)) ->
  (call m ≫= k') p = call (m ≫= k) p.
Proof.
  intros Hk. cbv [mbind Page_bind page_bind M_bind bind call].
  cbn [machine].
  destruct (m (machine p)) as [[a | e] w1]; [| done].
  rewrite Hk. unfold call. by cbn [machine session shown].
Qed.

End PageFacts.

Section SaveFacts.

Context {pyobj : Type}.
Variable obj_bytes : pyobj -> option bytes.
Variable json_dumps : gmap string (value pyobj) -> exn + string.

Local Abbreviation M := (M pyobj).
Local Abbreviation Page := (Page pyobj).
Local Abbreviation world := (world pyobj).
Local Abbreviation page := (page pyobj).
Local Abbreviation save_profile_from_state :=
  (save_profile_from_state obj_bytes json_dumps).
Local Abbreviation save_profile_steps :=
  (save_profile_steps obj_bytes json_dumps).

Lemma save_profile_from_state_steps (profile_id : string) (result_pdf : bytes)
    (result_tex : string) (p : page) :
  save_profile_from_state profile_id result_pdf result_tex p
  = call (save_profile_steps (session_data (session p)) profile_id
            result_pdf result_tex) p.
Proof.
  unfold save_profile_from_state, save_profile_steps. cbv zeta.
  apply call_bind_ext. intros [] w1.
  rewrite get_session_bind. cbn [session].
  apply call_bind_ext. intros data w2. cbn [session shown].
  apply call_bind_ext. intros banner_bytes w3. cbn [session shown].
  assert (forall (k : unit -> M unit) k' p1,
             (forall a w, k' a (mkPage (session p1) (shown p1) w)
                          = call (k a) (mkPage (session p1) (shown p1) w)) ->
             (match banner_to_save obj_bytes banner_bytes with
              | Some b => call (write_bytes (profile_paths profile_id
                                               !!! "banner") b)
              | None => mret tt
              end ≫= k') p1
             = call (match banner_to_save obj_bytes banner_bytes with
                     | Some b => write_bytes (profile_paths profile_id
                                                !!! "banner") b
                     | None => mret tt
                     end ≫= k) p1) as Hbanner.
  { intros k k' p1 Hk. destruct (banner_to_save obj_bytes banner_bytes).
    - by apply call_bind_ext.
    - rewrite <- (call_bind_ext (mret tt) k k' p1 Hk).
      cbv [mbind Page_bind page_bind]. by rewrite call_ret. }
  apply Hbanner. intros [] w4. cbn [session shown].
  apply call_bind_ext. intros [] w5. cbn [session shown].
  apply call_bind_ext. intros items w6. cbn [session shown].
  apply call_bind_ext. intros text w7. cbn [session shown].
  apply call_bind_ext. intros [] w8. cbn [session shown].
  apply call_bind_ext. intros [] w9. cbn [session shown].
  reflexivity.
Qed.

Lemma key_relative (c ns : list string) :
  Forall (fun n => n <> "..") ns -> key c (mkPath false ns) = collapse c ++ ns.
Proof.
  unfold key. cbn [is_absolute names].
  induction ns as [|n ns IH] using rev_ind; intros Hns.
  - by rewrite !app_nil_r.
  - apply Forall_app in Hns as [Hns [Hn _]%Forall_cons].
    rewrite !app_assoc, collapse_snoc by done. by rewrite (IH Hns).
Qed.

Lemma profile_paths_lookup (profile_id : string) :
  valid_name profile_id ->
  profile_paths profile_id !!! "dir" = mkPath false ["users"; profile_id]
  /\ profile_paths profile_id !!! "data"
     = mkPath false ["users"; profile_id; "data.txt"]
  /\ profile_paths profile_id !!! "banner"
     = mkPath false ["users"; profile_id; "photo_banner.png"]
  /\ profile_paths profile_id !!! "pdf"
     = mkPath false ["users"; profile_id; "chief_cv.pdf"]
  /\ profile_paths profile_id !!! "tex"
     = mkPath false ["users"; profile_id; "main.tex"].
Proof.
  intros Hv. rewrite (profile_paths_valid_name profile_id Hv).
  repeat split; reflexivity.
Qed.

Lemma dict_copy_run (d : loc) (w : world) :
  dict_copy d w
  = (Ok (fresh (dom (heap w))),
     set_heap (<[fresh (dom (heap w)) := heap w !!! d]> (heap w)) w).
Proof. reflexivity. Qed.

Lemma dict_get_run (d : loc) (k : string) (w : world) :
  dict_get d k w = (Ok (default VNone ((heap w !!! d) !! k)), w).
Proof. reflexivity. Qed.

Lemma dict_pop_run (d : loc) (k : string) (w : world) :
  dict_pop d k w
  = (Ok tt, set_heap (<[d := delete k (heap w !!! d)]> (heap w)) w).
Proof. reflexivity. Qed.

(** The parts of the world that saving a profile keeps, whatever the
    call does: the current directory, the commands run, the dict
    objects there were, and the entries that are not in the folder of
    the profile, but for directories made on the way to the folder. *)
Local Abbreviation save_keeps kd w w' :=
  (cwd w' = cwd w /\ procs w' = procs w
   /\ (forall l, is_Some (heap w !! l) -> heap w' !! l = heap w !! l)
   /\ (forall k, ~ kd `prefix_of` k ->
         fs w' !! k = fs w !! k
         \/ (fs w !! k = None /\ fs w' !! k = Some (Dir true)
             /\ k `prefix_of` kd))).

Lemma save_keeps_write (kd : list string) (w w1 : world) (n : string)
    (b : bytes) :
  save_keeps kd w w1 ->
  save_keeps kd w (set_fs (<[kd ++ [n] := File b]> (fs w1)) w1).
Proof.
  intros (Hc & Hp & Hh & Hf). cbn [fs cwd procs heap set_fs].
  split; [done |]. split; [done |]. split; [done |].
  intros k Hk. rewrite lookup_insert_ne; [by apply Hf |].
  intros <-. apply Hk. by apply prefix_app_r.
Qed.

Lemma save_profile_steps_inv (record : loc) (profile_id : string)
    (result_pdf : bytes) (result_tex : string) (w w' : world)
    (r : outcome unit) :
  valid_name profile_id ->
  save_profile_steps record profile_id result_pdf result_tex w = (r, w') ->
  let kd := collapse (cwd w) ++ ["users"; profile_id] in
  let items := heap w !!! record in
  save_keeps kd w w'
  /\ (r = Ok tt ->
      (exists d, fs w' !! kd = Some (Dir d))
      /\ fs w' !! (kd ++ ["chief_cv.pdf"]) = Some (File result_pdf)
      /\ fs w' !! (kd ++ ["main.tex"])
         = Some (File (list_byte_of_string result_tex))
      /\ (exists text,
            json_dumps (delete "photo_banner_bytes" items) = inr text
            /\ fs w' !! (kd ++ ["data.txt"])
               = Some (File (list_byte_of_string text)))
      /\ fs w' !! (kd ++ ["photo_banner.png"])
         = match banner_to_save obj_bytes
                   (default VNone (items !! "photo_banner_bytes")) with
           | Some b => Some (File b)
           | None => fs w !! (kd ++ ["photo_banner.png"])
           end).
Proof.
  intros Hv Hrun kd items.
  destruct (profile_paths_lookup profile_id Hv)
    as (Pd & Pdata & Pb & Ppdf & Ptex).
  assert (profile_id <> "..") as Hdd by (by destruct Hv as (_ & _ & ? & _)).
  assert (forall c n, n <> ".." ->
            key c (mkPath false ["users"; profile_id; n])
            = collapse c ++ ["users"; profile_id] ++ [n]) as Hkey.
  { intros c n Hn. apply key_relative. by repeat constructor. }
  unfold save_profile_steps in Hrun. cbv zeta in Hrun.
  rewrite Pd, Pdata, Pb, Ppdf, Ptex in Hrun. clear Pd Pdata Pb Ppdf Ptex.
  unfold Path_mkdir in Hrun. cbn [names length] in Hrun.
  (* the folder *)
  assert (forall w1 r1,
             mkdir_parents 2 (mkPath false ["users"; profile_id]) true w
             = (r1, w1) ->
             save_keeps kd w w1 /\ heap w1 = heap w
             /\ (forall n, fs w1 !! (kd ++ [n]) = fs w !! (kd ++ [n]))
             /\ (r1 = Ok tt -> exists d, fs w1 !! kd = Some (Dir d)))
    as Hmkdir.
  { intros w1 r1 Hmk.
    apply mkdir_parents_inv in Hmk as (Hw1 & Hfr & Hd); [| done].
    assert (forall i, key (cwd w)
                        (mkPath false (take i ["users"; profile_id]))
                      = collapse (cwd w) ++ take i ["users"; profile_id])
      as Hki.
    { intros i. apply key_relative.
      apply Forall_take. by repeat constructor. }
    split; [| split; [| split]].
    - split; [by rewrite Hw1 |]. split; [by rewrite Hw1 |].
      split; [by rewrite Hw1 |].
      intros k _. destruct (Hfr k) as [? | (? & ? & i & Hi)]; [by left |].
      right. split; [done |]. split; [done |].
      cbn [is_absolute names] in Hi. rewrite Hki in Hi. subst k kd.
      apply prefix_app, prefix_take.
    - by rewrite Hw1.
    - intros n. destruct (Hfr (kd ++ [n])) as [? | (_ & _ & i & Hi)];
        [done |].
      exfalso. cbn [is_absolute names] in Hi. rewrite Hki in Hi.
      apply (f_equal length) in Hi. subst kd.
      rewrite !length_app, length_take in Hi. cbn in Hi. lia.
    - intros Hok. destruct (Hd Hok) as [d Hdir]. exists d.
      rewrite <- Hdir. f_equal. subst kd. symmetry.
      apply key_relative. by repeat constructor. }
  apply bind_inv in Hrun as [([] & w1 & Hmk & Hrun) | (e & Hmk & ->)].
  2: { destruct (Hmkdir _ _ Hmk) as (Hk & _). split; [exact Hk | done]. }
  destruct (Hmkdir _ _ Hmk) as (Hk1 & Hh1 & Hfs1 & Hd1). clear Hmkdir Hmk.
  destruct (Hd1 eq_refl) as [d Hdir]. clear Hd1.
  (* the copy of the record *)
  rewrite (bind_run_ok _ _ _ _ _ (dict_copy_run record w1)) in Hrun.
  set (l := fresh (dom (heap w1))) in Hrun.
  set (w2 := set_heap _ w1) in Hrun.
  assert (heap w !! l = None) as Hl.
  { rewrite <- Hh1. apply not_elem_of_dom. apply is_fresh. }
  assert (heap w2 !!! l = items) as Hitems.
  { subst w2. cbn [heap set_heap]. rewrite lookup_total_insert_eq.
    by rewrite Hh1. }
  assert (save_keeps kd w w2) as Hk2.
  { destruct Hk1 as (Hc & Hp & Hh & Hf).
    split; [done |]. split; [done |]. split; [| done].
    intros l' Hl'. subst w2. cbn [heap set_heap].
    rewrite lookup_insert_ne; [by apply Hh |].
    intros <-. rewrite Hl in Hl'. by destruct Hl'. }
  assert (cwd w2 = cwd w) as Hc2 by (by destruct Hk2).
  rewrite (bind_run_ok _ _ _ _ _ (dict_get_run l _ w2)) in Hrun.
  rewrite Hitems in Hrun.
  set (v := default VNone (items !! "photo_banner_bytes")) in *.
  (* the banner *)
  apply bind_inv in Hrun as [([] & w4 & Hb & Hrun) | (e & Hb & ->)].
  2: { split; [| done].
       destruct (banner_to_save obj_bytes v) as [b |]; [| done].
       by apply write_bytes_inv in Hb as [([=] & _) | (e' & _ & ->)]. }
  assert (save_keeps kd w w4 /\ heap w4 = heap w2
          /\ fs w4 !! kd = Some (Dir d)
          /\ fs w4 !! (kd ++ ["photo_banner.png"])
             = match banner_to_save obj_bytes v with
               | Some b => Some (File b)
               | None => fs w !! (kd ++ ["photo_banner.png"])
               end) as (Hk4 & Hh4 & Hdir4 & Hbanner).
  { destruct (banner_to_save obj_bytes v) as [b |].
    - apply write_bytes_inv in Hb as [(_ & -> & _) | (e' & [=] & _)].
      rewrite Hkey, Hc2, app_assoc by done. fold kd.
      split; [by apply save_keeps_write |]. split; [done |].
      cbn [fs set_fs]. split.
      + rewrite lookup_insert_ne; [done |]. apply app_singleton_ne.
      + apply lookup_insert_eq.
    - injection Hb as <-. split; [done |]. split; [done |].
      split; [done |]. apply Hfs1. }
  clear Hb.
  (* the record without the bytes, as JSON *)
  rewrite (bind_run_ok _ _ _ _ _ (dict_pop_run l _ w4)) in Hrun.
  set (w5 := set_heap _ w4) in Hrun.
  rewrite (bind_run_ok _ _ _ _ _ (dict_items_run l w5)) in Hrun.
  assert (heap w5 !!! l = delete "photo_banner_bytes" items) as Hitems5.
  { subst w5. cbn [heap set_heap]. rewrite lookup_total_insert_eq.
    by rewrite Hh4, Hitems. }
  rewrite Hitems5 in Hrun.
  assert (save_keeps kd w w5) as Hk5.
  { destruct Hk4 as (Hc & Hp & Hh & Hf).
    split; [done |]. split; [done |]. split; [| done].
    intros l' Hl'. subst w5. cbn [heap set_heap].
    rewrite lookup_insert_ne; [by apply Hh |].
    intros <-. rewrite Hl in Hl'. by destruct Hl'. }
  assert (cwd w5 = cwd w) as Hc5 by (by destruct Hk5).
  apply bind_inv in Hrun as [(text & w6 & Hjson & Hrun) | (e & Hjson & ->)].
  2: { apply lift_inv in Hjson as [-> _]. split; [exact Hk5 | done]. }
  apply lift_inv in Hjson as [-> Hjson].
  destruct (json_dumps (delete "photo_banner_bytes" items))
    as [e | text'] eqn:Hdumps; [done |]. injection Hjson as <-.
  (* the three files *)
  unfold write_text in Hrun.
  apply bind_inv in Hrun as [([] & w7 & Hwr & Hrun) | (e & Hwr & ->)].
  2: { apply write_bytes_inv in Hwr as [([=] & _) | (e' & _ & ->)].
       split; [exact Hk5 | done]. }
  apply write_bytes_inv in Hwr as [(_ & -> & _) | (e' & [=] & _)].
  rewrite Hkey, Hc5, app_assoc in Hrun by done. fold kd in Hrun.
  pose proof (save_keeps_write kd w w5 "data.txt"
                (list_byte_of_string text) Hk5) as Hk7.
  set (w7 := set_fs _ w5) in *.
  assert (cwd w7 = cwd w) as Hc7 by (by destruct Hk7).
  apply bind_inv in Hrun as [([] & w8 & Hwr & Hrun) | (e & Hwr & ->)].
  2: { apply write_bytes_inv in Hwr as [([=] & _) | (e' & _ & ->)].
       split; [exact Hk7 | done]. }
  apply write_bytes_inv in Hwr as [(_ & -> & _) | (e' & [=] & _)].
  rewrite Hkey, Hc7, app_assoc in Hrun by done. fold kd in Hrun.
  pose proof (save_keeps_write kd w w7 "chief_cv.pdf" result_pdf Hk7) as Hk8.
  set (w8 := set_fs _ w7) in *.
  assert (cwd w8 = cwd w) as Hc8 by (by destruct Hk8).
  apply write_bytes_inv in Hrun as [(-> & -> & _) | (e' & -> & ->)].
  2: { split; [exact Hk8 | done]. }
  rewrite Hkey, Hc8, app_assoc by done. fold kd.
  split; [by apply save_keeps_write |]. intros _.
  assert (forall a b : string, a <> b -> kd ++ [a] <> kd ++ [b]) as Hne.
  { intros a b Hab [= ->]%app_inv_head. done. }
  subst w8 w7. cbn [fs set_fs].
  split; [| split; [| split; [| split]]].
  - exists d. rewrite !lookup_insert_ne by apply app_singleton_ne.
    subst w5. exact Hdir4.
  - rewrite lookup_insert_ne by (by apply Hne). apply lookup_insert_eq.
  - apply lookup_insert_eq.
  - exists text. split; [done |].
    rewrite !lookup_insert_ne by (by apply Hne). apply lookup_insert_eq.
  - rewrite !lookup_insert_ne by (by apply Hne). subst w5. exact Hbanner.
Qed.

End SaveFacts.


(** * Further properties of the code *)

Section FurtherProperties.

Context {pyobj : Type}.
Variable obj_str : pyobj -> string.
Variable obj_truthy : pyobj -> bool.
Variable obj_fspath : pyobj -> option string.
Variable tmpdir : string.
Variable rand_name : nat -> string.
Variable exec : list string -> list string -> fsmap -> exn + completed.
Context {template : Type}.
Variable get_template :
  Environment (value pyobj) -> string -> list string -> fsmap ->
  exn + template.
Variable render :
  template -> list string -> fsmap -> gmap string (value pyobj) ->
  exn + string.

Local Abbreviation M := (M pyobj).
Local Abbreviation world := (world pyobj).
Local Abbreviation latex_escape := (latex_escape pyobj obj_str).
Local Abbreviation py_str := (py_str pyobj obj_str).
Local Abbreviation render_and_compile :=
  (render_and_compile obj_str tmpdir rand_name exec get_template render).
Local Abbreviation render_and_compile_chief :=
  (render_and_compile_chief obj_str obj_truthy obj_fspath tmpdir rand_name
     exec get_template render).
Local Abbreviation _resolve_asset_path :=
  (_resolve_asset_path obj_truthy obj_fspath).

(** X1.  The escaper never gives the same text for two values with
    different texts ([None] aside, which is escaped to the empty text
    as the empty text is): the text of a value can be read back from
    its escaped form. *)
Theorem latex_escape_injective (v v' : value pyobj) :
  v <> VNone -> v' <> VNone ->
  py_str v <> py_str v' ->
  latex_escape v <> latex_escape v'.
Proof.
  intros Hv Hv' Hne Heq. apply Hne, escape_text_inj.
  by destruct v, v'.
Qed.

(** X2.  The escaper returns a text as it is exactly when the text
    holds none of the ten special characters. *)
Theorem latex_escape_unchanged_iff (s : string) :
  latex_escape (VStr s) = s
  <-> Forall (fun c => c ∉ specials) (list_ascii_of_string s).
Proof. apply escape_text_fixed. Qed.

(** X3.  The escaped form of a text is never shorter than the text and
    at most eighteen times as long, the length of the longest escape
    sequence. *)
Theorem latex_escape_length_bounds (s : string) :
  String.length s <= String.length (latex_escape (VStr s))
  /\ String.length (latex_escape (VStr s)) <= 18 * String.length s.
Proof. apply escape_text_length. Qed.

(** X4.  Escaping a text twice gives the same as escaping it once
    exactly when the text holds no special character: on any other
    text the second pass escapes the backslashes and braces that the
    first has written. *)
Theorem latex_escape_twice (s : string) :
  latex_escape (VStr (latex_escape (VStr s))) = latex_escape (VStr s)
  <-> Forall (fun c => c ∉ specials) (list_ascii_of_string s).
Proof.
  rewrite <- escape_text_fixed. split.
  - apply escape_text_inj.
  - intros H. change (latex_escape (VStr s))
      with (join "" (map replacements_get (list_ascii_of_string s))).
    by rewrite !H.
Qed.

(** X5.  When the compiler cannot be started, both build functions
    raise a [RuntimeError] made from the exception of
    [subprocess.run]: its text is the text of that exception followed
    by the build folder, and that exception is its cause.  The compiler
    is not called again, and the folder stays, with [main.tex] in
    it. *)
Theorem compiler_not_started_is_reported (data : loc)
    (template_path template_name : string) :
  reports_start_failure (render_and_compile data template_path)
  /\ reports_start_failure
       (render_and_compile_chief data template_path template_name).
Proof.
  split; apply (trace_reports_start_failure render).
  - intros w r w'. apply render_and_compile_trace.
  - intros w r w'. apply render_and_compile_chief_trace.
Qed.

(** X6.  However a build ends, it has called no command but the
    compiler, at most once, in a folder that did not exist when the
    build started and that the build has made, and the current
    directory is the one it was. *)
Theorem build_runs_only_the_compiler (data : loc)
    (template_path template_name : string) :
  runs_only_the_compiler (render_and_compile data template_path)
  /\ runs_only_the_compiler
       (render_and_compile_chief data template_path template_name).
Proof.
  split; apply (trace_only_the_compiler render).
  - intros w r w'. apply render_and_compile_trace.
  - intros w r w'. apply render_and_compile_chief_trace.
Qed.

(** X7.  When the template cannot be loaded, or cannot be rendered
    with the record, [render_and_compile] raises the exception of
    Jinja as it is; it has printed its line, and has made no folder,
    written no file and called no command. *)
Theorem template_failure_makes_no_folder (data : loc)
    (template_path : string) (w : world) (e : exn) :
  let env :=
    set_filter "latex" latex_escape
      (mkEnvironment template_path true true "{%" "%}" "{#" "#}" ∅) in
  get_template env "main.tex.j2" (cwd w) (fs w) = inl e
  \/ (exists t,
        get_template env "main.tex.j2" (cwd w) (fs w) = inr t
        /\ render t (cwd w) (fs w) (heap w !!! data) = inl e) ->
  render_and_compile data template_path w
  = (Raise e,
     set_stdout (stdout w ++ ["Registered Jinja filter: latex"]) w).
Proof.
  intros env H. unfold render_and_compile. cbv zeta. fold env.
  rewrite (bind_run_ok _ _ _ _ _ (print_run _ w)).
  set (w0 := set_stdout _ w).
  destruct H as [Ht | (t & Ht & Hr)].
  - apply bind_run_raise.
    unfold env_get_template. cbv [mbind M_bind bind get_world].
    subst w0. cbn [cwd fs set_stdout]. by rewrite Ht.
  - assert (env_get_template get_template env "main.tex.j2" w0 = (Ok t, w0))
      as Hstep.
    { unfold env_get_template. cbv [mbind M_bind bind get_world].
      subst w0. cbn [cwd fs set_stdout]. by rewrite Ht. }
    rewrite (bind_run_ok _ _ _ _ _ Hstep). clear Hstep.
    rewrite (bind_run_ok _ _ _ _ _ (dict_items_run data w0)).
    apply bind_run_raise.
    unfold template_render. cbv [mbind M_bind bind get_world].
    subst w0. cbn [cwd fs heap set_stdout]. by rewrite Hr.
Qed.


Lemma bind_fst_ok {A B} (m : M A) (k : A -> M B) (w : world) (b : B) :
  ((m ≫= k) w).1 = Ok b ->
  exists a w1, m w = (Ok a, w1) /\ (k a w1).1 = Ok b.
Proof.
  cbv [mbind M_bind bind]. destruct (m w) as [[a | e] w1]; [| done].
  intros H. by exists a, w1.
Qed.

(** A candidate that the resolver returns was found where it is, and
    the resolver goes on to the next one only when it was not found. *)
Lemma candidate_step_inv (p : Path) (rest : M (option Path)) (w : world)
    (q : Path) :
  ((q' ← Path_resolve p;
    e ← Path_exists q';
    if (e : bool) then mret (Some q') else rest) w).1 = Ok (Some q) ->
  (is_absolute q = true /\ on_disk w q) \/ (rest w).1 = Ok (Some q).
Proof.
  unfold Path_resolve, Path_exists, resolve.
  destruct (has_nul (path_str p)); [done |].
  cbv [mbind M_bind bind get_world mret M_ret ret]. cbn [fs cwd].
  destruct (exists_outcome (fs w) (cwd w) (mkPath true (key (cwd w) p)))
    as [e | [|]] eqn:Hex; cbn [lift raise ret fst]; [done | | by right].
  intros [= <-]. left. split; [done |].
  by apply exists_outcome_found.
Qed.

(** X9.  Whatever value is passed for the explicit path, a path that
    the asset resolver returns is absolute and exists on the file
    system. *)
Theorem resolved_asset_exists (v : value pyobj)
    (template_dir project_root : Path) (default_name : string) (w : world)
    (p : Path) :
  (_resolve_asset_path v template_dir project_root default_name w).1
  = Ok (Some p) ->
  is_absolute p = true /\ on_disk w p.
Proof.
  unfold _resolve_asset_path. cbv zeta.
  assert (forall rest : M (option Path),
             (rest = mret None) -> (rest w).1 = Ok (Some p) -> False)
    as Hnone by (by intros ? ->).
  destruct (truthy obj_truthy v).
  - intros Hrun.
    destruct (Path_of_value obj_fspath v w) as [[q | e] w0] eqn:Hq.
    2: { by rewrite (bind_run_raise _ _ _ _ _ Hq) in Hrun. }
    assert (w0 = w) as ->.
    { by apply (readonly_inv _ _ _ _ (readonly_Path_of_value obj_fspath v) Hq). }
    rewrite (bind_run_ok _ _ _ _ _ Hq) in Hrun.
    apply bind_fst_ok in Hrun as (e0 & w1 & Hlook & Hrun).
    assert (w1 = w) as ->.
    { assert (readonly (if is_absolute q then Path_exists q
                        else (mret false : M bool))) as Hro.
      { destruct (is_absolute q);
          [apply readonly_Path_exists | apply readonly_ret]. }
      by apply (readonly_inv _ _ _ _ Hro Hlook). }
    destruct e0.
    + injection Hrun as <-.
      destruct (is_absolute q); [| done]. split; [done |].
      apply exists_outcome_found.
      unfold Path_exists in Hlook. cbv [mbind M_bind bind get_world] in Hlook.
      by destruct (exists_outcome (fs w) (cwd w) q) as [e | [|]].
    + apply candidate_step_inv in Hrun as [? | Hrun]; [done |].
      apply candidate_step_inv in Hrun as [? | Hrun]; [done |].
      apply candidate_step_inv in Hrun as [? | Hrun]; [done |].
      apply candidate_step_inv in Hrun as [? | Hrun]; [done |].
      by destruct (Hnone _ eq_refl Hrun).
  - intros Hrun.
    apply candidate_step_inv in Hrun as [? | Hrun]; [done |].
    apply candidate_step_inv in Hrun as [? | Hrun]; [done |].
    by destruct (Hnone _ eq_refl Hrun).
Qed.

(** X10.  The asset resolver on an explicit path that is neither [None]
    nor a [str]: an object that is false counts as no explicit path; an
    object that is true and not path-like makes the resolver raise
    [TypeError], with nothing changed; a path-like object whose path is
    not the empty text is resolved as that text is. *)
Theorem resolve_asset_path_of_object (o : pyobj)
    (template_dir project_root : Path) (default_name : string) (w : world) :
  (obj_truthy o = false ->
   _resolve_asset_path (VObj o) template_dir project_root default_name w
   = _resolve_asset_path VNone template_dir project_root default_name w)
  /\ (obj_truthy o = true -> obj_fspath o = None ->
      exists e,
        _resolve_asset_path (VObj o) template_dir project_root default_name w
        = (Raise e, w)
        /\ exn_cls e = TypeError)
  /\ (forall s,
        obj_truthy o = true -> obj_fspath o = Some s -> s <> "" ->
        _resolve_asset_path (VObj o) template_dir project_root default_name w
        = _resolve_asset_path (VStr s) template_dir project_root
            default_name w).
Proof.
  unfold _resolve_asset_path. cbn [truthy Path_of_value].
  split; [| split].
  - by intros ->.
  - intros -> ->. by eexists.
  - intros s -> -> Hs.
    assert ((s =? "") = false) as -> by (by apply String.eqb_neq).
    done.
Qed.


(** X12.  [cleanup_workdir] only removes: every entry of the file
    system is afterwards as it was or is gone, and an entry that is
    gone was at or below the folder passed. *)
Theorem cleanup_workdir_only_removes_below (workdir : option string)
    (w : world) (k : list string) :
  fs (cleanup_workdir workdir w).2 !! k = fs w !! k
  \/ (fs (cleanup_workdir workdir w).2 !! k = None
      /\ exists s,
           workdir = Some s /\ key (cwd w) (Path_of s) `prefix_of` k).
Proof. apply cleanup_workdir_frame_run. Qed.

(** A path without [..] names the entry that its components lead to. *)
Lemma key_without_dotdot (c : list string) (p : Path) :
  ".." ∉ names p ->
  key c p = (if is_absolute p then [] else collapse c) ++ names p.
Proof.
  rewrite key_fold. generalize (if is_absolute p then [] else collapse c).
  induction (names p) as [|n ns IH]; intros base Hns; cbn [fold_left].
  - by rewrite app_nil_r.
  - apply not_elem_of_cons in Hns as [Hn Hns].
    unfold collapse_step at 2. rewrite decide_False by done.
    rewrite (IH _ Hns). by rewrite <- app_assoc.
Qed.

(** X13.  [cleanup_workdir] on a folder that is named component by
    component, by a text without [.] or [..] components and without a
    doubled or trailing slash, when every entry at or below the folder
    lies in a directory that can be written: the folder and all that
    is in it are removed, and every other entry of the file system is
    as it was. *)
Theorem cleanup_workdir_removes_tree (s : string) (w : world) (d : bool) :
  let kw := key (cwd w) (Path_of s) in
  plain_path s ->
  fs w !! kw = Some (Dir d) ->
  tree_writable (fs w) kw ->
  exists w',
    cleanup_workdir (Some s) w = (Ok tt, w')
    /\ forall k,
         fs w' !! k = if decide (kw `prefix_of` k) then None else fs w !! k.
Proof.
  intros kw (Hnames & Hdd & _). apply cleanup_workdir_removes_run.
  - intros ->. by apply Hnames.
  - subst kw. rewrite key_without_dotdot by done.
    intros [_ Hnil]%app_eq_nil. by apply Hnames.
Qed.

(** X20.  [list_profiles] returns the empty list, and changes nothing,
    when there is no [users] in the current directory; when [users] is
    a regular file it raises [NotADirectoryError]. *)
Theorem list_profiles_without_directory (w : world) :
  (fs w !! key (cwd w) USERS_DIR = None -> list_profiles w = (Ok [], w))
  /\ (forall b,
        fs w !! key (cwd w) USERS_DIR = Some (File b) ->
        exists e,
          list_profiles w = (Raise e, w)
          /\ exn_cls e = NotADirectoryError).
Proof.
  unfold list_profiles. rewrite (bind_run_ok _ _ _ _ _ (path_exists_run _ w)).
  split.
  - intros ->. rewrite bool_decide_eq_false_2; [done |]. by intros [? ?].
  - intros b Hb. rewrite Hb. rewrite bool_decide_eq_true_2 by (by eexists).
    cbn [negb]. unfold iterdir. cbv [mbind M_bind bind get_world].
    rewrite Hb. by eexists.
Qed.

(** X21.  When [users] is a directory, [list_profiles] changes nothing
    and returns the names of the directories that are in it, and of
    nothing else, each name once and in increasing order. *)
Theorem list_profiles_sorted_directories (w : world) (d : bool) :
  fs w !! key (cwd w) USERS_DIR = Some (Dir d) ->
  exists ns,
    list_profiles w = (Ok ns, w)
    /\ Sorted String.le ns
    /\ NoDup ns
    /\ forall n,
         n ∈ ns
         <-> n <> "." /\ n <> ".."
             /\ exists d', fs w !! (key (cwd w) USERS_DIR ++ [n])
                           = Some (Dir d').
Proof.
  intros Hd. unfold list_profiles.
  rewrite (bind_run_ok _ _ _ _ _ (path_exists_run _ w)), Hd.
  rewrite bool_decide_eq_true_2 by (by eexists). cbn [negb].
  assert (iterdir USERS_DIR w
          = (Ok (map (fun n => mkPath (is_absolute USERS_DIR)
                                 (names USERS_DIR ++ [n]))
                   (entry_names (fs w) (key (cwd w) USERS_DIR))), w))
    as Hiter.
  { unfold iterdir. cbv [mbind M_bind bind get_world]. by rewrite Hd. }
  rewrite (bind_run_ok _ _ _ _ _ Hiter).
  assert (Forall (fun n => n <> "..")
            (entry_names (fs w) (key (cwd w) USERS_DIR))) as Hnames.
  { apply Forall_forall. by intros n (_ & ? & _)%elem_of_entry_names. }
  rewrite (bind_run_ok _ _ _ _ _ (directory_names_run _ _ w Hnames)).
  eexists. split; [reflexivity |]. split; [| split].
  - apply Sorted_merge_sort. apply _.
  - rewrite merge_sort_Permutation. apply NoDup_filter, entry_names_NoDup.
  - intros n. rewrite merge_sort_Permutation, list_elem_of_filter.
    rewrite elem_of_entry_names. split.
    + intros (Hdir & Hne & Hne' & _). done.
    + intros (Hne & Hne' & d' & Hdir). split; [by eexists |].
      split; [done |]. split; [done |]. rewrite Hdir. by eexists.
Qed.

End FurtherProperties.

Section ProfileNames.

Variable str_strip : string -> string.
Variable str_lower : string -> string.
Variable sub_whitespace : string -> string.

Local Abbreviation slugify_profile :=
  (slugify_profile str_strip str_lower sub_whitespace).

(** X17.  Whatever the two names are, the profile name that
    [slugify_profile] makes of them is a file name: it is not empty,
    holds only characters of [[a-z0-9_]], so no slash and no dot, and
    has no underscore at either end and no two underscores in a row. *)
Theorem slugify_profile_safe_name (first_name last_name : string) :
  valid_name (slugify_profile first_name last_name)
  /\ slug_shaped (list_ascii_of_string (slugify_profile first_name last_name)).
Proof.
  split.
  - apply slugify_profile_valid_name.
  - apply slugify_profile_chars.
Qed.

(** X18.  When the text [first_last] has the shape of a profile name
    already, and stripping, lower-casing and the substitution of white
    space leave it as it is, it is the profile name. *)
Theorem slugify_profile_keeps_clean_text (first_name last_name : string) :
  let text := first_name +:+ "_" +:+ last_name in
  sub_whitespace (str_lower (str_strip text)) = text ->
  slug_shaped (list_ascii_of_string text) ->
  slugify_profile first_name last_name = text.
Proof.
  intros text Huni (Hne & Hall & Hh & Hl & Hnd).
  pose proof (proj1 (no_double_iff _ _) Hnd) as Hnd'.
  unfold slugify_profile. cbv zeta. fold text. rewrite Huni.
  rewrite sub_runs_delete_id.
  2: { eapply Forall_impl; [exact Hall |]. by intros c ->. }
  rewrite sub_runs_collapse_id by done.
  rewrite strip_char_id by done.
  rewrite decide_False by done.
  apply string_of_list_ascii_of_string.
Qed.

(** X19.  Every path of the profile made of two names lies at or below
    the folder of the profile in [users], whatever the names and the
    current directory are: no name leads out of [users]. *)
Theorem profile_paths_stay_below_users (first_name last_name : string)
    (c : list string) (k : string) (p : Path) :
  let profile_id := slugify_profile first_name last_name in
  profile_paths profile_id !! k = Some p ->
  (collapse c ++ ["users"; profile_id]) `prefix_of` key c p
  /\ length (key c p) <= length (collapse c) + 3.
Proof.
  intros profile_id. apply profile_paths_below.
  apply slugify_profile_valid_name.
Qed.

End ProfileNames.


Section PageProperties.

Context {pyobj : Type}.
Variable obj_str : pyobj -> string.
Variable obj_truthy : pyobj -> bool.
Variable obj_fspath : pyobj -> option string.
Variable tmpdir : string.
Variable rand_name : nat -> string.
Variable exec : list string -> list string -> fsmap -> exn + completed.
Context {template : Type}.
Variable get_template :
  Environment (value pyobj) -> string -> list string -> fsmap ->
  exn + template.
Variable render :
  template -> list string -> fsmap -> gmap string (value pyobj) ->
  exn + string.
Variable obj_bytes : pyobj -> option bytes.
Variable json_dumps : gmap string (value pyobj) -> exn + string.
Variable str_strip : string -> string.
Variable str_lower : string -> string.
Variable sub_whitespace : string -> string.

Local Abbreviation M := (M pyobj).
Local Abbreviation Page := (Page pyobj).
Local Abbreviation world := (world pyobj).
Local Abbreviation page := (page pyobj).
Local Abbreviation render_and_compile :=
  (render_and_compile obj_str tmpdir rand_name exec get_template render).
Local Abbreviation render_and_compile_chief :=
  (render_and_compile_chief obj_str obj_truthy obj_fspath tmpdir rand_name
     exec get_template render).
Local Abbreviation app_generate_pdf :=
  (app_generate_pdf obj_str tmpdir rand_name exec get_template render).
Local Abbreviation chief_app_generate_pdf :=
  (chief_app_generate_pdf obj_str obj_truthy obj_fspath tmpdir rand_name
     exec get_template render).
Local Abbreviation save_profile_from_state :=
  (save_profile_from_state obj_bytes json_dumps).
Local Abbreviation chief_super_app_generate_pdf :=
  (chief_super_app_generate_pdf obj_str obj_truthy obj_fspath tmpdir
     rand_name exec get_template render obj_bytes json_dumps
     str_strip str_lower sub_whitespace).
Local Abbreviation profile_to_save :=
  (profile_to_save obj_str str_strip str_lower sub_whitespace).

Lemma generate_pdf_contract_of_build (build : loc -> M RenderResult) :
  (forall data, successful_build_contract render (build data)) ->
  generate_pdf_contract build (generate_pdf build).
Proof.
  intros Hbuild p.
  destruct (generate_pdf_run build p) as [Hfalse Hrun].
  cbv zeta in Hfalse, Hrun. fold (cleaned p) in Hrun.
  set (ss0 := if text_truthy (last_workdir (session p))
              then set_last_workdir None (session p)
              else session p) in *.
  assert (session_data ss0 = session_data (session p)
          /\ last_pdf ss0 = last_pdf (session p)
          /\ last_tex ss0 = last_tex (session p)) as (Hd & Hp & Ht).
  { subst ss0. by destruct (text_truthy (last_workdir (session p))). }
  eexists. split; [exact Hrun |].
  destruct (build (session_data (session p)) (cleaned p))
    as [[res | e] w1] eqn:Hb.
  - cbn [session shown machine]. split; [done |].
    repeat (split; [done |]).
    destruct (Hbuild _ _ _ _ Hb) as (inv & proc & H). apply H.
  - cbn [session shown machine]. done.
Qed.

(** X22.  A press of [Generate PDF] in [app.py] and in [chief_app.py]
    never ends with an exception, and leaves the page as the call of
    the build function on the record of the session ends, after the
    clean-up of the folder of the build before.  When that call
    returns, the machine is the one it leaves, the page holds the
    PDF, the text and the folder of the build, [main.pdf] in that
    folder holds that PDF, and the page shows the success.  When that
    call raises, the machine is the one it leaves, the page shows the
    error and the text of the exception raised; it keeps the PDF and
    the text of the build before for the download buttons; it holds
    no folder, so the line [Temp build folder] of the handler is never
    shown. *)
Theorem generate_pdf_never_fails :
  generate_pdf_contract
    (fun data => render_and_compile data "templates") app_generate_pdf
  /\ generate_pdf_contract
       (fun data =>
          render_and_compile_chief data "templates" "main_chief.tex.j2")
       chief_app_generate_pdf.
Proof.
  split; apply generate_pdf_contract_of_build; intros data;
    apply trace_successful_build.
  - intros w r w'. apply render_and_compile_trace.
  - intros w r w'. apply render_and_compile_chief_trace.
Qed.

Lemma leaves_failed_build_of_build (build : loc -> M RenderResult) :
  (forall data, reports_compiler_failure (build data)) ->
  leaves_failed_build (generate_pdf build).
Proof.
  intros Hbuild p p' r invs inv proc Hrun Hprocs Hin Hres Hrc.
  destruct (generate_pdf_run build p) as [Hfalse Hrun'].
  cbv zeta in Hfalse, Hrun'. rewrite Hrun in Hrun'. clear Hrun.
  set (ss0 := if text_truthy (last_workdir (session p))
              then set_last_workdir None (session p)
              else session p) in *.
  set (w0 := if text_truthy (last_workdir (session p))
             then (cleanup_workdir (last_workdir (session p)) (machine p)).2
             else machine p) in *.
  assert (procs w0 = procs (machine p)) as Hp0.
  { subst w0. destruct (text_truthy (last_workdir (session p))); [| done].
    apply cleanup_workdir_procs. }
  destruct (build (session_data (session p)) w0) as [rb w1] eqn:Hb.
  assert (machine p' = w1) as Hw1.
  { injection Hrun' as _ ->. by destruct rb. }
  rewrite Hw1, <- Hp0 in Hprocs.
  destruct (Hbuild _ _ _ _ _ _ _ Hb Hprocs Hin Hres Hrc)
    as ((e & -> & _ & before & between & Htext) & _ & _ & _ & Hfs).
  injection Hrun' as _ ->. cbn [session shown machine].
  split; [done |]. split; [done |].
  exists before, between. by rewrite Htext.
Qed.

(** X26.  When the compiler exits with a status other than zero
    during a press of [Generate PDF] in [app.py] or in [chief_app.py],
    the page shows the error and a log that holds the whole output of
    the compiler and the build folder; the file system is as the
    compiler left it, so the folder of the failed build is not
    removed; and the page holds no folder, so the next press does not
    remove it either. *)
Theorem failed_build_folder_is_left :
  leaves_failed_build app_generate_pdf
  /\ leaves_failed_build chief_app_generate_pdf.
Proof.
  split; apply leaves_failed_build_of_build; intros data;
    apply (trace_reports_compiler_failure render).
  - intros w r w'. apply render_and_compile_trace.
  - intros w r w'. apply render_and_compile_chief_trace.
Qed.

(** X23.  When [save_profile_from_state] returns for a profile whose
    name is a file name, the folder [users/<name>] is a directory and
    holds the PDF in [chief_cv.pdf], the text in [main.tex], and in
    [data.txt] the JSON text of the record without its item
    [photo_banner_bytes]; [photo_banner.png] holds the bytes of that
    item when it is a [bytes] object that is not empty, and is as it
    was otherwise. *)
Theorem save_profile_saves (profile_id : string) (result_pdf : bytes)
    (result_tex : string) (p p' : page) :
  let folder := key (cwd (machine p)) USERS_DIR ++ [profile_id] in
  let record := heap (machine p) !!! session_data (session p) in
  valid_name profile_id ->
  save_profile_from_state profile_id result_pdf result_tex p = (Ok tt, p') ->
  (exists d, fs (machine p') !! folder = Some (Dir d))
  /\ fs (machine p') !! (folder ++ ["chief_cv.pdf"]) = Some (File result_pdf)
  /\ fs (machine p') !! (folder ++ ["main.tex"])
     = Some (File (list_byte_of_string result_tex))
  /\ (exists text,
        json_dumps (delete "photo_banner_bytes" record) = inr text
        /\ fs (machine p') !! (folder ++ ["data.txt"])
           = Some (File (list_byte_of_string text)))
  /\ fs (machine p') !! (folder ++ ["photo_banner.png"])
     = match banner_to_save obj_bytes
               (default VNone (record !! "photo_banner_bytes")) with
       | Some b => Some (File b)
       | None => fs (machine p) !! (folder ++ ["photo_banner.png"])
       end.
Proof.
  intros folder record Hv Hrun.
  rewrite save_profile_from_state_steps, call_run in Hrun.
  injection Hrun as Hr <-. cbn [machine].
  destruct (save_profile_steps_inv obj_bytes json_dumps
              (session_data (session p)) profile_id result_pdf result_tex
              (machine p) _ _ Hv (surjective_pairing _)) as (_ & Hok).
  subst folder. rewrite key_USERS_DIR, <- app_assoc. by apply Hok.
Qed.

(** X24.  However [save_profile_from_state] ends, for a profile whose
    name is a file name: the attributes of the session and the
    elements shown are as they were; the current directory and the
    commands run are as they were; every dict object holds the items
    it held, the record of the session among them; and every entry of
    the file system outside the folder of the profile is as it was,
    but for directories made where there was nothing, all of them on
    the way to that folder. *)
Theorem save_profile_touches_only_the_profile (profile_id : string)
    (result_pdf : bytes) (result_tex : string) (p p' : page)
    (r : outcome unit) :
  let folder := key (cwd (machine p)) USERS_DIR ++ [profile_id] in
  valid_name profile_id ->
  save_profile_from_state profile_id result_pdf result_tex p = (r, p') ->
  session p' = session p
  /\ shown p' = shown p
  /\ cwd (machine p') = cwd (machine p)
  /\ procs (machine p') = procs (machine p)
  /\ (forall l, is_Some (heap (machine p) !! l) ->
        heap (machine p') !! l = heap (machine p) !! l)
  /\ (forall k, ~ folder `prefix_of` k ->
        fs (machine p') !! k = fs (machine p) !! k
        \/ (fs (machine p) !! k = None
            /\ fs (machine p') !! k = Some (Dir true)
            /\ k `prefix_of` folder)).
Proof.
  intros folder Hv Hrun.
  rewrite save_profile_from_state_steps, call_run in Hrun.
  injection Hrun as Hr <-. cbn [machine session shown].
  destruct (save_profile_steps_inv obj_bytes json_dumps
              (session_data (session p)) profile_id result_pdf result_tex
              (machine p) _ _ Hv (surjective_pairing _))
    as ((Hc & Hp & Hh & Hf) & _).
  subst folder. rewrite key_USERS_DIR, <- app_assoc. done.
Qed.

(** The choice of the profile to save. *)
Lemma choose_profile_run (p : page) :
  let data := session_data (session p) in
  let profile_id :=
    profile_to_save (selected_profile (session p))
      (heap (machine p) !!! data) in
  match selected_profile (session p) with
  | Some s =>
      if negb (s =? "") then mret s
      else new_profile_id obj_str str_strip str_lower sub_whitespace data
  | None => new_profile_id obj_str str_strip str_lower sub_whitespace data
  end p
  = (Ok profile_id,
     mkPage (set_selected_profile (Some profile_id) (session p))
       (shown p) (machine p)).
Proof.
  intros data profile_id. subst profile_id. unfold profile_to_save.
  assert (forall fresh_id,
            fresh_id
            = slugify_profile str_strip str_lower sub_whitespace
                (py_str pyobj obj_str
                   (default (VStr "")
                      ((heap (machine p) !!! data) !! "first_name")))
                (py_str pyobj obj_str
                   (default (VStr "")
                      ((heap (machine p) !!! data) !! "last_name"))) ->
            new_profile_id obj_str str_strip str_lower sub_whitespace data p
            = (Ok fresh_id,
               mkPage (set_selected_profile (Some fresh_id) (session p))
                 (shown p) (machine p))) as Hnew.
  { intros fresh_id ->. unfold new_profile_id.
    cbv [mbind Page_bind page_bind call dict_get_default M_bind bind
           get_world mret M_ret ret set_session Page_ret page_ret].
    reflexivity. }
  destruct p as [ss sh w]. cbn [session shown machine] in *.
  destruct ss as [d lp lt lw [s |] lo]; cbn [selected_profile text_truthy].
  - destruct (negb (s =? "")); [done | by apply Hnew].
  - by apply Hnew.
Qed.

(** X25.  A press of [Generate PDF] in [chief_super_app.py] never
    ends with an exception, and leaves the page as the build of the
    record of the session, after the clean-up of the folder of the
    build before, and then the saving of the profile end.  When the
    build raises, the machine is the one that the build leaves, so
    nothing is saved, and the page shows the error and the text of
    the exception only.  When the build returns, the page holds its
    result and the profile selected is the one that was selected or,
    when none was, the profile that [slugify_profile] names from the
    record, whose name is a file name; the profile is saved under
    that name.  When the saving returns, the page shows where the
    profile is saved, and the folder of the profile holds the PDF and
    the text.  When the saving raises, the page shows the error, the
    text of the exception and the folder of the build. *)
Theorem generate_and_save_never_fails :
  generate_and_save_contract obj_str obj_bytes json_dumps
    str_strip str_lower sub_whitespace
    (fun data =>
       render_and_compile_chief data "templates" "main_chief.tex.j2")
    chief_super_app_generate_pdf.
Proof.
  intros p. unfold chief_super_app_generate_pdf.
  destruct (clean_last_workdir_run p) as (w0 & Hclean & Hw0).
  fold (cleaned p) in Hw0. subst w0.
  rewrite (page_bind_run_ok _ _ _ _ _ Hclean). clear Hclean.
  set (ss0 := if text_truthy (last_workdir (session p))
              then set_last_workdir None (session p)
              else session p) in *.
  assert (text_truthy (last_workdir ss0) = false) as Hfalse.
  { subst ss0. by destruct (text_truthy (last_workdir (session p))) eqn:H. }
  assert (session_data ss0 = session_data (session p)
          /\ last_pdf ss0 = last_pdf (session p)
          /\ last_tex ss0 = last_tex (session p)
          /\ selected_profile ss0 = selected_profile (session p))
    as (Hd & Hp & Ht & Hsel0).
  { subst ss0. by destruct (text_truthy (last_workdir (session p))). }
  unfold page_try. rewrite get_session_bind. cbn [session]. cbv zeta.
  rewrite Hd.
  set (data := session_data (session p)) in *.
  set (p0 := mkPage ss0 (shown p) (cleaned p)).
  destruct (render_and_compile_chief data "templates" "main_chief.tex.j2"
              (cleaned p)) as [[res | e] w1] eqn:Hb.
  2: { (* the build has raised *)
    rewrite (page_bind_run_raise _ _ p0 (mkPage ss0 (shown p) w1) e).
    2: { rewrite call_run. cbn [machine session shown p0]. by rewrite Hb. }
    rewrite build_failed_run. cbn [session shown machine]. rewrite Hfalse.
    eexists. split; [reflexivity |]. cbn [session shown machine]. done. }
  (* the build has returned *)
  rewrite (page_bind_run_ok _ _ p0 (mkPage ss0 (shown p) w1) res).
  2: { rewrite call_run. cbn [machine session shown p0]. by rewrite Hb. }
  rewrite !set_session_bind. cbn [session shown machine].
  rewrite get_session_bind. cbn [session].
  set (ss3 := set_last_workdir (Some (workdir res))
                (set_last_tex (Some (tex_str res))
                   (set_last_pdf (Some (pdf_bytes res)) ss0))).
  pose proof (choose_profile_run (mkPage ss3 (shown p) w1)) as Hchoose.
  cbv zeta in Hchoose. cbn [session shown machine] in Hchoose.
  change (session_data ss3) with (session_data ss0) in Hchoose.
  change (selected_profile ss3) with (selected_profile ss0) in Hchoose.
  rewrite Hd, Hsel0 in Hchoose. fold data in Hchoose.
  set (profile_id := profile_to_save (selected_profile (session p))
                       (heap w1 !!! data)) in *.
  change (selected_profile ss3) with (selected_profile ss0).
  rewrite Hsel0.
  rewrite (page_bind_run_ok _ _ _ _ _ Hchoose). clear Hchoose.
  set (ss4 := set_selected_profile (Some profile_id) ss3).
  assert (text_truthy (selected_profile (session p)) = false ->
          valid_name profile_id) as Hid.
  { intros Hnone. subst profile_id. unfold profile_to_save.
    rewrite Hnone. apply slugify_profile_valid_name. }
  destruct (save_profile_steps obj_bytes json_dumps data profile_id
              (pdf_bytes res) (tex_str res) w1) as [[[] | e] w2] eqn:Hsave.
  - (* the saving has returned *)
    rewrite (page_bind_run_ok _ _ _ (mkPage ss4 (shown p) w2) tt).
    2: { rewrite save_profile_from_state_steps, call_run.
         cbn [machine session shown]. change (session_data ss4) with
           (session_data ss0). rewrite Hd. fold data. by rewrite Hsave. }
    eexists. split; [reflexivity |]. cbn [session shown machine].
    split; [done |].
    repeat (split; [done |]).
    intros Hv.
    destruct (save_profile_steps_inv obj_bytes json_dumps data profile_id
                (pdf_bytes res) (tex_str res) w1 w2 (Ok tt) Hv Hsave)
      as (_ & Hok).
    destruct (Hok eq_refl) as (_ & Hpdf & Htex & _).
    assert (cwd w1 = cwd (machine p)) as Hcwd.
    { destruct (render_and_compile_chief_trace _ _ _ _ _ _ _ _ _ _ _ _ _ _
                  Hb) as (-> & _).
      unfold cleaned.
      destruct (text_truthy (last_workdir (session p))); [| done].
      apply cleanup_workdir_returns. }
    rewrite key_USERS_DIR, <- Hcwd, <- !app_assoc.
    rewrite <- app_assoc in Hpdf, Htex. done.
  - (* the saving has raised *)
    rewrite (page_bind_run_raise _ _ _ (mkPage ss4 (shown p) w2) e).
    2: { rewrite save_profile_from_state_steps, call_run.
         cbn [machine session shown]. change (session_data ss4) with
           (session_data ss0). rewrite Hd. fold data. by rewrite Hsave. }
    rewrite build_failed_run. cbn [session shown machine].
    eexists. split; [reflexivity |]. cbn [session shown machine].
    split; [done |]. repeat (split; [done |]). done.
Qed.

End PageProperties.

(** * The further properties on the concrete installations *)

Lemma latex_escape_injective_witness :
  latex_escape Demo.no_object Demo.obj_str (VStr "a_b")
  <> latex_escape Demo.no_object Demo.obj_str (VStr "a\_b").
Proof.
  apply (latex_escape_injective Demo.obj_str (VStr "a_b") (VStr "a\_b"));
    discriminate.
Defined.

Lemma compiler_not_started_is_reported_witness :
  (render_and_compile Demo.obj_str Demo.tmpdir Demo.rand_name
     DemoApp.exec_not_installed Demo.get_template Demo.render
     2%positive "templates" Demo.start).1
  = Raise
      (ExnFrom RuntimeError
         ("[Errno 2] No such file or directory: 'latexmk'" +:+ nl +:+ nl
          +:+ "Temp build folder: /tmp/cv_build_ak3x9q_")
         (Exn FileNotFoundError
            "[Errno 2] No such file or directory: 'latexmk'")).
Proof.
  set (run := render_and_compile Demo.obj_str Demo.tmpdir Demo.rand_name
                DemoApp.exec_not_installed Demo.get_template Demo.render
                2%positive "templates" Demo.start).
  set (e := Exn FileNotFoundError
              "[Errno 2] No such file or directory: 'latexmk'").
  set (folder_disk :=
         <[["tmp"; "cv_build_ak3x9q_"; "main.tex"] := File (Demo.utf8 "Name: ")]>
           (<[["tmp"; "cv_build_ak3x9q_"] := Dir true]> Demo.disk)).
  set (inv := mkInvocation latexmk_cmd "/tmp/cv_build_ak3x9q_" folder_disk
                (inl e)).
  destruct (compiler_not_started_is_reported Demo.obj_str Demo.obj_truthy
              Demo.obj_fspath Demo.tmpdir Demo.rand_name
              DemoApp.exec_not_installed Demo.get_template Demo.render
              2%positive "templates" "main_chief.tex.j2") as [H _].
  destruct (H Demo.start run.2 run.1 [inv] inv e) as (Hr & _).
  - exact (surjective_pairing run).
  - vm_compute. reflexivity.
  - left.
  - reflexivity.
  - exact Hr.
Defined.

Lemma template_failure_makes_no_folder_witness :
  Demo.render_and_compile 2%positive "nowhere" Demo.start
  = (Raise (Exn TemplateError "main.tex.j2"),
     set_stdout ["Registered Jinja filter: latex"] Demo.start).
Proof.
  apply (template_failure_makes_no_folder Demo.obj_str Demo.tmpdir
           Demo.rand_name Demo.exec Demo.get_template Demo.render
           2%positive "nowhere" Demo.start).
  left. vm_compute. reflexivity.
Defined.


Lemma resolved_asset_exists_witness :
  is_absolute (mkPath true ["app"; "photo_banner.png"]) = true
  /\ on_disk DemoApp.start (mkPath true ["app"; "photo_banner.png"]).
Proof.
  apply (resolved_asset_exists DemoApp.obj_truthy DemoApp.obj_fspath
           (VObj (DemoApp.PathLike "photo_banner.png"))
           (mkPath true ["app"; "templates"]) (mkPath true ["app"])
           "photo_banner.png" DemoApp.start).
  vm_compute. reflexivity.
Defined.

Lemma resolve_asset_path_of_object_witness :
  (exists e,
      _resolve_asset_path DemoApp.obj_truthy DemoApp.obj_fspath
        (VObj (DemoApp.Flag true)) (mkPath true ["app"; "templates"])
        (mkPath true ["app"]) "photo_banner.png" DemoApp.start
      = (Raise e, DemoApp.start)
      /\ exn_cls e = TypeError)
  /\ _resolve_asset_path DemoApp.obj_truthy DemoApp.obj_fspath
       (VObj (DemoApp.Flag false)) (mkPath true ["app"; "templates"])
       (mkPath true ["app"]) "photo_banner.png" DemoApp.start
     = _resolve_asset_path DemoApp.obj_truthy DemoApp.obj_fspath
         VNone (mkPath true ["app"; "templates"])
         (mkPath true ["app"]) "photo_banner.png" DemoApp.start.
Proof.
  split.
  - destruct (resolve_asset_path_of_object DemoApp.obj_truthy
                DemoApp.obj_fspath (DemoApp.Flag true)
                (mkPath true ["app"; "templates"]) (mkPath true ["app"])
                "photo_banner.png" DemoApp.start) as (_ & H & _).
    apply H; reflexivity.
  - destruct (resolve_asset_path_of_object DemoApp.obj_truthy
                DemoApp.obj_fspath (DemoApp.Flag false)
                (mkPath true ["app"; "templates"]) (mkPath true ["app"])
                "photo_banner.png" DemoApp.start) as (H & _).
    apply H; reflexivity.
Defined.


Lemma cleanup_workdir_removes_tree_witness :
  exists w',
    cleanup_workdir (Some "/tmp/cv_build_old") DemoApp.start = (Ok tt, w')
    /\ fs w' !! ["tmp"; "cv_build_old"; "out"; "main.log"] = None
    /\ fs w' !! ["tmp"; "cv_build_old"] = None
    /\ fs w' !! ["tmp"; "cv_build_older"] = Some (Dir true).
Proof.
  destruct (cleanup_workdir_removes_tree "/tmp/cv_build_old" DemoApp.start
              true) as (w' & Hrun & Hfs).
  - apply (bool_decide_unpack _). vm_compute. exact I.
  - vm_compute. reflexivity.
  - apply (bool_decide_unpack _). vm_compute. exact I.
  - exists w'. split; [exact Hrun |]. rewrite !Hfs.
    vm_compute. repeat split.
Defined.

Lemma move_item_swaps_neighbour_witness :
  exists lst',
    move_item ["BSc"; "MSc"; "PhD"] 2 (-1) = inr lst'
    /\ lst' ≡ₚ ["BSc"; "MSc"; "PhD"].
Proof.
  destruct (move_item_swaps_neighbour ["BSc"; "MSc"; "PhD"] 2 (-1))
    as (lst' & Hrun & Hperm & _).
  - cbn. lia.
  - exists lst'. split; [exact Hrun | exact Hperm].
Defined.

Lemma move_item_undo_witness :
  move_item ["BSc"; "PhD"; "MSc"] (2 + -1) (- -1)
  = inr ["BSc"; "MSc"; "PhD"].
Proof.
  apply (move_item_undo ["BSc"; "MSc"; "PhD"] ["BSc"; "PhD"; "MSc"] 2 (-1)).
  - cbn. lia.
  - cbn. lia.
  - reflexivity.
Defined.

Lemma move_item_index_error_witness :
  move_item ["BSc"; "MSc"; "PhD"] 3 (-1)
  = inl (IndexError "list index out of range")
  /\ move_item ["BSc"; "MSc"; "PhD"] (2 ^ 63) (1 - 2 ^ 63)
     = inl (IndexError "cannot fit 'int' into an index-sized integer").
Proof.
  split.
  - apply (move_item_index_error ["BSc"; "MSc"; "PhD"] 3 (-1)).
    right. cbn. lia.
  - apply (move_item_index_error ["BSc"; "MSc"; "PhD"] (2 ^ 63)
             (1 - 2 ^ 63)).
    right. cbn. lia.
Defined.

Lemma slugify_profile_keeps_clean_text_witness :
  DemoApp.slugify_profile "ada" "lovelace" = "ada_lovelace".
Proof.
  apply (slugify_profile_keeps_clean_text DemoApp.str_strip
           DemoApp.str_lower DemoApp.sub_whitespace "ada" "lovelace").
  - vm_compute. reflexivity.
  - unfold slug_shaped. apply (bool_decide_unpack _). vm_compute. exact I.
Defined.

Lemma profile_paths_stay_below_users_witness :
  (["app"; "users"; "ada_lovelace"]
     `prefix_of` ["app"; "users"; "ada_lovelace"; "chief_cv.pdf"]).
Proof.
  apply (profile_paths_stay_below_users DemoApp.str_strip DemoApp.str_lower
           DemoApp.sub_whitespace " Ada" "Lovelace!" ["app"] "pdf"
           (mkPath false ["users"; "ada_lovelace"; "chief_cv.pdf"])).
  vm_compute. reflexivity.
Defined.

Lemma list_profiles_without_directory_witness :
  list_profiles Demo.start = (Ok [], Demo.start).
Proof.
  destruct (list_profiles_without_directory Demo.start) as [H _].
  apply H. vm_compute. reflexivity.
Defined.

Lemma list_profiles_sorted_directories_witness :
  exists ns,
    list_profiles DemoApp.start = (Ok ns, DemoApp.start)
    /\ "grace_hopper" ∈ ns
    /\ "notes.txt" ∉ ns.
Proof.
  destruct (list_profiles_sorted_directories DemoApp.start true)
    as (ns & Hrun & _ & _ & Hin).
  - vm_compute. reflexivity.
  - exists ns. split; [exact Hrun |]. split.
    + apply Hin. split; [discriminate |]. split; [discriminate |].
      exists true. vm_compute. reflexivity.
    + intros (_ & _ & d & Hd)%Hin. vm_compute in Hd. discriminate.
Defined.

(** The profile name of two names as a visitor types them. *)
Example slugify_profile_example :
  DemoApp.slugify_profile "  Ada " "Lovelace-King" = "ada_lovelaceking"
  /\ DemoApp.slugify_profile "../.." "/etc" = "etc"
  /\ DemoApp.slugify_profile "" "" = "profile".
Proof. vm_compute. repeat split. Qed.

(** The profiles of the second installation, in order. *)
Example list_profiles_example :
  list_profiles DemoApp.start
  = (Ok ["ada_lovelace"; "grace_hopper"], DemoApp.start).
Proof. vm_compute. reflexivity. Qed.


Lemma save_profile_saves_witness :
  let p' :=
    (DemoApp.save_profile_from_state "alan_turing" (Demo.utf8 "%PDF-1.5")
       "\documentclass{article}" DemoApp.desk).2 in
  fs (machine p') !! ["app"; "users"; "alan_turing"; "chief_cv.pdf"]
  = Some (File (Demo.utf8 "%PDF-1.5"))
  /\ fs (machine p') !! ["app"; "users"; "alan_turing"; "photo_banner.png"]
     = Some (File (Demo.utf8 "JPEG")).
Proof.
  set (run := DemoApp.save_profile_from_state "alan_turing"
                (Demo.utf8 "%PDF-1.5") "\documentclass{article}"
                DemoApp.desk).
  destruct (save_profile_saves DemoApp.obj_bytes DemoApp.json_dumps
              "alan_turing" (Demo.utf8 "%PDF-1.5") "\documentclass{article}"
              DemoApp.desk run.2) as (_ & Hpdf & _ & _ & Hbanner).
  - unfold valid_name. apply (bool_decide_unpack _). vm_compute. exact I.
  - vm_compute. reflexivity.
  - split; [exact Hpdf | exact Hbanner].
Defined.

Lemma save_profile_touches_only_the_profile_witness :
  let p' :=
    (DemoApp.save_profile_from_state "alan_turing" (Demo.utf8 "%PDF-1.5")
       "\documentclass{article}" DemoApp.desk).2 in
  session p' = session DemoApp.desk
  /\ heap (machine p') !! 1%positive = Some DemoApp.record.
Proof.
  set (run := DemoApp.save_profile_from_state "alan_turing"
                (Demo.utf8 "%PDF-1.5") "\documentclass{article}"
                DemoApp.desk).
  destruct (save_profile_touches_only_the_profile DemoApp.obj_bytes
              DemoApp.json_dumps "alan_turing" (Demo.utf8 "%PDF-1.5")
              "\documentclass{article}" DemoApp.desk run.2 run.1)
    as (Hs & _ & _ & _ & Hh & _).
  - unfold valid_name. apply (bool_decide_unpack _). vm_compute. exact I.
  - exact (surjective_pairing run).
  - split; [exact Hs |]. apply (Hh 1%positive). by eexists.
Defined.

Lemma failed_build_folder_is_left_witness :
  let p :=
    mkPage (mkSession 2%positive None None (Some "/tmp/cv_build_old")
              None false) []
      (set_fs (<[["app"; "templates"; "main.tex.j2"]
                 := File (Demo.utf8 "\bad")]> DemoApp.disk) DemoApp.start) in
  let run := DemoApp.app_generate_pdf p in
  text_truthy (last_workdir (session run.2)) = false
  /\ fs (machine run.2) !! ["tmp"; "cv_build_ak3x9q_"; "main.tex"]
     = Some (File (Demo.utf8 "\bad")).
Proof.
  intros p run.
  set (folder_disk :=
         <[["tmp"; "cv_build_ak3x9q_"; "main.tex"] := File (Demo.utf8 "\bad")]>
           (<[["tmp"; "cv_build_ak3x9q_"] := Dir true]>
              (fs (cleanup_workdir (Some "/tmp/cv_build_old")
                     (machine p)).2))).
  set (proc := mkCompleted 12 "! Undefined control sequence." folder_disk).
  set (inv := mkInvocation latexmk_cmd "/tmp/cv_build_ak3x9q_" folder_disk
                (inr proc)).
  destruct (failed_build_folder_is_left DemoApp.obj_str DemoApp.obj_truthy
              DemoApp.obj_fspath Demo.tmpdir Demo.rand_name Demo.exec
              DemoApp.get_template DemoApp.render) as [H _].
  destruct (H p run.2 run.1 [inv] inv proc) as (Hfs & Hfalse & _).
  - exact (surjective_pairing run).
  - vm_compute. reflexivity.
  - left.
  - reflexivity.
  - discriminate.
  - split; [exact Hfalse |]. rewrite Hfs. vm_compute. reflexivity.
Defined.

(** A press of the button in [chief_super_app.py] on the page of the
    second installation: the old folder is removed, the build runs in
    a new one, and the profile is saved under the name made of the
    names of the record. *)
Example chief_super_app_press :
  let run := DemoApp.chief_super_app_generate_pdf DemoApp.desk in
  run.1 = Ok tt
  /\ shown run.2
     = [st_success "PDF generated and saved under users/alan_turing/"]
  /\ selected_profile (session run.2) = Some "alan_turing"
  /\ last_workdir (session run.2) = Some "/tmp/cv_build_ak3x9q_"
  /\ fs (machine run.2) !! ["tmp"; "cv_build_old"] = None
  /\ fs (machine run.2) !! ["app"; "users"; "alan_turing"; "main.tex"]
     = Some (File (Demo.utf8 "Chief: Alan"))
  /\ fs (machine run.2) !! ["app"; "users"; "alan_turing"; "photo_banner.png"]
     = Some (File (Demo.utf8 "JPEG")).
Proof. vm_compute. repeat split. Qed.

(** A press of the button in [app.py] on a machine without the
    compiler: the error and the log are shown, the page keeps the PDF
    of the build before and holds no folder, and the folder of the
    failed build stays on the disk. *)
Example app_press_without_compiler :
  let run :=
    generate_pdf
      (fun data =>
         render_and_compile DemoApp.obj_str Demo.tmpdir Demo.rand_name
           DemoApp.exec_not_installed DemoApp.get_template DemoApp.render
           data "templates")
      DemoApp.desk in
  run.1 = Ok tt
  /\ length (shown run.2) = 2
  /\ last_pdf (session run.2) = Some (Demo.utf8 "%PDF-old")
  /\ last_workdir (session run.2) = None
  /\ fs (machine run.2) !! ["tmp"; "cv_build_old"] = None
  /\ fs (machine run.2) !! ["tmp"; "cv_build_ak3x9q_"] = Some (Dir true).
Proof. vm_compute. repeat split. Qed.
